(** * Robust-SGD training loop of [active_robust.py]

    A shallow embedding of [ActiveSamplingRobust.run_batch_train],
    [run_train], [run_fed_train] and the dispatch of [run_main], together
    with the properties of the gradient buffer, the aggregation trigger, the
    metrics bookkeeping and the divergence stop.

    The collaborators that live outside the file (the model, the optimizer,
    the loader, the compressor, the aggregation rule, the evaluation routine
    and the wall clock) are the fields of the record [Env]; the loop itself
    is translated statement by statement. *)

From Stdlib Require Import ZArith QArith Lia Bool String.
From stdpp Require Import base option list.

Close Scope Q_scope.
Local Open Scope Z_scope.

(** ** Exceptions and results *)

Inductive Error : Type :=
| ValueError
| ZeroDivisionError
| IndexError
| NotImplementedError.

Inductive Result (A : Type) : Type :=
| Ok (a : A)
| Raise (e : Error).

Arguments Ok {A} a.
Arguments Raise {A} e.

#[global] Instance Result_ret : MRet Result := fun A a => Ok a.
#[global] Instance Result_bind : MBind Result := fun A B f r =>
  match r with
  | Ok a => f a
  | Raise e => Raise e
  end.

(** ** Scalars *)

(** Wall-clock durations are Python floats.  Only the operations the loop
    applies to them are modelled, with no algebraic law assumed. *)
Class TimeOps (T : Type) : Type := {
  t_zero : T;             (* the [0] an accumulator starts from *)
  t_add : T -> T -> T;    (* [+] *)
  t_pos : T -> bool;      (* [x > 0] *)
  t_div : T -> Z -> T     (* [x / n] *)
}.

(** The value returned by the evaluation routine: a float is NaN, an
    infinity, or a finite rational. *)
Inductive Loss : Type :=
| LNaN
| LInf (negative : bool)
| LFinite (q : Q).

Definition gt_1e3 (l : Loss) : bool :=
  match l with
  | LNaN => false
  | LInf negative => negb negative
  | LFinite q => negb (Qle_bool q (1000 # 1))
  end.

Definition isnan (l : Loss) : bool :=
  match l with LNaN => true | _ => false end.

Definition isinf (l : Loss) : bool :=
  match l with LInf _ => true | _ => false end.

(** [(train_loss > 1e3) | np.isnan(train_loss) | np.isinf(train_loss)] *)
Definition diverging (train_loss : Loss) : bool :=
  gt_1e3 train_loss || isnan train_loss || isinf train_loss.

(** Python's [a % b] on integers: floor remainder, an error for [b = 0]. *)
Definition py_mod (a b : Z) : Result Z :=
  if b =? 0 then Raise ZeroDivisionError else Ok (a mod b).

(** Python's [sum] of a list: a left fold of [+] starting from [0]. *)
Definition sum_time {T} `{TimeOps T} (l : list T) : T := fold_left t_add l t_zero.
Definition sum_int (l : list Z) : Z := fold_left Z.add l 0.

(** ** The Jacobian buffer, a numpy matrix *)

Section Buffer.
Context {R : Type} (r_zero : R).

Record Jacobian : Type := {
  jac_cols : nat;
  jac_rows : list (list R)
}.

(** [np.zeros((W, d))]: a negative dimension is a [ValueError]. *)
Definition np_zeros (W : Z) (d : nat) : Result Jacobian :=
  if W <? 0 then Raise ValueError
  else Ok {| jac_cols := d;
             jac_rows := replicate (Z.to_nat W) (replicate d r_zero) |}.

(** A row index of numpy: negative indices count from the end. *)
Definition np_index (n : nat) (ix : Z) : Result nat :=
  if (0 <=? ix) && (ix <? Z.of_nat n) then Ok (Z.to_nat ix)
  else if (- Z.of_nat n <=? ix) && (ix <? 0) then Ok (Z.to_nat (ix + Z.of_nat n))
  else Raise IndexError.

(** The value broadcast to a row of [d] entries: a vector of length [d]
    is taken as it is, a vector of length 1 is repeated, any other length
    is a [ValueError]. *)
Definition broadcast_row (d : nat) (g_i : list R) : Result (list R) :=
  if (length g_i =? d)%nat then Ok g_i
  else match g_i with
       | [x] => Ok (replicate d x)
       | _ => Raise ValueError
       end.

(** [G[ix, :] = g_i] *)
Definition set_row (G0 : Jacobian) (ix : Z) (g_i : list R) : Result Jacobian :=
  i ← np_index (length (jac_rows G0)) ix;
  row ← broadcast_row (jac_cols G0) g_i;
  Ok {| jac_cols := jac_cols G0; jac_rows := <[i := row]> (jac_rows G0) |}.

(** [G[ix, :]] *)
Definition get_row (G0 : Jacobian) (ix : Z) : Result (list R) :=
  i ← np_index (length (jac_rows G0)) ix;
  match jac_rows G0 !! i with
  | Some row => Ok row
  | None => Raise IndexError
  end.
End Buffer.

Arguments Jacobian R : clear implicits.

(** ** Metrics, trainer state and collaborators *)

Section Pipeline.
Context {Learner Batch R LR Res Ik CJ T : Type}.
Context `{TimeOps T}.
Context (r_zero : R).

(** [self.metrics]: the keys this pipeline reads or writes.  Keys that are
    only ever assigned ([=]) may be absent; keys that are incremented or
    appended to must exist and are plain fields. *)
Record Metrics : Type := {
  num_iter : Z;
  num_grad_steps : Z;
  num_opt_steps : Z;
  num_param : option nat;
  jacobian_residual : list Res;
  epoch_grad_cost : list T;
  epoch_agg_cost : list T;
  epoch_gm_iter : list Z;
  epoch_compression_cost : list T;
  total_grad_cost : option T;
  total_agg_cost : option T;
  total_gm_iter : option Z;
  total_compression_cost : option T;
  total_cost : option T;
  avg_gm_cost : option T
}.

(** [self.gar]: the two counters the loop reads and resets. *)
Record GAR : Type := {
  agg_time : T;
  gar_num_iter : Z              (* [self.gar.num_iter] *)
}.

Record Config : Type := {
  num_epochs : Z;
  num_batches : Z;
  seed : Z;
  has_lrs : bool            (* [self.lrs is not None] *)
}.

(** The trainer object: the attributes of [self] the loop touches.
    [rng] is the seed last given to [np.random.seed] and
    [torch.manual_seed]. *)
Record State : Type := {
  epoch : Z;
  learner : Learner;        (* model, optimizer and scheduler *)
  G : option (Jacobian R);
  I_k : Ik;
  C_J : option CJ;
  gar : GAR;
  metrics : Metrics;
  rng : option Z
}.

(** The four accumulators local to one pass of the [while] loop. *)
Record EpochAcc : Type := {
  loc_grad_cost : T;
  loc_agg_cost : T;
  loc_gm_iter : Z;
  loc_compression_cost : T
}.

(** Collaborators imported from [src.training_manager] and
    [src.model_manager], the strategy objects and the clock.
    [forward_backward] is the forward pass, [optimizer.zero_grad()], the
    loss and [loss.backward()]; [current_lr] reads
    [optimizer.param_groups[0]['lr']]; [aggregate] and [compress] return
    the strategy object as the call leaves it, and read the matrix they are
    given without writing to it; [evaluate_classifier] returns
    the training loss (the metrics keys it maintains itself are not among
    those of [Metrics]).  Each duration is what [time.time() - t0] evaluated
    to at that place of the run, given by the epoch and the batch index. *)
Record Env : Type := {
  train_loader : Z -> list Batch;
  forward_backward : Learner -> Batch -> Learner;
  flatten_grads : Learner -> list R;
  current_lr : Learner -> LR;
  compress : CJ -> Jacobian R -> LR -> Ik * CJ;
  normalized_residual : CJ -> Res;
  G_sparse : CJ -> Jacobian R;
  axis : CJ -> Z;
  aggregate : GAR -> Jacobian R -> Ik -> Z -> list R * GAR;
  zero_grad : Learner -> Learner;
  dist_grads_to_model : list R -> Learner -> Learner;
  optimizer_step : Learner -> Learner;
  lrs_step : Learner -> Learner;
  evaluate_classifier : Learner -> Z -> Loss;
  iteration_time : Z -> Z -> T;
  compression_time : Z -> Z -> T
}.

Context (cfg : Config) (env : Env).

(** *** Field updates *)

Definition with_metrics (m : Metrics) (s : State) : State :=
  {| epoch := epoch s; learner := learner s; G := G s; I_k := I_k s;
     C_J := C_J s; gar := gar s; metrics := m; rng := rng s |}.

Definition with_learner (l : Learner) (s : State) : State :=
  {| epoch := epoch s; learner := l; G := G s; I_k := I_k s;
     C_J := C_J s; gar := gar s; metrics := metrics s; rng := rng s |}.

Definition with_G (G0 : Jacobian R) (s : State) : State :=
  {| epoch := epoch s; learner := learner s; G := Some G0; I_k := I_k s;
     C_J := C_J s; gar := gar s; metrics := metrics s; rng := rng s |}.

Definition with_compression (ik : Ik) (cj : CJ) (s : State) : State :=
  {| epoch := epoch s; learner := learner s; G := G s; I_k := ik;
     C_J := Some cj; gar := gar s; metrics := metrics s; rng := rng s |}.

Definition with_gar (g : GAR) (s : State) : State :=
  {| epoch := epoch s; learner := learner s; G := G s; I_k := I_k s;
     C_J := C_J s; gar := g; metrics := metrics s; rng := rng s |}.

Definition with_epoch (e : Z) (s : State) : State :=
  {| epoch := e; learner := learner s; G := G s; I_k := I_k s;
     C_J := C_J s; gar := gar s; metrics := metrics s; rng := rng s |}.

Definition with_rng (sd : Z) (s : State) : State :=
  {| epoch := epoch s; learner := learner s; G := G s; I_k := I_k s;
     C_J := C_J s; gar := gar s; metrics := metrics s; rng := Some sd |}.

(** [metrics["num_iter"] += 1] *)
Definition incr_num_iter (m : Metrics) : Metrics :=
  {| num_iter := num_iter m + 1; num_grad_steps := num_grad_steps m;
     num_opt_steps := num_opt_steps m; num_param := num_param m;
     jacobian_residual := jacobian_residual m;
     epoch_grad_cost := epoch_grad_cost m; epoch_agg_cost := epoch_agg_cost m;
     epoch_gm_iter := epoch_gm_iter m;
     epoch_compression_cost := epoch_compression_cost m;
     total_grad_cost := total_grad_cost m; total_agg_cost := total_agg_cost m;
     total_gm_iter := total_gm_iter m;
     total_compression_cost := total_compression_cost m;
     total_cost := total_cost m; avg_gm_cost := avg_gm_cost m |}.

(** [metrics["num_grad_steps"] += 1] *)
Definition incr_num_grad_steps (m : Metrics) : Metrics :=
  {| num_iter := num_iter m; num_grad_steps := num_grad_steps m + 1;
     num_opt_steps := num_opt_steps m; num_param := num_param m;
     jacobian_residual := jacobian_residual m;
     epoch_grad_cost := epoch_grad_cost m; epoch_agg_cost := epoch_agg_cost m;
     epoch_gm_iter := epoch_gm_iter m;
     epoch_compression_cost := epoch_compression_cost m;
     total_grad_cost := total_grad_cost m; total_agg_cost := total_agg_cost m;
     total_gm_iter := total_gm_iter m;
     total_compression_cost := total_compression_cost m;
     total_cost := total_cost m; avg_gm_cost := avg_gm_cost m |}.

(** [metrics["num_opt_steps"] += 1] *)
Definition incr_num_opt_steps (m : Metrics) : Metrics :=
  {| num_iter := num_iter m; num_grad_steps := num_grad_steps m;
     num_opt_steps := num_opt_steps m + 1; num_param := num_param m;
     jacobian_residual := jacobian_residual m;
     epoch_grad_cost := epoch_grad_cost m; epoch_agg_cost := epoch_agg_cost m;
     epoch_gm_iter := epoch_gm_iter m;
     epoch_compression_cost := epoch_compression_cost m;
     total_grad_cost := total_grad_cost m; total_agg_cost := total_agg_cost m;
     total_gm_iter := total_gm_iter m;
     total_compression_cost := total_compression_cost m;
     total_cost := total_cost m; avg_gm_cost := avg_gm_cost m |}.

(** [metrics["num_param"] = d] *)
Definition set_num_param (d : nat) (m : Metrics) : Metrics :=
  {| num_iter := num_iter m; num_grad_steps := num_grad_steps m;
     num_opt_steps := num_opt_steps m; num_param := Some d;
     jacobian_residual := jacobian_residual m;
     epoch_grad_cost := epoch_grad_cost m; epoch_agg_cost := epoch_agg_cost m;
     epoch_gm_iter := epoch_gm_iter m;
     epoch_compression_cost := epoch_compression_cost m;
     total_grad_cost := total_grad_cost m; total_agg_cost := total_agg_cost m;
     total_gm_iter := total_gm_iter m;
     total_compression_cost := total_compression_cost m;
     total_cost := total_cost m; avg_gm_cost := avg_gm_cost m |}.

(** [metrics["jacobian_residual"].append(r)] *)
Definition append_residual (r : Res) (m : Metrics) : Metrics :=
  {| num_iter := num_iter m; num_grad_steps := num_grad_steps m;
     num_opt_steps := num_opt_steps m; num_param := num_param m;
     jacobian_residual := jacobian_residual m ++ [r];
     epoch_grad_cost := epoch_grad_cost m; epoch_agg_cost := epoch_agg_cost m;
     epoch_gm_iter := epoch_gm_iter m;
     epoch_compression_cost := epoch_compression_cost m;
     total_grad_cost := total_grad_cost m; total_agg_cost := total_agg_cost m;
     total_gm_iter := total_gm_iter m;
     total_compression_cost := total_compression_cost m;
     total_cost := total_cost m; avg_gm_cost := avg_gm_cost m |}.

(** The four appends that close the body of the batch loop:
    [epoch_grad_cost] and [epoch_agg_cost] always, [epoch_gm_iter] and
    [epoch_compression_cost] only when the accumulator is positive. *)
Definition append_costs (acc : EpochAcc) (m : Metrics) : Metrics :=
  {| num_iter := num_iter m; num_grad_steps := num_grad_steps m;
     num_opt_steps := num_opt_steps m; num_param := num_param m;
     jacobian_residual := jacobian_residual m;
     epoch_grad_cost := epoch_grad_cost m ++ [loc_grad_cost acc];
     epoch_agg_cost := epoch_agg_cost m ++ [loc_agg_cost acc];
     epoch_gm_iter :=
       if 0 <? loc_gm_iter acc
       then epoch_gm_iter m ++ [loc_gm_iter acc] else epoch_gm_iter m;
     epoch_compression_cost :=
       if t_pos (loc_compression_cost acc)
       then epoch_compression_cost m ++ [loc_compression_cost acc]
       else epoch_compression_cost m;
     total_grad_cost := total_grad_cost m; total_agg_cost := total_agg_cost m;
     total_gm_iter := total_gm_iter m;
     total_compression_cost := total_compression_cost m;
     total_cost := total_cost m; avg_gm_cost := avg_gm_cost m |}.

(** "Update Total Complexities": the assignments that close the body of
    the [while] loop. *)
Definition update_totals (m : Metrics) : Metrics :=
  let tg := sum_time (epoch_grad_cost m) in
  let ta := sum_time (epoch_agg_cost m) in
  let ti := sum_int (epoch_gm_iter m) in
  let tc := sum_time (epoch_compression_cost m) in
  {| num_iter := num_iter m; num_grad_steps := num_grad_steps m;
     num_opt_steps := num_opt_steps m; num_param := num_param m;
     jacobian_residual := jacobian_residual m;
     epoch_grad_cost := epoch_grad_cost m; epoch_agg_cost := epoch_agg_cost m;
     epoch_gm_iter := epoch_gm_iter m;
     epoch_compression_cost := epoch_compression_cost m;
     total_grad_cost := Some tg;
     total_agg_cost := Some ta;
     total_gm_iter := Some ti;
     total_compression_cost := Some tc;
     total_cost := Some (t_add (t_add tg ta) tc);
     avg_gm_cost := if negb (ti =? 0) then Some (t_div ta ti) else avg_gm_cost m |}.

(** *** One batch *)

(** The lazy allocation of the buffer:
    [if self.G is None: d = len(g_i); metrics["num_param"] = d;
     self.G = np.zeros((self.num_batches, d))]. *)
Definition allocate (g_i : list R) (s : State) : Result (Jacobian R * State) :=
  match G s with
  | Some G0 => Ok (G0, s)
  | None =>
      let d := length g_i in
      let s1 := with_metrics (set_num_param d (metrics s)) s in
      G0 ← np_zeros r_zero (num_batches cfg) d;
      Ok (G0, with_G G0 s1)
  end.

(** The gradient of the batch, as [flatten_grads] returns it after the
    forward and backward pass. *)
Definition gradient_of (s : State) (b : Batch) : list R :=
  flatten_grads env (forward_backward env (learner s) b).

(** The first half of the loop body, up to [p_bar.update()]: the counters,
    the forward and backward pass, the buffer write and the gradient cost.
    Returns [agg_ix] and the buffer with the new state. *)
Definition record_gradient (batch_ix : Z) (b : Batch) (st : State * EpochAcc)
    : Result (Z * Jacobian R * (State * EpochAcc)) :=
  let '(s, acc) := st in
  let s1 := with_metrics (incr_num_iter (metrics s)) s in
  let s2 := with_learner (forward_backward env (learner s1) b) s1 in
  let s3 := with_metrics (incr_num_grad_steps (metrics s2)) s2 in
  let g_i := flatten_grads env (learner s3) in
  '(G0, s4) ← allocate g_i s3;
  ix ← py_mod batch_ix (num_batches cfg);
  agg_ix ← py_mod (batch_ix + 1) (num_batches cfg);
  G1 ← set_row G0 ix g_i;
  let s5 := with_G G1 s4 in
  let acc1 :=
    {| loc_grad_cost :=
         t_add (loc_grad_cost acc) (iteration_time env (epoch s) batch_ix);
       loc_agg_cost := loc_agg_cost acc;
       loc_gm_iter := loc_gm_iter acc;
       loc_compression_cost := loc_compression_cost acc |} in
  Ok (agg_ix, G1, (s5, acc1)).

(** The trigger of the aggregation phase: [agg_ix == 0 and batch_ix != 0]. *)
Definition is_full_cycle (agg_ix batch_ix : Z) : bool :=
  (agg_ix =? 0) && negb (batch_ix =? 0).

(** The optional compression, [if self.C_J is not None: ... else: ...]:
    returns the three arguments the aggregator is then called with. *)
Definition compression_phase (batch_ix : Z) (G0 : Jacobian R)
    (st : State * EpochAcc) : Jacobian R * Ik * Z * (State * EpochAcc) :=
  let '(s, acc) := st in
  let lr := current_lr env (learner s) in
  match C_J s with
  | Some cj =>
      let '(ik, cj1) := compress env cj G0 lr in
      let s1 := with_compression ik cj1 s in
      let acc1 :=
        {| loc_grad_cost := loc_grad_cost acc;
           loc_agg_cost := loc_agg_cost acc;
           loc_gm_iter := loc_gm_iter acc;
           loc_compression_cost :=
             t_add (loc_compression_cost acc)
                   (compression_time env (epoch s) batch_ix) |} in
      let s2 :=
        with_metrics
          (append_residual (normalized_residual env cj1) (metrics s1)) s1 in
      (G_sparse env cj1, ik, axis env cj1, (s2, acc1))
  | None => (G0, I_k s, 0, (s, acc))
  end.

(** [self.gar.agg_time = 0; self.gar.num_iter = 0] *)
Definition gar_reset : GAR := {| agg_time := t_zero; gar_num_iter := 0 |}.

(** The body of [if agg_ix == 0 and batch_ix != 0:], with [G0] the buffer
    [self.G] holds at that point. *)
Definition aggregation_phase (batch_ix : Z) (G0 : Jacobian R)
    (st : State * EpochAcc) : State * EpochAcc :=
  let '(G_in, ik, ax, (s1, acc1)) := compression_phase batch_ix G0 st in
  let '(agg_g, gar1) := aggregate env (gar s1) G_in ik ax in
  let acc2 :=
    {| loc_grad_cost := loc_grad_cost acc1;
       loc_agg_cost := t_add (loc_agg_cost acc1) (agg_time gar1);
       loc_gm_iter := loc_gm_iter acc1 + gar_num_iter gar1;
       loc_compression_cost := loc_compression_cost acc1 |} in
  let s2 := with_gar gar_reset s1 in
  let l1 := zero_grad env (learner s2) in
  let l2 := dist_grads_to_model env agg_g l1 in
  let l3 := optimizer_step env l2 in
  let s3 := with_learner l3 s2 in
  (with_metrics (incr_num_opt_steps (metrics s3)) s3, acc2).

(** The four appends the loop body ends with. *)
Definition close_batch (st : State * EpochAcc) : State * EpochAcc :=
  (with_metrics (append_costs (snd st) (metrics (fst st))) (fst st), snd st).

(** The body of [for batch_ix, (images, labels) in enumerate(train_loader)]. *)
Definition batch_step (batch_ix : Z) (b : Batch)
    (st : State * EpochAcc) : Result (State * EpochAcc) :=
  '(agg_ix, G1, st1) ← record_gradient batch_ix b st;
  Ok (close_batch (if is_full_cycle agg_ix batch_ix
                   then aggregation_phase batch_ix G1 st1
                   else st1)).

(** [enumerate(self.train_loader)], from index [batch_ix] on. *)
Fixpoint train_batches (batch_ix : Z) (batches : list Batch)
    (st : State * EpochAcc) : Result (State * EpochAcc) :=
  match batches with
  | [] => Ok st
  | b :: rest =>
      st1 ← batch_step batch_ix b st;
      train_batches (batch_ix + 1) rest st1
  end.

(** *** One epoch: the body of [while self.epoch < self.num_epochs] *)

Definition fresh_acc : EpochAcc :=
  {| loc_grad_cost := t_zero; loc_agg_cost := t_zero;
     loc_gm_iter := 0; loc_compression_cost := t_zero |}.

(** The training phase of one epoch. *)
Definition train_epoch (s : State) : Result State :=
  st ← train_batches 0 (train_loader env (epoch s)) (s, fresh_acc);
  Ok (fst st).

(** Evaluation, the divergence stop, the epoch increment, the scheduler
    step and the totals. *)
Definition end_of_epoch (s : State) : State :=
  let train_loss := evaluate_classifier env (learner s) (epoch s) in
  let s1 := if diverging train_loss then with_epoch (num_epochs cfg) s else s in
  let s2 := with_epoch (epoch s1 + 1) s1 in
  let s3 := if has_lrs cfg then with_learner (lrs_step env (learner s2)) s2 else s2 in
  with_metrics (update_totals (metrics s3)) s3.

Definition run_epoch (s : State) : Result State :=
  s1 ← train_epoch s;
  Ok (end_of_epoch s1).

(** *** The whole run *)

(** The [while] loop, bounded by [fuel] passes; [None] when the bound is hit
    with the loop condition still true. *)
Fixpoint while_epochs (fuel : nat) (s : State) : option (Result State) :=
  if epoch s <? num_epochs cfg then
    match fuel with
    | O => None
    | S fuel' =>
        match run_epoch s with
        | Ok s1 => while_epochs fuel' s1
        | Raise e => Some (Raise e)
        end
    end
  else Some (Ok s).

(** [n] passes of the loop body, whatever the loop condition. *)
Fixpoint epochs_iter (n : nat) (s : State) : Result State :=
  match n with
  | O => Ok s
  | S n' => s1 ← run_epoch s; epochs_iter n' s1
  end.

(** The state after a prefix of the run: [full] whole epochs and then the
    first [k] batches of the next one. *)
Definition run_prefix (full k : nat) (s : State) : Result (State * EpochAcc) :=
  s1 ← epochs_iter full s;
  train_batches 0 (take k (train_loader env (epoch s1))) (s1, fresh_acc).

(** [np.random.seed(self.seed); torch.manual_seed(self.seed)] *)
Definition seed_rngs (s : State) : State := with_rng (seed cfg) s.

(** [run_batch_train]: every pass raises the epoch counter, so
    [num_epochs - epoch] passes suffice. *)
Definition run_batch_train (s : State) : option (Result State) :=
  let s0 := seed_rngs s in
  while_epochs (Z.to_nat (num_epochs cfg - epoch s0)) s0.

(** [run_train] only seeds the generators. *)
Definition run_train (s : State) : Result State := Ok (seed_rngs s).

Definition run_fed_train (s : State) : Result State := Raise NotImplementedError.

(** The dispatch on [args.train_mode] in [run_main], for one seed. *)
Definition run_mode (train_mode : string) (s : State) : option (Result State) :=
  if String.eqb train_mode "vanilla" then Some (run_train s)
  else if String.eqb train_mode "distributed" then run_batch_train s
  else Some (Raise NotImplementedError).

(** The iteration series holds positive entries only, and while it is empty
    no average has been written. *)
Definition gm_series_ok (s : State) : Prop :=
  Forall (fun x => 0 < x) (epoch_gm_iter (metrics s)) /\
  (epoch_gm_iter (metrics s) = [] -> avg_gm_cost (metrics s) = None).

(** What a later point of the run keeps of the metrics of an earlier one:
    every series as a prefix, every counter at least as large. *)
Definition metrics_kept (m m' : Metrics) : Prop :=
  jacobian_residual m `prefix_of` jacobian_residual m' /\
  epoch_grad_cost m `prefix_of` epoch_grad_cost m' /\
  epoch_agg_cost m `prefix_of` epoch_agg_cost m' /\
  epoch_gm_iter m `prefix_of` epoch_gm_iter m' /\
  epoch_compression_cost m `prefix_of` epoch_compression_cost m' /\
  num_iter m <= num_iter m' /\
  num_grad_steps m <= num_grad_steps m' /\
  num_opt_steps m <= num_opt_steps m'.

(** *** Two runs that differ in the clock only *)

(** The part of the metrics that holds no wall-clock measurement: the
    counters, the parameter count, the residual and iteration series, the
    iteration total, and how many entries the two unconditional cost series
    have. *)
Definition clock_free (m : Metrics)
    : Z * Z * Z * option nat * list Res * list Z * option Z * nat * nat :=
  (num_iter m, num_grad_steps m, num_opt_steps m, num_param m,
   jacobian_residual m, epoch_gm_iter m, total_gm_iter m,
   length (epoch_grad_cost m), length (epoch_agg_cost m)).

(** Two trainer states that agree on everything but wall-clock values. *)
Definition same_but_clock (s1 s2 : State) : Prop :=
  epoch s1 = epoch s2 /\ learner s1 = learner s2 /\ G s1 = G s2 /\
  I_k s1 = I_k s2 /\ C_J s1 = C_J s2 /\ rng s1 = rng s2 /\
  gar_num_iter (gar s1) = gar_num_iter (gar s2) /\
  clock_free (metrics s1) = clock_free (metrics s2).

(** Two sets of collaborators that compute the same functions and differ at
    most in the durations the clock reports: the two measured durations,
    and the [agg_time] the aggregator leaves behind. *)
Definition same_computation (e1 e2 : Env) : Prop :=
  (forall e, train_loader e1 e = train_loader e2 e) /\
  (forall l b, forward_backward e1 l b = forward_backward e2 l b) /\
  (forall l, flatten_grads e1 l = flatten_grads e2 l) /\
  (forall l, current_lr e1 l = current_lr e2 l) /\
  (forall cj M lr, compress e1 cj M lr = compress e2 cj M lr) /\
  (forall cj, normalized_residual e1 cj = normalized_residual e2 cj) /\
  (forall cj, G_sparse e1 cj = G_sparse e2 cj) /\
  (forall cj, axis e1 cj = axis e2 cj) /\
  (forall g1 g2 M ik ax,
     gar_num_iter g1 = gar_num_iter g2 ->
     fst (aggregate e1 g1 M ik ax) = fst (aggregate e2 g2 M ik ax) /\
     gar_num_iter (snd (aggregate e1 g1 M ik ax))
       = gar_num_iter (snd (aggregate e2 g2 M ik ax))) /\
  (forall l, zero_grad e1 l = zero_grad e2 l) /\
  (forall g l, dist_grads_to_model e1 g l = dist_grads_to_model e2 g l) /\
  (forall l, optimizer_step e1 l = optimizer_step e2 l) /\
  (forall l, lrs_step e1 l = lrs_step e2 l) /\
  (forall l e, evaluate_classifier e1 l e = evaluate_classifier e2 l e).

(** Two results of a part of the loop body that agree but for the clock. *)
Definition same_step (r1 r2 : Result (State * EpochAcc)) : Prop :=
  match r1, r2 with
  | Ok (s1, a1), Ok (s2, a2) =>
      same_but_clock s1 s2 /\ loc_gm_iter a1 = loc_gm_iter a2
  | Raise x1, Raise x2 => x1 = x2
  | _, _ => False
  end.

(** Two outcomes of a run that agree but for the clock: the same error, or
    two final states that agree on everything but wall-clock values. *)
Definition same_outcome (r1 r2 : option (Result State)) : Prop :=
  match r1, r2 with
  | Some (Ok s1), Some (Ok s2) => same_but_clock s1 s2
  | Some (Raise x1), Some (Raise x2) => x1 = x2
  | None, None => True
  | _, _ => False
  end.

End Pipeline.

Arguments Metrics : clear implicits.
Arguments GAR : clear implicits.
Arguments State : clear implicits.
Arguments EpochAcc : clear implicits.
Arguments Env : clear implicits.

(** ** A small concrete pipeline

    Durations are whole clock ticks, and the quotient of the tick clock is
    rounded down to a whole tick, where Python's [/] on floats keeps the
    fraction: the concrete value of [avg_gm_cost] in these runs is the floor
    of the one the code computes, and the statements below name it only
    through [t_div].  The
    learner is the gradient it holds:
    the backward pass stores the batch as the gradient, the aggregator
    returns the first row of the matrix it is given, takes two iterations and
    five ticks per call, and the optimizer leaves the learner as it is. *)

#[export] Instance tick_ops : TimeOps Z :=
  {| t_zero := 0; t_add := Z.add; t_pos := fun x => 0 <? x; t_div := Z.div |}.

Definition demo_env (loader : Z -> list (list Z)) (losses : Z -> Loss)
    (tick : Z) : Env (list Z) (list Z) Z Z Z (list nat) unit Z :=
  {| train_loader := loader;
     forward_backward := fun _ b => b;
     flatten_grads := fun l => l;
     current_lr := fun _ => 1;
     compress := fun cj _ _ => ([], cj);
     normalized_residual := fun _ => 0;
     G_sparse := fun _ => {| jac_cols := 0%nat; jac_rows := [] |};
     axis := fun _ => 0;
     aggregate := fun g M _ _ =>
       (default [] (head (jac_rows M)),
        {| agg_time := agg_time g + 5; gar_num_iter := gar_num_iter g + 2 |});
     zero_grad := fun l => l;
     dist_grads_to_model := fun g _ => g;
     optimizer_step := fun l => l;
     lrs_step := fun l => l;
     evaluate_classifier := fun _ e => losses e;
     iteration_time := fun _ _ => tick;
     compression_time := fun _ _ => tick |}.

Definition demo_cfg (epochs W : Z) : Config :=
  {| num_epochs := epochs; num_batches := W; seed := 0; has_lrs := false |}.

Definition demo_metrics : Metrics Z Z :=
  {| num_iter := 0; num_grad_steps := 0; num_opt_steps := 0; num_param := None;
     jacobian_residual := []; epoch_grad_cost := []; epoch_agg_cost := [];
     epoch_gm_iter := []; epoch_compression_cost := [];
     total_grad_cost := None; total_agg_cost := None; total_gm_iter := None;
     total_compression_cost := None; total_cost := None; avg_gm_cost := None |}.

(** The trainer before the run: epoch 0, no buffer, zeroed counters. *)
Definition demo_init : State (list Z) Z Z (list nat) unit Z :=
  {| epoch := 0; learner := []; G := None; I_k := []; C_J := None;
     gar := {| agg_time := 0; gar_num_iter := 0 |};
     metrics := demo_metrics; rng := None |}.

Definition calm (_ : Z) : Loss := LFinite (1 # 10).

(** The evaluation losses 0.1, 0.2, NaN of the first three epochs. *)
Definition losses_nan (e : Z) : Loss :=
  if e =? 0 then LFinite (1 # 10)
  else if e =? 1 then LFinite (2 # 10)
  else LNaN.

(** Three batches an epoch, every batch its own gradient. *)
Definition loader3 (e : Z) : list (list Z) :=
  if e =? 0 then [[10; 10]; [20; 20]; [30; 30]]
  else [[40; 40]; [50; 50]; [60; 60]].

(** A gradient of length 3 followed by one of length 1. *)
Definition loader_short (_ : Z) : list (list Z) := [[1; 2; 3]; [9]].

(** A gradient of length 3 followed by one of length 2. *)
Definition loader_bad (_ : Z) : list (list Z) := [[1; 2; 3]; [8; 9]].

Definition loader4 (_ : Z) : list (list Z) := [[1]; [2]; [3]; [4]].

(** The loss that diverges at once. *)
Definition always_nan (_ : Z) : Loss := LNaN.

(** The trainer after the first three batches of an epoch, window four. *)
Definition after_three : State (list Z) Z Z (list nat) unit Z * EpochAcc Z :=
  Eval vm_compute in
    match run_prefix 0 (demo_cfg 5 4) (demo_env loader4 calm 7) 0 3 demo_init with
    | Ok st => st
    | Raise _ => (demo_init, fresh_acc)
    end.

(** The trainer after the fourth batch. *)
Definition after_four : State (list Z) Z Z (list nat) unit Z * EpochAcc Z :=
  Eval vm_compute in
    match batch_step 0 (demo_cfg 5 4) (demo_env loader4 calm 7) 3 [4] after_three with
    | Ok st => st
    | Raise _ => (demo_init, fresh_acc)
    end.

(** The trainer after a first gradient of length 3, window two. *)
Definition after_first : State (list Z) Z Z (list nat) unit Z * EpochAcc Z :=
  Eval vm_compute in
    match batch_step 0 (demo_cfg 5 2) (demo_env loader_bad calm 7) 0 [1; 2; 3]
            (demo_init, fresh_acc) with
    | Ok st => st
    | Raise _ => (demo_init, fresh_acc)
    end.

(** The trainer after two epochs of four batches, window two. *)
Definition after_two_epochs : State (list Z) Z Z (list nat) unit Z :=
  Eval vm_compute in
    match epochs_iter 0 (demo_cfg 5 2) (demo_env loader4 calm 7) 2 demo_init with
    | Ok s => s
    | Raise _ => demo_init
    end.

(** ** The gradients of an epoch and the launcher *)

Section Launch.
Context {Learner Batch R LR Res Ik CJ T : Type}.
Context `{TimeOps T}.
Context (r_zero : R).

(** The gradients [g_i] the batches of an epoch produce, in order, beside
    the state [train_batches] ends in. *)
Fixpoint epoch_gradients (cfg : Config) (env : Env Learner Batch R LR Res Ik CJ T)
    (batch_ix : Z) (batches : list Batch)
    (st : State Learner R Res Ik CJ T * EpochAcc T)
    : Result (list (list R) * (State Learner R Res Ik CJ T * EpochAcc T)) :=
  match batches with
  | [] => Ok ([], st)
  | b :: rest =>
      st1 ← batch_step r_zero cfg env batch_ix b st;
      '(gs, st2) ← epoch_gradients cfg env (batch_ix + 1) rest st1;
      Ok (gradient_of env (fst st) b :: gs, st2)
  end.

(** How many batch indices [k] with [0 <= k < n] satisfy the trigger
    [(k + 1) mod W = 0] and [k <> 0], for a window [W >= 1]: every [W]-th
    index, and with [W = 1] every index but the first. *)
Definition full_cycles_below (W n : Z) : Z :=
  if W =? 1 then Z.max (n - 1) 0 else n / W.

(** A matrix: every row has as many entries as the matrix has columns. *)
Definition jac_wf (G0 : Jacobian R) : Prop :=
  Forall (fun row => length row = jac_cols G0) (jac_rows G0).

(** A matrix of [W] rows of [d] entries each. *)
Definition jac_shape (cfg : Config) (d : nat) (G0 : Jacobian R) : Prop :=
  jac_cols G0 = d /\ length (jac_rows G0) = Z.to_nat (num_batches cfg) /\
  Forall (fun row => length row = d) (jac_rows G0).

(** The buffer is not allocated yet, or has [W] rows of [d] entries. *)
Definition buffer_ok (cfg : Config) (d : nat)
    (s : State Learner R Res Ik CJ T) : Prop :=
  match G s with
  | None => True
  | Some G0 => jac_shape cfg d G0
  end.

(** Between two points of a run: an allocated buffer stays allocated, and
    a buffer that is still absent tells that no batch was counted. *)
Definition buffer_trace (a b : State Learner R Res Ik CJ T) : Prop :=
  (is_Some (G a) -> is_Some (G b)) /\
  (G b = None -> num_iter (metrics b) = num_iter (metrics a)).

(** The parsed command line. *)
Record Args : Type := {
  train_mode : string;
  conf : option string;
  o : string;
  dir : option string;
  n_repeat : Z
}.

(** What [_parse_args] returns when no option is given. *)
Definition default_args : Args :=
  {| train_mode := "distributed"; conf := None; o := "default_output";
     dir := None; n_repeat := 1 |}.

(** [x if x else y] on an optional string: [None] and the empty string
    are false. *)
Definition or_else (x : option string) (y : string) : string :=
  match x with
  | Some s => if String.eqb s "" then y else s
  | None => y
  end.

(** [np.arange(n)] *)
Definition np_arange (n : Z) : list Z := Z.of_nat <$> seq 0 (Z.to_nat n).

(** What [ActiveSamplingRobust(config=config, seed=seed)] builds. *)
Record Trainer : Type := {
  t_cfg : Config;
  t_env : Env Learner Batch R LR Res Ik CJ T;
  t_state : State Learner R Res Ik CJ T
}.

(** [config_path = args.conf if args.conf else
     root + '/configs/default_robust_config.yaml'] *)
Definition config_path (root : string) (args : Args) : string :=
  or_else (conf args) (root ++ "/configs/default_robust_config.yaml").

(** [for seed in np.arange(args.n_repeat): ...], from the seeds that are
    left and the results so far. *)
Fixpoint run_seeds (mode : string) (new_trainer : Z -> Trainer)
    (seeds : list Z) (results : list (Metrics Res T))
    : option (Result (list (Metrics Res T))) :=
  match seeds with
  | [] => Some (Ok results)
  | sd :: rest =>
      let trainer := new_trainer sd in
      match run_mode r_zero (t_cfg trainer) (t_env trainer) mode
                     (t_state trainer) with
      | Some (Ok s') => run_seeds mode new_trainer rest (results ++ [metrics s'])
      | Some (Raise e) => Some (Raise e)
      | None => None
      end
  end.

(** [run_main] from the loop over the seeds on, the configuration being
    read: [new_trainer] is the constructor applied to it.  The result is
    the path of the file it opens and the list it dumps there. *)
Definition run_main (args : Args) (new_trainer : Z -> Trainer)
    : option (Result (string * list (Metrics Res T))) :=
  match run_seeds (train_mode args) new_trainer (np_arange (n_repeat args)) [] with
  | Some (Ok results) =>
      let directory := or_else (dir args) "result_dumps/" in
      Some (Ok ((directory ++ o args)%string, results))
  | Some (Raise e) => Some (Raise e)
  | None => None
  end.

End Launch.

Arguments Trainer : clear implicits.

(** A trainer of the concrete pipeline for every seed, window four. *)
Definition demo_trainer (sd : Z)
    : Trainer (list Z) (list Z) Z Z Z (list nat) unit Z :=
  {| t_cfg := {| num_epochs := 2; num_batches := 4; seed := sd; has_lrs := false |};
     t_env := demo_env loader4 calm 7;
     t_state := demo_init |}.

(** The concrete trainer with a compressor in place. *)
Definition demo_compressed : State (list Z) Z Z (list nat) unit Z :=
  {| epoch := 0; learner := []; G := None; I_k := []; C_J := Some tt;
     gar := {| agg_time := 0; gar_num_iter := 0 |};
     metrics := demo_metrics; rng := None |}.

(** The concrete pipeline with an aggregator that does not iterate: it
    returns the first row and reports five ticks and no iteration. *)
Definition plain_env (loader : Z -> list (list Z)) (losses : Z -> Loss)
    (tick : Z) : Env (list Z) (list Z) Z Z Z (list nat) unit Z :=
  {| train_loader := loader;
     forward_backward := fun _ b => b;
     flatten_grads := fun l => l;
     current_lr := fun _ => 1;
     compress := fun cj _ _ => ([], cj);
     normalized_residual := fun _ => 0;
     G_sparse := fun _ => {| jac_cols := 0%nat; jac_rows := [] |};
     axis := fun _ => 0;
     aggregate := fun g M _ _ =>
       (default [] (head (jac_rows M)), {| agg_time := 5; gar_num_iter := 0 |});
     zero_grad := fun l => l;
     dist_grads_to_model := fun g _ => g;
     optimizer_step := fun l => l;
     lrs_step := fun l => l;
     evaluate_classifier := fun _ e => losses e;
     iteration_time := fun _ _ => tick;
     compression_time := fun _ _ => tick |}.

(** A trainer whose runs raise: the second gradient has a length that is
    neither the first one's nor 1. *)
Definition bad_trainer (sd : Z)
    : Trainer (list Z) (list Z) Z Z Z (list nat) unit Z :=
  {| t_cfg := {| num_epochs := 2; num_batches := 2; seed := sd; has_lrs := false |};
     t_env := demo_env loader_bad calm 7;
     t_state := demo_init |}.

(** A launch whose first two seeds give the sound trainer and whose later
    seeds give the one with the bad loader. *)
Definition flaky_trainer (sd : Z)
    : Trainer (list Z) (list Z) Z Z Z (list nat) unit Z :=
  if sd <? 2 then demo_trainer sd else bad_trainer sd.

(** * Properties *)

Section Properties.
Context {Learner Batch R LR Res Ik CJ T : Type}.
Context `{TimeOps T}.
Context (r_zero : R) (cfg : Config) (env : Env Learner Batch R LR Res Ik CJ T).

Local Abbreviation St := (State Learner R Res Ik CJ T).
Local Abbreviation Acc := (EpochAcc T).
Local Abbreviation W := (num_batches cfg).

(** ** Inversion of the error monad *)

Lemma bind_Ok {A B} (m : Result A) (f : A -> Result B) (b : B) :
  (m ≫= f) = Ok b -> exists a, m = Ok a /\ f a = Ok b.
Proof. destruct m as [a|e]; simpl; [eauto | discriminate]. Qed.

Lemma bind_Raise {A B} (m : Result A) (f : A -> Result B) (e : Error) :
  (m ≫= f) = Raise e -> m = Raise e \/ exists a, m = Ok a /\ f a = Raise e.
Proof. destruct m as [a|e0]; simpl; [eauto | intros [= ->]; auto]. Qed.

Lemma py_mod_Ok (a b r : Z) : py_mod a b = Ok r -> b <> 0 /\ r = a mod b.
Proof.
  unfold py_mod. destruct (Z.eqb_spec b 0); [discriminate|].
  intros [= <-]. auto.
Qed.

(** ** The first half of the loop body *)

(** What [record_gradient] leaves alone and what it changes. *)
Lemma record_gradient_inv (batch_ix : Z) (b : Batch) (s : St) (acc : Acc)
    (agg_ix : Z) (G1 : Jacobian R) (s1 : St) (acc1 : Acc) :
  record_gradient r_zero cfg env batch_ix b (s, acc) = Ok (agg_ix, G1, (s1, acc1)) ->
  W <> 0 /\ agg_ix = (batch_ix + 1) mod W /\
  G s1 = Some G1 /\
  epoch s1 = epoch s /\
  learner s1 = forward_backward env (learner s) b /\
  gar s1 = gar s /\ C_J s1 = C_J s /\ I_k s1 = I_k s /\ rng s1 = rng s /\
  num_iter (metrics s1) = num_iter (metrics s) + 1 /\
  num_grad_steps (metrics s1) = num_grad_steps (metrics s) + 1 /\
  num_opt_steps (metrics s1) = num_opt_steps (metrics s) /\
  jacobian_residual (metrics s1) = jacobian_residual (metrics s) /\
  epoch_grad_cost (metrics s1) = epoch_grad_cost (metrics s) /\
  epoch_agg_cost (metrics s1) = epoch_agg_cost (metrics s) /\
  epoch_gm_iter (metrics s1) = epoch_gm_iter (metrics s) /\
  epoch_compression_cost (metrics s1) = epoch_compression_cost (metrics s) /\
  avg_gm_cost (metrics s1) = avg_gm_cost (metrics s) /\
  loc_grad_cost acc1 = t_add (loc_grad_cost acc) (iteration_time env (epoch s) batch_ix) /\
  loc_agg_cost acc1 = loc_agg_cost acc /\
  loc_gm_iter acc1 = loc_gm_iter acc /\
  loc_compression_cost acc1 = loc_compression_cost acc.
Proof.
  unfold record_gradient. intros Hrec.
  apply bind_Ok in Hrec as ([G0 s4] & Halloc & Hrec).
  apply bind_Ok in Hrec as (ix & Hix & Hrec).
  apply bind_Ok in Hrec as (agg & Hagg & Hrec).
  apply bind_Ok in Hrec as (G1' & Hset & Hrec).
  injection Hrec as <- <- <- <-.
  apply py_mod_Ok in Hagg as [HW ->].
  unfold allocate in Halloc. simpl in Halloc.
  destruct (G s) as [G0'|] eqn:HG.
  - injection Halloc as <- <-. simpl. repeat apply conj; auto.
  - apply bind_Ok in Halloc as (G0' & _ & [= <- <-]). simpl. repeat apply conj; auto.
Qed.

(** ** The aggregation phase *)

Lemma compression_phase_inv (batch_ix : Z) (G0 : Jacobian R) (s : St) (acc : Acc)
    (G_in : Jacobian R) (ik : Ik) (ax : Z) (s1 : St) (acc1 : Acc) :
  compression_phase env batch_ix G0 (s, acc) = (G_in, ik, ax, (s1, acc1)) ->
  epoch s1 = epoch s /\ learner s1 = learner s /\ G s1 = G s /\
  gar s1 = gar s /\ rng s1 = rng s /\
  num_iter (metrics s1) = num_iter (metrics s) /\
  num_grad_steps (metrics s1) = num_grad_steps (metrics s) /\
  num_opt_steps (metrics s1) = num_opt_steps (metrics s) /\
  num_param (metrics s1) = num_param (metrics s) /\
  jacobian_residual (metrics s) `prefix_of` jacobian_residual (metrics s1) /\
  epoch_grad_cost (metrics s1) = epoch_grad_cost (metrics s) /\
  epoch_agg_cost (metrics s1) = epoch_agg_cost (metrics s) /\
  epoch_gm_iter (metrics s1) = epoch_gm_iter (metrics s) /\
  epoch_compression_cost (metrics s1) = epoch_compression_cost (metrics s) /\
  avg_gm_cost (metrics s1) = avg_gm_cost (metrics s) /\
  loc_grad_cost acc1 = loc_grad_cost acc /\
  loc_agg_cost acc1 = loc_agg_cost acc /\
  loc_gm_iter acc1 = loc_gm_iter acc.
Proof.
  unfold compression_phase. destruct (C_J s) as [cj|].
  - destruct (compress env cj G0 (current_lr env (learner s))) as [ik' cj1].
    intros [= <- <- <- <- <-]. simpl.
    repeat apply conj; auto. by apply prefix_app_r.
  - intros [= <- <- <- <- <-]. repeat apply conj; auto.
Qed.

Lemma aggregation_phase_inv (batch_ix : Z) (G0 : Jacobian R) (s : St) (acc : Acc)
    (s' : St) (acc' : Acc) :
  aggregation_phase env batch_ix G0 (s, acc) = (s', acc') ->
  epoch s' = epoch s /\ G s' = G s /\ rng s' = rng s /\
  gar s' = gar_reset /\
  num_iter (metrics s') = num_iter (metrics s) /\
  num_grad_steps (metrics s') = num_grad_steps (metrics s) /\
  num_opt_steps (metrics s') = num_opt_steps (metrics s) + 1 /\
  num_param (metrics s') = num_param (metrics s) /\
  jacobian_residual (metrics s) `prefix_of` jacobian_residual (metrics s') /\
  epoch_grad_cost (metrics s') = epoch_grad_cost (metrics s) /\
  epoch_agg_cost (metrics s') = epoch_agg_cost (metrics s) /\
  epoch_gm_iter (metrics s') = epoch_gm_iter (metrics s) /\
  epoch_compression_cost (metrics s') = epoch_compression_cost (metrics s) /\
  avg_gm_cost (metrics s') = avg_gm_cost (metrics s) /\
  loc_grad_cost acc' = loc_grad_cost acc.
Proof.
  unfold aggregation_phase.
  destruct (compression_phase env batch_ix G0 (s, acc))
    as [[[G_in ik] ax] [s1 acc1]] eqn:Hc.
  apply compression_phase_inv in Hc.
  destruct (aggregate env (gar s1) G_in ik ax) as [agg_g gar1].
  destruct Hc as (He & Hl & HG & Hg & Hr & Hni & Hng & Hno & Hnp & Hjr
                  & Hgc & Hac & Hgi & Hcc & Havg & Hlg & Hla & Hli).
  intros [= <- <-]. simpl.
  repeat apply conj; auto; congruence.
Qed.

(** ** The whole loop body *)

Lemma batch_step_split (batch_ix : Z) (b : Batch) (st st' : St * Acc) :
  batch_step r_zero cfg env batch_ix b st = Ok st' ->
  exists (G1 : Jacobian R) (st1 : St * Acc),
    record_gradient r_zero cfg env batch_ix b st
      = Ok ((batch_ix + 1) mod W, G1, st1) /\
    st' = close_batch
            (if is_full_cycle ((batch_ix + 1) mod W) batch_ix
             then aggregation_phase env batch_ix G1 st1 else st1).
Proof.
  unfold batch_step. intros Hstep.
  apply bind_Ok in Hstep as ([[agg_ix G1] st1] & Hrec & [= <-]).
  destruct st as [s acc], st1 as [s1 acc1].
  pose proof (record_gradient_inv _ _ _ _ _ _ _ _ Hrec) as (_ & -> & _).
  eauto.
Qed.

Lemma is_full_cycle_spec (agg_ix batch_ix : Z) :
  is_full_cycle agg_ix batch_ix = true <-> agg_ix = 0 /\ batch_ix <> 0.
Proof.
  unfold is_full_cycle. rewrite andb_true_iff, negb_true_iff.
  rewrite Z.eqb_eq, Z.eqb_neq. tauto.
Qed.

(** The bookkeeping of one batch. *)
Lemma batch_step_inv (batch_ix : Z) (b : Batch) (s : St) (acc : Acc)
    (s' : St) (acc' : Acc) :
  batch_step r_zero cfg env batch_ix b (s, acc) = Ok (s', acc') ->
  epoch s' = epoch s /\ rng s' = rng s /\ is_Some (G s') /\
  num_iter (metrics s') = num_iter (metrics s) + 1 /\
  num_grad_steps (metrics s') = num_grad_steps (metrics s) + 1 /\
  jacobian_residual (metrics s) `prefix_of` jacobian_residual (metrics s') /\
  epoch_grad_cost (metrics s') = epoch_grad_cost (metrics s) ++ [loc_grad_cost acc'] /\
  epoch_agg_cost (metrics s') = epoch_agg_cost (metrics s) ++ [loc_agg_cost acc'] /\
  epoch_gm_iter (metrics s') =
    (if 0 <? loc_gm_iter acc'
     then epoch_gm_iter (metrics s) ++ [loc_gm_iter acc']
     else epoch_gm_iter (metrics s)) /\
  epoch_compression_cost (metrics s') =
    (if t_pos (loc_compression_cost acc')
     then epoch_compression_cost (metrics s) ++ [loc_compression_cost acc']
     else epoch_compression_cost (metrics s)) /\
  avg_gm_cost (metrics s') = avg_gm_cost (metrics s).
Proof.
  intros Hstep. apply batch_step_split in Hstep as (G1 & [s1 acc1] & Hrec & Hst).
  apply record_gradient_inv in Hrec.
  destruct (is_full_cycle _ _).
  - destruct (aggregation_phase env batch_ix G1 (s1, acc1)) as [s2 acc2] eqn:Hagg.
    apply aggregation_phase_inv in Hagg.
    injection Hst as -> ->. simpl.
    destruct Hrec as (_ & _ & HG & He & _ & _ & _ & _ & Hr & Hni & Hng & _
                      & Hjr & Hgc & Hac & Hgi & Hcc & Havg & _).
    destruct Hagg as (He' & HG' & Hr' & _ & Hni' & Hng' & _ & _ & Hjr'
                      & Hgc' & Hac' & Hgi' & Hcc' & Havg' & _).
    repeat apply conj; try congruence.
    + rewrite HG', HG. eauto.
    + by rewrite Hgi', Hgi.
    + by rewrite Hcc', Hcc.
  - injection Hst as -> ->. simpl.
    destruct Hrec as (_ & _ & HG & He & _ & _ & _ & _ & Hr & Hni & Hng & _
                      & Hjr & Hgc & Hac & Hgi & Hcc & Havg & _).
    repeat apply conj; try congruence.
    + rewrite HG. eauto.
    + by rewrite Hjr.
    + by rewrite Hgi.
    + by rewrite Hcc.
Qed.

(** ** The end of an epoch and the loop of epochs *)

Lemma end_of_epoch_inv (s : St) :
  let s' := end_of_epoch cfg env s in
  G s' = G s /\ gar s' = gar s /\ rng s' = rng s /\
  num_iter (metrics s') = num_iter (metrics s) /\
  num_grad_steps (metrics s') = num_grad_steps (metrics s) /\
  num_opt_steps (metrics s') = num_opt_steps (metrics s) /\
  num_param (metrics s') = num_param (metrics s) /\
  jacobian_residual (metrics s') = jacobian_residual (metrics s) /\
  epoch_grad_cost (metrics s') = epoch_grad_cost (metrics s) /\
  epoch_agg_cost (metrics s') = epoch_agg_cost (metrics s) /\
  epoch_gm_iter (metrics s') = epoch_gm_iter (metrics s) /\
  epoch_compression_cost (metrics s') = epoch_compression_cost (metrics s).
Proof.
  unfold end_of_epoch.
  destruct (diverging _), (has_lrs cfg); simpl; repeat apply conj; reflexivity.
Qed.

Lemma end_of_epoch_epoch (s : St) :
  epoch (end_of_epoch cfg env s) =
    if diverging (evaluate_classifier env (learner s) (epoch s))
    then num_epochs cfg + 1 else epoch s + 1.
Proof.
  unfold end_of_epoch.
  destruct (diverging _), (has_lrs cfg); reflexivity.
Qed.

(** A relation on trainer states that every batch and every end of epoch
    respects holds between the start and any later point of the run. *)
Section RunInduction.
Variable Q : St -> St -> Prop.
Hypothesis Q_refl : forall s, Q s s.
Hypothesis Q_trans : forall s1 s2 s3, Q s1 s2 -> Q s2 s3 -> Q s1 s3.
Hypothesis Q_batch : forall batch_ix b s acc s' acc',
  batch_step r_zero cfg env batch_ix b (s, acc) = Ok (s', acc') -> Q s s'.
Hypothesis Q_end : forall s, Q s (end_of_epoch cfg env s).

Lemma train_batches_rel (batches : list Batch) :
  forall batch_ix s acc s' acc',
    train_batches r_zero cfg env batch_ix batches (s, acc) = Ok (s', acc') ->
    Q s s'.
Proof.
  induction batches as [|b rest IH]; simpl; intros batch_ix s acc s' acc' Hrun.
  - injection Hrun as -> _. apply Q_refl.
  - apply bind_Ok in Hrun as ([s1 acc1] & Hstep & Hrest).
    eapply Q_trans; [eapply Q_batch, Hstep | eapply IH, Hrest].
Qed.

Lemma run_epoch_rel (s s' : St) :
  run_epoch r_zero cfg env s = Ok s' -> Q s s'.
Proof.
  unfold run_epoch, train_epoch. intros Hrun.
  apply bind_Ok in Hrun as (s1 & Htrain & [= <-]).
  apply bind_Ok in Htrain as ([s2 acc2] & Htrain & [= <-]).
  eapply Q_trans; [eapply train_batches_rel, Htrain | apply Q_end].
Qed.

Lemma epochs_iter_rel (n : nat) :
  forall s s', epochs_iter r_zero cfg env n s = Ok s' -> Q s s'.
Proof.
  induction n as [|n IH]; simpl; intros s s' Hrun.
  - injection Hrun as ->. apply Q_refl.
  - apply bind_Ok in Hrun as (s1 & Hepoch & Hrest).
    eapply Q_trans; [eapply run_epoch_rel, Hepoch | eapply IH, Hrest].
Qed.

Lemma run_prefix_rel (full k : nat) (s s' : St) (acc' : Acc) :
  run_prefix r_zero cfg env full k s = Ok (s', acc') -> Q s s'.
Proof.
  unfold run_prefix. intros Hrun.
  apply bind_Ok in Hrun as (s1 & Hfull & Hpart).
  eapply Q_trans; [eapply epochs_iter_rel, Hfull | eapply train_batches_rel, Hpart].
Qed.

Lemma while_epochs_rel (fuel : nat) :
  forall s s', while_epochs r_zero cfg env fuel s = Some (Ok s') -> Q s s'.
Proof.
  induction fuel as [|fuel IH]; simpl; intros s s' Hrun;
    destruct (epoch s <? num_epochs cfg); try discriminate;
    try (injection Hrun as ->; apply Q_refl).
  destruct (run_epoch r_zero cfg env s) as [s1|e] eqn:Hepoch; [|discriminate].
  eapply Q_trans; [eapply run_epoch_rel, Hepoch | eapply IH, Hrun].
Qed.
End RunInduction.

(** Every pass of the loop raises the epoch counter and keeps it at most one
    above the configured maximum. *)
Lemma run_epoch_epoch (s s' : St) :
  run_epoch r_zero cfg env s = Ok s' ->
  exists s1, train_epoch r_zero cfg env s = Ok s1 /\ s' = end_of_epoch cfg env s1 /\
             epoch s1 = epoch s.
Proof.
  unfold run_epoch. intros Hrun.
  apply bind_Ok in Hrun as (s1 & Htrain & [= <-]).
  exists s1. repeat apply conj; auto.
  unfold train_epoch in Htrain.
  apply bind_Ok in Htrain as ([s2 acc2] & Htrain & [= <-]).
  apply (train_batches_rel (fun a b => epoch b = epoch a)) in Htrain; auto.
  - intros; congruence.
  - intros ? ? ? ? ? ? Hstep. by apply batch_step_inv in Hstep as (? & _).
Qed.

(** The loop ends: [num_epochs - epoch] passes are enough. *)
Lemma while_epochs_total (fuel : nat) :
  forall s, num_epochs cfg - epoch s <= Z.of_nat fuel ->
            exists r, while_epochs r_zero cfg env fuel s = Some r.
Proof.
  induction fuel as [|fuel IH]; simpl; intros s Hfuel;
    destruct (Z.ltb_spec (epoch s) (num_epochs cfg)); eauto; try lia.
  destruct (run_epoch r_zero cfg env s) as [s1|e] eqn:Hepoch; eauto.
  apply IH. apply run_epoch_epoch in Hepoch as (s0 & _ & -> & He).
  rewrite end_of_epoch_epoch, He. destruct (diverging _); lia.
Qed.

Lemma while_epochs_done (fuel : nat) (s : St) :
  num_epochs cfg <= epoch s -> while_epochs r_zero cfg env fuel s = Some (Ok s).
Proof.
  intros Hdone. destruct fuel; simpl;
    destruct (Z.ltb_spec (epoch s) (num_epochs cfg)); auto; lia.
Qed.

(** The terminal state of the loop, from a state inside the range: the
    counter is the maximum, or one above it when the last pass diverged. *)
Lemma while_epochs_terminal (fuel : nat) :
  forall s s', epoch s <= num_epochs cfg ->
    while_epochs r_zero cfg env fuel s = Some (Ok s') ->
    epoch s' = num_epochs cfg \/ epoch s' = num_epochs cfg + 1.
Proof.
  induction fuel as [|fuel IH]; simpl; intros s s' Hle Hrun;
    destruct (Z.ltb_spec (epoch s) (num_epochs cfg)); try discriminate;
    try (injection Hrun as <-; left; lia).
  destruct (run_epoch r_zero cfg env s) as [s1|e] eqn:Hepoch; [|discriminate].
  apply run_epoch_epoch in Hepoch as (s0 & _ & -> & He).
  pose proof (end_of_epoch_epoch s0) as Hnext.
  destruct (diverging _).
  - rewrite (while_epochs_done fuel (end_of_epoch cfg env s0)) in Hrun; [|lia].
    injection Hrun as <-. right; lia.
  - eapply IH; [|exact Hrun]. lia.
Qed.

(** ** The aggregation trigger *)

(** C1: for every batch index of an epoch, the aggregation phase (optional
    compression, aggregation, redistribution and the optimizer step, with
    [num_opt_steps] incremented) runs exactly when
    [(batch_ix + 1) mod W = 0] and [batch_ix <> 0]; otherwise the batch only
    records its gradient and neither the aggregator, the compressor, the
    optimizer nor [num_opt_steps] is touched. *)
Theorem aggregation_runs_on_full_cycle (batch_ix : Z) (b : Batch) (st st' : St * Acc) :
  batch_step r_zero cfg env batch_ix b st = Ok st' ->
  exists (G1 : Jacobian R) (st1 : St * Acc),
    record_gradient r_zero cfg env batch_ix b st
      = Ok ((batch_ix + 1) mod W, G1, st1) /\
    (num_opt_steps (metrics (fst st')) = num_opt_steps (metrics (fst st)) + 1
       <-> (batch_ix + 1) mod W = 0 /\ batch_ix <> 0) /\
    ((batch_ix + 1) mod W = 0 /\ batch_ix <> 0 ->
       st' = close_batch (aggregation_phase env batch_ix G1 st1)) /\
    (~ ((batch_ix + 1) mod W = 0 /\ batch_ix <> 0) ->
       st' = close_batch st1 /\
       num_opt_steps (metrics (fst st')) = num_opt_steps (metrics (fst st)) /\
       learner (fst st') = forward_backward env (learner (fst st)) b /\
       gar (fst st') = gar (fst st) /\
       C_J (fst st') = C_J (fst st) /\
       I_k (fst st') = I_k (fst st) /\
       jacobian_residual (metrics (fst st')) = jacobian_residual (metrics (fst st))).
Proof.
  intros Hstep.
  apply batch_step_split in Hstep as (G1 & [s1 acc1] & Hrec & Hst).
  exists G1, (s1, acc1). split; [exact Hrec|].
  destruct st as [s acc].
  apply record_gradient_inv in Hrec
    as (_ & _ & _ & _ & Hl & Hg & Hcj & Hik & _ & _ & _ & Hno & Hjr & _).
  pose proof (is_full_cycle_spec ((batch_ix + 1) mod W) batch_ix) as Hspec.
  destruct (is_full_cycle _ _).
  - assert (Hfull : (batch_ix + 1) mod W = 0 /\ batch_ix <> 0) by (by apply Hspec).
    destruct (aggregation_phase env batch_ix G1 (s1, acc1)) as [s2 acc2] eqn:Hagg.
    apply aggregation_phase_inv in Hagg
      as (_ & _ & _ & _ & _ & _ & Hno' & _).
    subst st'. simpl. repeat apply conj; try tauto.
    intros _. lia.
  - assert (Hnot : ~ ((batch_ix + 1) mod W = 0 /\ batch_ix <> 0)).
    { intros Hfull. apply Hspec in Hfull. discriminate. }
    subst st'. simpl. repeat apply conj; try tauto.
    intros Hone. lia.
Qed.

(** ** The aggregator's counters *)

(** C7: in every aggregation round the orchestrator adds the aggregator's
    [num_iter] and [agg_time], as they stand after the call, to the epoch's
    accumulators and then resets both counters to 0; so once a round has
    run, the counters are zero at every later point between rounds. *)
Theorem gar_counters_recorded_then_reset (batch_ix : Z) (G0 : Jacobian R)
    (s : St) (acc : Acc) (G_in : Jacobian R) (ik : Ik) (ax : Z)
    (s1 : St) (acc1 : Acc) (agg_g : list R) (gar1 : GAR T) :
  compression_phase env batch_ix G0 (s, acc) = (G_in, ik, ax, (s1, acc1)) ->
  aggregate env (gar s) G_in ik ax = (agg_g, gar1) ->
  (forall s' acc',
     aggregation_phase env batch_ix G0 (s, acc) = (s', acc') ->
     loc_gm_iter acc' = loc_gm_iter acc + gar_num_iter gar1 /\
     loc_agg_cost acc' = t_add (loc_agg_cost acc) (agg_time gar1) /\
     agg_time (gar s') = t_zero /\ gar_num_iter (gar s') = 0) /\
  (forall b k st st',
     batch_step r_zero cfg env k b st = Ok st' ->
     ((k + 1) mod W = 0 /\ k <> 0) \/ gar (fst st) = gar_reset ->
     gar (fst st') = gar_reset) /\
  (forall full k s0 s' acc',
     gar s0 = gar_reset ->
     run_prefix r_zero cfg env full k s0 = Ok (s', acc') ->
     gar s' = gar_reset).
Proof.
  intros Hc Hagg.
  assert (Hbatch : forall b k st st',
     batch_step r_zero cfg env k b st = Ok st' ->
     ((k + 1) mod W = 0 /\ k <> 0) \/ gar (fst st) = gar_reset ->
     gar (fst st') = gar_reset).
  { intros b k [s0 acc0] st' Hstep Hor.
    apply batch_step_split in Hstep as (G1 & [s2 acc2] & Hrec & ->).
    apply record_gradient_inv in Hrec
      as (_ & _ & _ & _ & _ & Hg & _).
    pose proof (is_full_cycle_spec ((k + 1) mod W) k) as Hspec.
    destruct (is_full_cycle _ _).
    - destruct (aggregation_phase env k G1 (s2, acc2)) as [s3 acc3] eqn:Hph.
      by apply aggregation_phase_inv in Hph as (_ & _ & _ & Hg' & _).
    - simpl in *. destruct Hor as [Hfull|Hzero]; [|congruence].
      apply Hspec in Hfull. discriminate. }
  repeat apply conj; [|exact Hbatch|].
  - intros s' acc'. unfold aggregation_phase. rewrite Hc.
    assert (Hg : gar s1 = gar s) by (by apply compression_phase_inv in Hc as (_&_&_&?&_)).
    rewrite Hg, Hagg. intros [= <- <-]. simpl.
    apply compression_phase_inv in Hc
      as (_ & _ & _ & _ & _ & _ & _ & _ & _ & _ & _ & _ & _ & _ & _ & _ & Hla & Hli).
    by rewrite Hla, Hli.
  - intros full k s0 s' acc' Hzero Hrun.
    apply (run_prefix_rel (fun a b => gar a = gar_reset -> gar b = gar_reset))
      in Hrun; auto.
    + intros b k0 s2 acc2 s3 acc3 Hstep Hz.
      apply (Hbatch _ _ _ _ Hstep). by right.
    + intros s2 Hz. by rewrite (proj1 (proj2 (end_of_epoch_inv s2))).
Qed.

(** ** The two step counters *)

(** C10: [num_iter] and [num_grad_steps] are each incremented once by every
    processed batch, so when they start equal they are equal after every
    prefix of the run and at its end. *)
Theorem num_iter_eq_num_grad_steps (s : St) :
  num_iter (metrics s) = num_grad_steps (metrics s) ->
  (forall batch_ix b acc s' acc',
     batch_step r_zero cfg env batch_ix b (s, acc) = Ok (s', acc') ->
     num_iter (metrics s') = num_iter (metrics s) + 1 /\
     num_grad_steps (metrics s') = num_grad_steps (metrics s) + 1) /\
  (forall full k s' acc',
     run_prefix r_zero cfg env full k (seed_rngs cfg s) = Ok (s', acc') ->
     num_iter (metrics s') = num_grad_steps (metrics s')) /\
  (forall s',
     run_batch_train r_zero cfg env s = Some (Ok s') ->
     num_iter (metrics s') = num_grad_steps (metrics s')).
Proof.
  intros Heq.
  set (Q := fun a b : St =>
    num_iter (metrics a) = num_grad_steps (metrics a) ->
    num_iter (metrics b) = num_grad_steps (metrics b)).
  assert (Qb : forall batch_ix b s0 acc s' acc',
    batch_step r_zero cfg env batch_ix b (s0, acc) = Ok (s', acc') -> Q s0 s').
  { intros batch_ix b s0 acc s' acc' Hstep Hq.
    apply batch_step_inv in Hstep as (_ & _ & _ & Hni & Hng & _). lia. }
  assert (Qe : forall s0, Q s0 (end_of_epoch cfg env s0)).
  { intros s0 Hq.
    destruct (end_of_epoch_inv s0) as (_ & _ & _ & Hni & Hng & _). lia. }
  repeat apply conj.
  - intros batch_ix b acc s' acc' Hstep.
    by apply batch_step_inv in Hstep as (_ & _ & _ & Hni & Hng & _).
  - intros full k s' acc' Hrun.
    apply (run_prefix_rel Q) in Hrun; unfold Q in *; auto.
  - intros s' Hrun. unfold run_batch_train in Hrun.
    apply (while_epochs_rel Q) in Hrun; unfold Q in *; auto.
Qed.

(** ** The totals at the end of an epoch *)

Lemma sum_int_from (l : list Z) (a : Z) :
  Forall (fun x => 0 < x) l -> a <= fold_left Z.add l a /\
                               (l <> [] -> a < fold_left Z.add l a).
Proof.
  intros Hpos. revert a. induction Hpos as [|x l Hx Hl IH]; simpl; intros a.
  - split; [lia | congruence].
  - destruct (IH (a + x)) as [Hle _]. split; [lia | intros _; lia].
Qed.

Lemma sum_int_zero (l : list Z) :
  Forall (fun x => 0 < x) l -> sum_int l = 0 -> l = [].
Proof.
  intros Hpos Hzero. destruct l as [|x l]; [reflexivity|].
  apply sum_int_from with (a := 0) in Hpos as [_ Hlt].
  unfold sum_int in Hzero. specialize (Hlt ltac:(congruence)). lia.
Qed.

Lemma epochs_iter_last (n : nat) :
  forall s s', epochs_iter r_zero cfg env (S n) s = Ok s' ->
    exists s1, epochs_iter r_zero cfg env n s = Ok s1 /\
               run_epoch r_zero cfg env s1 = Ok s'.
Proof.
  induction n as [|n IH]; intros s s' Hrun.
  - simpl in Hrun. apply bind_Ok in Hrun as (s1 & Hepoch & [= <-]).
    exists s. auto.
  - change (epochs_iter r_zero cfg env (S (S n)) s)
      with (run_epoch r_zero cfg env s ≫= epochs_iter r_zero cfg env (S n)) in Hrun.
    apply bind_Ok in Hrun as (s1 & Hepoch & Hrest).
    apply IH in Hrest as (s2 & Hiter & Hlast).
    exists s2. split; [|exact Hlast].
    simpl. by rewrite Hepoch.
Qed.

Lemma gm_series_ok_batch (batch_ix : Z) (b : Batch) (s : St) (acc : Acc)
    (s' : St) (acc' : Acc) :
  batch_step r_zero cfg env batch_ix b (s, acc) = Ok (s', acc') ->
  gm_series_ok s -> gm_series_ok s'.
Proof.
  intros Hstep [Hpos Havg].
  apply batch_step_inv in Hstep
    as (_ & _ & _ & _ & _ & _ & _ & _ & Hgi & _ & Hav).
  unfold gm_series_ok. rewrite Hgi, Hav.
  destruct (Z.ltb_spec 0 (loc_gm_iter acc')).
  - split.
    + apply Forall_app. split; [exact Hpos | by constructor].
    + intros Hnil. by apply app_eq_nil in Hnil as [_ ?].
  - by split.
Qed.

Lemma gm_series_ok_end (s : St) :
  gm_series_ok s -> gm_series_ok (end_of_epoch cfg env s).
Proof.
  intros [Hpos Havg]. unfold gm_series_ok.
  destruct (end_of_epoch_inv s) as (_&_&_&_&_&_&_&_&_&_& Hgi & _).
  rewrite Hgi. split; [exact Hpos|].
  intros Hnil. unfold end_of_epoch.
  destruct (diverging _), (has_lrs cfg); simpl; rewrite Hnil; simpl; auto.
Qed.

(** C6: at every epoch boundary each total is the sum of its series,
    [total_cost] is the sum of the three cost totals, and [avg_gm_cost] is
    [total_agg_cost / total_gm_iter] exactly when [total_gm_iter] is not
    zero, and absent otherwise (for a run that starts without the key and
    with an iteration series of positive entries, such as the empty one). *)
Theorem totals_at_epoch_boundary (n : nat) (s s' : St) :
  avg_gm_cost (metrics s) = None ->
  Forall (fun x => 0 < x) (epoch_gm_iter (metrics s)) ->
  epochs_iter r_zero cfg env (S n) s = Ok s' ->
  total_grad_cost (metrics s') = Some (sum_time (epoch_grad_cost (metrics s'))) /\
  total_agg_cost (metrics s') = Some (sum_time (epoch_agg_cost (metrics s'))) /\
  total_compression_cost (metrics s')
    = Some (sum_time (epoch_compression_cost (metrics s'))) /\
  total_gm_iter (metrics s') = Some (sum_int (epoch_gm_iter (metrics s'))) /\
  total_cost (metrics s')
    = Some (t_add (t_add (sum_time (epoch_grad_cost (metrics s')))
                         (sum_time (epoch_agg_cost (metrics s'))))
                  (sum_time (epoch_compression_cost (metrics s')))) /\
  avg_gm_cost (metrics s')
    = (if sum_int (epoch_gm_iter (metrics s')) =? 0 then None
       else Some (t_div (sum_time (epoch_agg_cost (metrics s')))
                        (sum_int (epoch_gm_iter (metrics s'))))).
Proof.
  intros Havg Hpos Hrun.
  apply epochs_iter_last in Hrun as (s1 & Hiter & Hlast).
  assert (Hok1 : gm_series_ok s1).
  { assert (Hok : gm_series_ok s) by (by split).
    revert Hok.
    apply (epochs_iter_rel (fun a b => gm_series_ok a -> gm_series_ok b))
      with (n := n); auto.
    - intros. eapply gm_series_ok_batch; eauto.
    - intros. by apply gm_series_ok_end. }
  unfold run_epoch in Hlast.
  apply bind_Ok in Hlast as (s2 & Htrain & [= <-]).
  assert (Hok2 : gm_series_ok s2).
  { unfold train_epoch in Htrain.
    apply bind_Ok in Htrain as ([s3 acc3] & Htrain & [= <-]).
    revert Hok1.
    eapply (train_batches_rel (fun a b => gm_series_ok a -> gm_series_ok b));
      [auto | auto | | exact Htrain].
    intros. eapply gm_series_ok_batch; eauto. }
  destruct Hok2 as [Hpos2 Havg2].
  unfold end_of_epoch.
  destruct (diverging _), (has_lrs cfg); simpl; repeat apply conj; try reflexivity;
    destruct (Z.eqb_spec (sum_int (epoch_gm_iter (metrics s2))) 0) as [Hz|Hnz];
    simpl; auto using sum_int_zero.
Qed.

(** ** The divergence stop *)

Lemma metrics_kept_refl (m : Metrics Res T) : metrics_kept m m.
Proof. unfold metrics_kept. repeat apply conj; reflexivity. Qed.

Lemma metrics_kept_trans (m1 m2 m3 : Metrics Res T) :
  metrics_kept m1 m2 -> metrics_kept m2 m3 -> metrics_kept m1 m3.
Proof.
  unfold metrics_kept.
  intros (?&?&?&?&?&?&?&?) (?&?&?&?&?&?&?&?).
  repeat apply conj; try (etrans; eassumption); lia.
Qed.

Lemma batch_step_opt_steps (batch_ix : Z) (b : Batch) (s : St) (acc : Acc)
    (s' : St) (acc' : Acc) :
  batch_step r_zero cfg env batch_ix b (s, acc) = Ok (s', acc') ->
  num_opt_steps (metrics s) <= num_opt_steps (metrics s').
Proof.
  intros Hstep.
  apply batch_step_split in Hstep as (G1 & [s1 acc1] & Hrec & Hst).
  apply record_gradient_inv in Hrec
    as (_ & _ & _ & _ & _ & _ & _ & _ & _ & _ & _ & Hno & _).
  destruct (is_full_cycle _ _).
  - destruct (aggregation_phase env batch_ix G1 (s1, acc1)) as [s2 acc2] eqn:Hagg.
    apply aggregation_phase_inv in Hagg as (_ & _ & _ & _ & _ & _ & Hno' & _).
    injection Hst as -> ->. simpl. lia.
  - injection Hst as -> ->. simpl. lia.
Qed.

Lemma metrics_kept_batch (batch_ix : Z) (b : Batch) (s : St) (acc : Acc)
    (s' : St) (acc' : Acc) :
  batch_step r_zero cfg env batch_ix b (s, acc) = Ok (s', acc') ->
  metrics_kept (metrics s) (metrics s').
Proof.
  intros Hstep. pose proof (batch_step_opt_steps _ _ _ _ _ _ Hstep) as Hno.
  apply batch_step_inv in Hstep
    as (_ & _ & _ & Hni & Hng & Hjr & Hgc & Hac & Hgi & Hcc & _).
  unfold metrics_kept. rewrite Hgc, Hac, Hgi, Hcc.
  repeat apply conj; try lia; try (by apply prefix_app_r); auto.
  - destruct (0 <? _); [by apply prefix_app_r | reflexivity].
  - destruct (t_pos _); [by apply prefix_app_r | reflexivity].
Qed.

Lemma metrics_kept_end (s : St) :
  metrics_kept (metrics s) (metrics (end_of_epoch cfg env s)).
Proof.
  destruct (end_of_epoch_inv s)
    as (_ & _ & _ & Hni & Hng & Hno & _ & Hjr & Hgc & Hac & Hgi & Hcc).
  unfold metrics_kept. rewrite Hni, Hng, Hno, Hjr, Hgc, Hac, Hgi, Hcc.
  repeat apply conj; reflexivity.
Qed.

(** The last pass of the loop decides the terminal epoch: the loop made no
    pass, or it ended right after a pass whose evaluation diverged, one
    above the maximum, or after a pass whose evaluation did not, at the
    maximum. *)
Lemma while_epochs_last (fuel : nat) :
  forall s s',
    epoch s <= num_epochs cfg ->
    while_epochs r_zero cfg env fuel s = Some (Ok s') ->
    (epoch s = num_epochs cfg /\ s' = s) \/
    (exists n s0 s1,
       epochs_iter r_zero cfg env n s = Ok s0 /\
       epoch s0 < num_epochs cfg /\
       train_epoch r_zero cfg env s0 = Ok s1 /\
       s' = end_of_epoch cfg env s1 /\
       epoch s' = if diverging (evaluate_classifier env (learner s1) (epoch s1))
                  then num_epochs cfg + 1 else num_epochs cfg).
Proof.
  induction fuel as [|fuel IH]; intros s s' Hle Hrun; simpl in Hrun;
    destruct (Z.ltb_spec (epoch s) (num_epochs cfg)) as [Hlt|Hge];
    try discriminate;
    try (injection Hrun as <-; left; split; [lia | reflexivity]).
  destruct (run_epoch r_zero cfg env s) as [sA|e] eqn:Hepoch; [|discriminate].
  pose proof (run_epoch_epoch _ _ Hepoch) as (s1 & Htrain & -> & He).
  pose proof (end_of_epoch_epoch s1) as Hnext.
  right.
  destruct (diverging (evaluate_classifier env (learner s1) (epoch s1))) eqn:Hdiv.
  - rewrite (while_epochs_done fuel (end_of_epoch cfg env s1)) in Hrun by lia.
    injection Hrun as <-.
    exists 0%nat, s, s1. rewrite Hdiv. repeat apply conj; auto.
  - apply IH in Hrun as [[Hend ->]|(n & s0 & s2 & Hiter & Hlt0 & Htr & -> & Hfin)];
      [ | | lia].
    + exists 0%nat, s, s1. rewrite Hdiv. repeat apply conj; auto.
    + exists (S n), s0, s2. repeat apply conj; auto.
      simpl. by rewrite Hepoch.
Qed.

(** C2, amended: a diverging evaluation loss (above 1e3, NaN or infinite)
    sets the epoch counter to [num_epochs] and the unconditional increment
    that follows makes it [num_epochs + 1]; the loop then ends.  So the run
    always terminates, its terminal epoch is [num_epochs] when reached
    normally (no pass at all, or a last pass whose evaluation did not
    diverge) and [num_epochs + 1] exactly when the evaluation of its last
    pass diverged, and every metric series of an earlier point of the run
    is a prefix of the final one. *)
Theorem divergence_stops_run (s : St) :
  epoch s <= num_epochs cfg ->
  (exists r, run_batch_train r_zero cfg env s = Some r) /\
  (forall s',
     run_batch_train r_zero cfg env s = Some (Ok s') ->
     (epoch s' = num_epochs cfg \/ epoch s' = num_epochs cfg + 1) /\
     metrics_kept (metrics s) (metrics s')) /\
  (forall s1 fuel,
     epoch s < num_epochs cfg ->
     train_epoch r_zero cfg env s = Ok s1 ->
     let train_loss := evaluate_classifier env (learner s1) (epoch s1) in
     (diverging train_loss = true ->
        while_epochs r_zero cfg env (S fuel) s = Some (Ok (end_of_epoch cfg env s1)) /\
        epoch (end_of_epoch cfg env s1) = num_epochs cfg + 1) /\
     (diverging train_loss = false ->
        epoch (end_of_epoch cfg env s1) = epoch s + 1) /\
     metrics_kept (metrics s) (metrics (end_of_epoch cfg env s1))) /\
  (forall s',
     run_batch_train r_zero cfg env s = Some (Ok s') ->
     (epoch s = num_epochs cfg /\ s' = seed_rngs cfg s /\
      epoch s' = num_epochs cfg) \/
     (exists n s0 s1,
        epochs_iter r_zero cfg env n (seed_rngs cfg s) = Ok s0 /\
        epoch s0 < num_epochs cfg /\
        train_epoch r_zero cfg env s0 = Ok s1 /\
        s' = end_of_epoch cfg env s1 /\
        epoch s' = if diverging (evaluate_classifier env (learner s1) (epoch s1))
                   then num_epochs cfg + 1 else num_epochs cfg)) /\
  ((forall l e, diverging (evaluate_classifier env l e) = false) ->
   forall s',
     run_batch_train r_zero cfg env s = Some (Ok s') ->
     epoch s' = num_epochs cfg).
Proof.
  intros Hle.
  assert (Hlast : forall s',
     run_batch_train r_zero cfg env s = Some (Ok s') ->
     (epoch s = num_epochs cfg /\ s' = seed_rngs cfg s /\
      epoch s' = num_epochs cfg) \/
     (exists n s0 s1,
        epochs_iter r_zero cfg env n (seed_rngs cfg s) = Ok s0 /\
        epoch s0 < num_epochs cfg /\
        train_epoch r_zero cfg env s0 = Ok s1 /\
        s' = end_of_epoch cfg env s1 /\
        epoch s' = if diverging (evaluate_classifier env (learner s1) (epoch s1))
                   then num_epochs cfg + 1 else num_epochs cfg)).
  { intros s' Hrun. unfold run_batch_train in Hrun.
    apply while_epochs_last in Hrun as [[Hend ->]|Hpass]; [left | by right | exact Hle].
    repeat apply conj; auto. }
  refine (conj _ (conj _ (conj _ (conj Hlast _)))); cycle 3.
  { intros Hcalm s' Hrun.
    destruct (Hlast s' Hrun) as [(_ & _ & Hend)|(n & s0 & s1 & _ & _ & _ & _ & Hfin)];
      [exact Hend|].
    by rewrite Hcalm in Hfin. }
  - unfold run_batch_train. apply while_epochs_total. simpl. lia.
  - intros s' Hrun. unfold run_batch_train in Hrun. split.
    + eapply while_epochs_terminal; [|exact Hrun]. exact Hle.
    + change (metrics s) with (metrics (seed_rngs cfg s)).
      eapply (while_epochs_rel (fun a b => metrics_kept (metrics a) (metrics b)));
        [ | | | | exact Hrun].
      * intros; apply metrics_kept_refl.
      * intros ? ? ?; apply metrics_kept_trans.
      * intros; eapply metrics_kept_batch; eauto.
      * intros; apply metrics_kept_end.
  - intros s1 fuel Hlt Htrain train_loss.
    assert (Hrun : run_epoch r_zero cfg env s = Ok (end_of_epoch cfg env s1)).
    { unfold run_epoch. by rewrite Htrain. }
    pose proof (run_epoch_epoch _ _ Hrun) as (s1' & Htrain' & _ & He).
    assert (s1' = s1) as -> by congruence.
    pose proof (end_of_epoch_epoch s1) as Hnext. fold train_loss in Hnext.
    refine (conj _ (conj _ _)).
    + intros Hdiv. rewrite Hdiv in Hnext. split; [|exact Hnext].
      simpl. destruct (Z.ltb_spec (epoch s) (num_epochs cfg)); [|lia].
      rewrite Hrun. apply while_epochs_done. lia.
    + intros Hcalm. rewrite Hcalm in Hnext. lia.
    + eapply (run_epoch_rel (fun a b => metrics_kept (metrics a) (metrics b)));
        [ | | | | exact Hrun].
      * intros; apply metrics_kept_refl.
      * intros ? ? ?; apply metrics_kept_trans.
      * intros; eapply metrics_kept_batch; eauto.
      * intros; apply metrics_kept_end.
Qed.

(** ** The gradient buffer *)

Lemma np_zeros_shape (Wz : Z) (d : nat) (G0 : Jacobian R) :
  np_zeros r_zero Wz d = Ok G0 ->
  jac_cols G0 = d /\ length (jac_rows G0) = Z.to_nat Wz.
Proof.
  unfold np_zeros. destruct (Wz <? 0); [discriminate|].
  intros [= <-]. simpl. by rewrite length_replicate.
Qed.

Lemma np_index_lt (n : nat) (ix : Z) (i : nat) :
  np_index n ix = Ok i -> (i < n)%nat.
Proof.
  unfold np_index.
  destruct (Z.leb_spec 0 ix), (Z.ltb_spec ix (Z.of_nat n)); simpl;
    try (intros [= <-]; lia);
    destruct (Z.leb_spec (- Z.of_nat n) ix), (Z.ltb_spec ix 0); simpl;
    try discriminate; intros [= <-]; lia.
Qed.

Lemma broadcast_row_Ok (d : nat) (g_i row : list R) :
  broadcast_row d g_i = Ok row ->
  (length g_i = d /\ row = g_i) \/
  (length g_i <> d /\ exists x, g_i = [x] /\ row = replicate d x).
Proof.
  unfold broadcast_row. destruct (Nat.eqb_spec (length g_i) d) as [Heq|Hne].
  - intros [= <-]. by left.
  - destruct g_i as [|x [|y rest]]; try discriminate.
    intros [= <-]. right. eauto.
Qed.

Lemma broadcast_row_mismatch (d : nat) (g_i : list R) :
  length g_i <> d -> length g_i <> 1%nat -> broadcast_row d g_i = Raise ValueError.
Proof.
  intros Hd Hone. unfold broadcast_row.
  destruct (Nat.eqb_spec (length g_i) d); [done|].
  by destruct g_i as [|x [|y rest]].
Qed.

Lemma set_row_Ok (G0 G1 : Jacobian R) (ix : Z) (g_i : list R) :
  set_row G0 ix g_i = Ok G1 ->
  exists i row,
    np_index (length (jac_rows G0)) ix = Ok i /\
    broadcast_row (jac_cols G0) g_i = Ok row /\
    jac_cols G1 = jac_cols G0 /\
    jac_rows G1 = <[i := row]> (jac_rows G0).
Proof.
  unfold set_row. intros Hset.
  apply bind_Ok in Hset as (i & Hi & Hset).
  apply bind_Ok in Hset as (row & Hrow & [= <-]).
  exists i, row. auto.
Qed.

(** What the first half of the loop body does to the buffer. *)
Lemma record_gradient_buffer (batch_ix : Z) (b : Batch) (s : St) (acc : Acc)
    (agg_ix : Z) (G1 : Jacobian R) (st1 : St * Acc) :
  record_gradient r_zero cfg env batch_ix b (s, acc) = Ok (agg_ix, G1, st1) ->
  exists G0,
    set_row G0 (batch_ix mod W) (gradient_of env s b) = Ok G1 /\
    match G s with
    | Some G0' =>
        G0' = G0 /\ num_param (metrics (fst st1)) = num_param (metrics s)
    | None =>
        np_zeros r_zero W (length (gradient_of env s b)) = Ok G0 /\
        num_param (metrics (fst st1)) = Some (length (gradient_of env s b))
    end.
Proof.
  unfold record_gradient. intros Hrec.
  apply bind_Ok in Hrec as ([G0 s4] & Halloc & Hrec).
  apply bind_Ok in Hrec as (ix & Hix & Hrec).
  apply bind_Ok in Hrec as (agg & Hagg & Hrec).
  apply bind_Ok in Hrec as (G1' & Hset & Hrec).
  injection Hrec as <- <- <-.
  apply py_mod_Ok in Hix as [HW ->].
  exists G0. split; [exact Hset|].
  unfold allocate in Halloc. simpl in Halloc.
  destruct (G s) as [G0'|] eqn:HG.
  - by injection Halloc as <- <-.
  - apply bind_Ok in Halloc as (G0' & Hz & [= <- <-]). by split.
Qed.

Lemma batch_step_buffer (batch_ix : Z) (b : Batch) (st st' : St * Acc)
    (agg_ix : Z) (G1 : Jacobian R) (st1 : St * Acc) :
  record_gradient r_zero cfg env batch_ix b st = Ok (agg_ix, G1, st1) ->
  batch_step r_zero cfg env batch_ix b st = Ok st' ->
  G (fst st') = Some G1 /\
  num_param (metrics (fst st')) = num_param (metrics (fst st1)).
Proof.
  intros Hrec Hstep. unfold batch_step in Hstep. rewrite Hrec in Hstep.
  simpl in Hstep. injection Hstep as <-.
  destruct st as [s acc], st1 as [s1 acc1].
  apply record_gradient_inv in Hrec as (_ & _ & HG & _).
  destruct (is_full_cycle _ _); [|by simpl].
  destruct (aggregation_phase env batch_ix G1 (s1, acc1)) as [s2 acc2] eqn:Hagg.
  apply aggregation_phase_inv in Hagg as (_ & HG' & _ & _ & _ & _ & _ & Hnp & _).
  simpl. split; congruence.
Qed.

(** What a batch does once the buffer exists: it succeeds and ends with
    the buffer the row assignment returns, or raises what the row assignment
    raises. *)
Lemma batch_step_allocated (batch_ix : Z) (b : Batch) (s : St) (acc : Acc)
    (G0 : Jacobian R) :
  G s = Some G0 -> W <> 0 ->
  match set_row G0 (batch_ix mod W) (gradient_of env s b) with
  | Ok G1 => exists st', batch_step r_zero cfg env batch_ix b (s, acc) = Ok st' /\
                         G (fst st') = Some G1
  | Raise e => batch_step r_zero cfg env batch_ix b (s, acc) = Raise e
  end.
Proof.
  intros HG HW.
  destruct (set_row G0 (batch_ix mod W) (gradient_of env s b)) as [G1|e] eqn:Hset.
  - assert (Hrec : exists st1, record_gradient r_zero cfg env batch_ix b (s, acc)
                     = Ok ((batch_ix + 1) mod W, G1, st1)).
    { unfold record_gradient, allocate. simpl. rewrite HG. simpl.
      unfold py_mod. destruct (Z.eqb_spec W 0); [done|]. simpl.
      fold (gradient_of env s b). rewrite Hset. simpl. eauto. }
    destruct Hrec as (st1 & Hrec).
    destruct (batch_step r_zero cfg env batch_ix b (s, acc)) as [st'|e] eqn:Hstep.
    + exists st'. split; [reflexivity|].
      by destruct (batch_step_buffer _ _ _ _ _ _ _ Hrec Hstep).
    + unfold batch_step in Hstep. rewrite Hrec in Hstep. discriminate.
  - unfold batch_step, record_gradient, allocate. simpl. rewrite HG. simpl.
    unfold py_mod. destruct (Z.eqb_spec W 0); [done|]. simpl.
    fold (gradient_of env s b). by rewrite Hset.
Qed.

Lemma broadcast_row_one (d : nat) (x : R) :
  broadcast_row d [x] = Ok (replicate d x).
Proof.
  by destruct d as [|[|d]].
Qed.

Lemma set_row_wf (G0 G1 : Jacobian R) (ix : Z) (g_i : list R) :
  set_row G0 ix g_i = Ok G1 -> jac_wf G0 -> jac_wf G1.
Proof.
  intros Hset Hwf. apply set_row_Ok in Hset as (i & row & _ & Hrow & Hc & Hr).
  unfold jac_wf in *. rewrite Hr, Hc. apply Forall_insert; [exact Hwf|].
  apply broadcast_row_Ok in Hrow as [[Hlen ->]|[_ (x & _ & ->)]];
    [exact Hlen | apply length_replicate].
Qed.

(** C3, amended: the buffer is allocated once, by the first gradient, with
    [W] rows of [d] entries, [d] being the length of that gradient, which
    is recorded as [num_param]; it is never allocated again.  A later
    gradient is stored when its length is [d], as it is, and when its length
    is 1, broadcast over the row without any error; with any other length
    the row assignment raises [ValueError], the batch fails and nothing is
    stored. *)
Theorem buffer_allocated_once_lengths_checked (batch_ix : Z) (b : Batch)
    (s : St) (acc : Acc) :
  (G s = None ->
   forall st', batch_step r_zero cfg env batch_ix b (s, acc) = Ok st' ->
     exists G1, G (fst st') = Some G1 /\
       jac_cols G1 = length (gradient_of env s b) /\
       length (jac_rows G1) = Z.to_nat W /\
       Forall (fun row => length row = length (gradient_of env s b))
              (jac_rows G1) /\
       num_param (metrics (fst st')) = Some (length (gradient_of env s b))) /\
  (forall G0, G s = Some G0 ->
   forall st', batch_step r_zero cfg env batch_ix b (s, acc) = Ok st' ->
     exists G1, G (fst st') = Some G1 /\
       jac_cols G1 = jac_cols G0 /\
       length (jac_rows G1) = length (jac_rows G0) /\
       (jac_wf G0 -> jac_wf G1) /\
       num_param (metrics (fst st')) = num_param (metrics s) /\
       (length (gradient_of env s b) = jac_cols G0 \/
        length (gradient_of env s b) = 1%nat)) /\
  (forall G0, G s = Some G0 ->
     length (gradient_of env s b) <> jac_cols G0 ->
     length (gradient_of env s b) <> 1%nat ->
     (exists e, batch_step r_zero cfg env batch_ix b (s, acc) = Raise e) /\
     (forall i, W <> 0 ->
        np_index (length (jac_rows G0)) (batch_ix mod W) = Ok i ->
        set_row G0 (batch_ix mod W) (gradient_of env s b) = Raise ValueError /\
        batch_step r_zero cfg env batch_ix b (s, acc) = Raise ValueError)) /\
  (forall G0 i, G s = Some G0 -> W <> 0 ->
     np_index (length (jac_rows G0)) (batch_ix mod W) = Ok i ->
     (length (gradient_of env s b) = jac_cols G0 ->
      exists st', batch_step r_zero cfg env batch_ix b (s, acc) = Ok st' /\
        G (fst st') = Some {| jac_cols := jac_cols G0;
                              jac_rows := <[i := gradient_of env s b]> (jac_rows G0) |}) /\
     (forall x, gradient_of env s b = [x] ->
      exists st', batch_step r_zero cfg env batch_ix b (s, acc) = Ok st' /\
        G (fst st') = Some {| jac_cols := jac_cols G0;
                              jac_rows := <[i := replicate (jac_cols G0) x]>
                                            (jac_rows G0) |})).
Proof.
  refine (conj _ (conj _ (conj _ _))).
  - intros HG st' Hstep.
    pose proof Hstep as Hsplit.
    apply batch_step_split in Hsplit as (G1 & st1 & Hrec & _).
    destruct (batch_step_buffer _ _ _ _ _ _ _ Hrec Hstep) as [HG1 Hnp].
    apply record_gradient_buffer in Hrec as (G0 & Hset & Hcase).
    rewrite HG in Hcase. destruct Hcase as [Hz Hnp'].
    pose proof Hz as Hshape. apply np_zeros_shape in Hshape as [Hc Hr].
    assert (Hwf0 : jac_wf G0).
    { unfold np_zeros in Hz. destruct (W <? 0); [discriminate|].
      injection Hz as <-. unfold jac_wf. simpl.
      apply Forall_replicate, length_replicate. }
    pose proof (set_row_wf _ _ _ _ Hset Hwf0) as Hwf1.
    apply set_row_Ok in Hset as (i & row & _ & _ & Hc' & Hr').
    exists G1. repeat apply conj; try congruence.
    + by rewrite Hr', length_insert.
    + unfold jac_wf in Hwf1. by rewrite Hc', Hc in Hwf1.
  - intros G0 HG st' Hstep.
    pose proof Hstep as Hsplit.
    apply batch_step_split in Hsplit as (G1 & st1 & Hrec & _).
    destruct (batch_step_buffer _ _ _ _ _ _ _ Hrec Hstep) as [HG1 Hnp].
    apply record_gradient_buffer in Hrec as (G0' & Hset & Hcase).
    rewrite HG in Hcase. destruct Hcase as [<- Hnp'].
    pose proof (set_row_wf _ _ _ _ Hset) as Hwf.
    apply set_row_Ok in Hset as (i & row & _ & Hrow & Hc' & Hr').
    exists G1.
    refine (conj HG1 (conj Hc' (conj _ (conj Hwf (conj _ _))))).
    + by rewrite Hr', length_insert.
    + congruence.
    + apply broadcast_row_Ok in Hrow as [[Hlen _]|[_ (x & Hx & _)]]; [by left|].
      right. by rewrite Hx.
  - intros G0 HG Hd Hone. split.
    + destruct (batch_step r_zero cfg env batch_ix b (s, acc)) as [st'|e] eqn:Hstep;
        [exfalso | eauto].
      apply batch_step_split in Hstep as (G1 & st1 & Hrec & _).
      apply record_gradient_buffer in Hrec as (G0' & Hset & Hcase).
      rewrite HG in Hcase. destruct Hcase as [<- _].
      apply set_row_Ok in Hset as (i & row & _ & Hrow & _).
      rewrite broadcast_row_mismatch in Hrow by assumption. discriminate.
    + intros i HW Hi.
      assert (Hset : set_row G0 (batch_ix mod W) (gradient_of env s b)
                     = Raise ValueError).
      { unfold set_row. rewrite Hi. simpl.
        by rewrite broadcast_row_mismatch by assumption. }
      split; [exact Hset|].
      pose proof (batch_step_allocated batch_ix b s acc G0 HG HW) as Hstep.
      by rewrite Hset in Hstep.
  - intros G0 i HG HW Hi. split.
    + intros Hlen.
      pose proof (batch_step_allocated batch_ix b s acc G0 HG HW) as Hstep.
      unfold set_row in Hstep. rewrite Hi in Hstep. simpl in Hstep.
      unfold broadcast_row in Hstep.
      rewrite (proj2 (Nat.eqb_eq _ _) Hlen) in Hstep. exact Hstep.
    + intros x Hx.
      pose proof (batch_step_allocated batch_ix b s acc G0 HG HW) as Hstep.
      unfold set_row in Hstep. rewrite Hi, Hx, broadcast_row_one in Hstep.
      exact Hstep.
Qed.

Lemma get_row_set_row (G0 G1 : Jacobian R) (ix : Z) (g_i : list R) :
  set_row G0 ix g_i = Ok G1 ->
  length g_i = jac_cols G1 ->
  get_row G1 ix = Ok g_i.
Proof.
  intros Hset Hlen.
  apply set_row_Ok in Hset as (i & row & Hi & Hrow & Hc & Hr).
  unfold get_row. rewrite Hr, length_insert, Hi. simpl.
  rewrite list_lookup_insert_eq by (by eapply np_index_lt).
  apply broadcast_row_Ok in Hrow as [[_ ->]|[Hne _]]; [done | congruence].
Qed.

Lemma get_row_set_row_other (G0 G1 : Jacobian R) (ix j : Z) (i j' : nat)
    (g_i : list R) :
  set_row G0 ix g_i = Ok G1 ->
  np_index (length (jac_rows G0)) ix = Ok i ->
  np_index (length (jac_rows G0)) j = Ok j' ->
  j' <> i ->
  get_row G1 j = get_row G0 j.
Proof.
  intros Hset Hi Hj Hne.
  apply set_row_Ok in Hset as (i0 & row & Hi0 & _ & _ & Hr).
  assert (i0 = i) as -> by congruence.
  unfold get_row. rewrite Hr, length_insert, Hj. simpl.
  by rewrite list_lookup_insert_ne.
Qed.

(** C8, amended: the gradient produced at batch index [batch_ix] of the
    current epoch (the index [enumerate] restarts at 0 every epoch), when
    its length is the buffer's [d], is stored in row [batch_ix mod W]: right
    after the write that row holds this gradient, and every other row holds
    what it held before. *)
Theorem gradient_stored_in_row (batch_ix : Z) (b : Batch) (s : St) (acc : Acc)
    (agg_ix : Z) (G1 : Jacobian R) (st1 : St * Acc) :
  record_gradient r_zero cfg env batch_ix b (s, acc) = Ok (agg_ix, G1, st1) ->
  length (gradient_of env s b) = jac_cols G1 ->
  G (fst st1) = Some G1 /\
  get_row G1 (batch_ix mod W) = Ok (gradient_of env s b) /\
  (forall G0 i j j',
     G s = Some G0 ->
     np_index (length (jac_rows G0)) (batch_ix mod W) = Ok i ->
     np_index (length (jac_rows G0)) j = Ok j' ->
     j' <> i ->
     get_row G1 j = get_row G0 j).
Proof.
  intros Hrec Hlen. destruct st1 as [s1 acc1].
  pose proof (record_gradient_inv _ _ _ _ _ _ _ _ Hrec) as (_ & _ & HG & _).
  pose proof (record_gradient_buffer _ _ _ _ _ _ _ Hrec) as (G0 & Hset & Hcase).
  refine (conj HG (conj _ _)).
  - by eapply get_row_set_row.
  - intros G0' i j j' HG0 Hi Hj Hne.
    rewrite HG0 in Hcase. destruct Hcase as [-> _].
    by eapply get_row_set_row_other.
Qed.

(** ** The per-batch series and the training modes *)

Lemma train_batches_series_lengths (batches : list Batch) :
  forall batch_ix s acc s' acc',
    train_batches r_zero cfg env batch_ix batches (s, acc) = Ok (s', acc') ->
    length (epoch_grad_cost (metrics s'))
      = (length (epoch_grad_cost (metrics s)) + length batches)%nat /\
    length (epoch_agg_cost (metrics s'))
      = (length (epoch_agg_cost (metrics s)) + length batches)%nat.
Proof.
  induction batches as [|b rest IH]; simpl; intros batch_ix s acc s' acc' Hrun.
  - injection Hrun as -> _. lia.
  - apply bind_Ok in Hrun as ([s1 acc1] & Hstep & Hrest).
    apply IH in Hrest as [Hg Ha].
    apply batch_step_inv in Hstep
      as (_ & _ & _ & _ & _ & _ & Hgc & Hac & _).
    rewrite Hg, Ha, Hgc, Hac, !length_app. simpl. lia.
Qed.

(** One pass of the loop appends one entry per batch to the two
    unconditional cost series. *)
Lemma run_epoch_series_lengths (s s' : St) :
  run_epoch r_zero cfg env s = Ok s' ->
  length (epoch_grad_cost (metrics s'))
    = (length (epoch_grad_cost (metrics s))
       + length (train_loader env (epoch s)))%nat /\
  length (epoch_agg_cost (metrics s'))
    = (length (epoch_agg_cost (metrics s))
       + length (train_loader env (epoch s)))%nat.
Proof.
  unfold run_epoch, train_epoch. intros Hrun.
  apply bind_Ok in Hrun as (s1 & Htrain & [= <-]).
  apply bind_Ok in Htrain as ([s2 acc2] & Htrain & [= <-]).
  apply train_batches_series_lengths in Htrain as [Hg Ha].
  destruct (end_of_epoch_inv s2) as (_&_&_&_&_&_&_&_& Hgc & Hac & _).
  cbn [fst]. by rewrite Hgc, Hac.
Qed.

(** C4: the vanilla mode is dispatched to [run_train], which seeds the
    generators and returns: no error is raised, and the model and the
    metrics are left as they were. *)
Theorem vanilla_mode_returns_silently (s : St) :
  run_mode r_zero cfg env "vanilla" s = Some (Ok (seed_rngs cfg s)) /\
  learner (seed_rngs cfg s) = learner s /\
  metrics (seed_rngs cfg s) = metrics s /\
  epoch (seed_rngs cfg s) = epoch s.
Proof. repeat apply conj; reflexivity. Qed.

(** Every mode name other than the two the dispatch knows raises
    [NotImplementedError], as [run_fed_train] does. *)
Lemma other_modes_raise (train_mode : string) (s : St) :
  train_mode <> "vanilla"%string -> train_mode <> "distributed"%string ->
  run_mode r_zero cfg env train_mode s = Some (Raise NotImplementedError) /\
  run_fed_train s = Raise NotImplementedError.
Proof.
  intros Hv Hd. unfold run_mode.
  apply String.eqb_neq in Hv, Hd. by rewrite Hv, Hd.
Qed.

(** ** Two runs that differ in the clock only *)

Section TwoClocks.
Variable env2 : Env Learner Batch R LR Res Ik CJ T.
Hypothesis Hsame : same_computation env env2.

Lemma clock_free_eq (m1 m2 : Metrics Res T) :
  clock_free m1 = clock_free m2 <->
  num_iter m1 = num_iter m2 /\ num_grad_steps m1 = num_grad_steps m2 /\
  num_opt_steps m1 = num_opt_steps m2 /\ num_param m1 = num_param m2 /\
  jacobian_residual m1 = jacobian_residual m2 /\
  epoch_gm_iter m1 = epoch_gm_iter m2 /\
  total_gm_iter m1 = total_gm_iter m2 /\
  length (epoch_grad_cost m1) = length (epoch_grad_cost m2) /\
  length (epoch_agg_cost m1) = length (epoch_agg_cost m2).
Proof.
  unfold clock_free. split.
  - intros [= ? ? ? ? ? ? ? ? ?]. repeat apply conj; assumption.
  - intros (?&?&?&?&?&?&?&?&?). congruence.
Qed.

Lemma same_record_gradient (batch_ix : Z) (b : Batch) (s1 s2 : St) (a1 a2 : Acc) :
  same_but_clock s1 s2 -> loc_gm_iter a1 = loc_gm_iter a2 ->
  match record_gradient r_zero cfg env batch_ix b (s1, a1),
        record_gradient r_zero cfg env2 batch_ix b (s2, a2) with
  | Ok (x1, G1, (t1, c1)), Ok (x2, G2, (t2, c2)) =>
      x1 = x2 /\ G1 = G2 /\ same_but_clock t1 t2 /\ loc_gm_iter c1 = loc_gm_iter c2
  | Raise x1, Raise x2 => x1 = x2
  | _, _ => False
  end.
Proof.
  intros (He & Hl & HG & Hik & Hcj & Hrng & Hgn & Hm) Hacc.
  apply clock_free_eq in Hm as (Hni & Hng & Hno & Hnp & Hjr & Hgi & Hti & Hlg & Hla).
  destruct Hsame as (_ & Hfb & Hfg & _).
  unfold record_gradient, allocate. simpl.
  rewrite Hl, HG, Hfb, Hfg.
  set (g_i := flatten_grads env2 (forward_backward env2 (learner s2) b)).
  destruct (G s2) as [G0|]; simpl.
  - destruct (py_mod batch_ix W) as [ix|x]; simpl; [|reflexivity].
    destruct (py_mod (batch_ix + 1) W) as [agg_ix|x]; simpl; [|reflexivity].
    destruct (set_row G0 ix g_i) as [G1|x]; simpl; [|reflexivity].
    unfold same_but_clock. simpl. rewrite clock_free_eq. simpl.
    repeat apply conj; auto; first [lia | congruence | by rewrite Hl | by rewrite Hjr].
  - destruct (np_zeros r_zero W (length g_i)) as [G0|x]; simpl; [|reflexivity].
    destruct (py_mod batch_ix W) as [ix|x]; simpl; [|reflexivity].
    destruct (py_mod (batch_ix + 1) W) as [agg_ix|x]; simpl; [|reflexivity].
    destruct (set_row G0 ix g_i) as [G1|x]; simpl; [|reflexivity].
    unfold same_but_clock. simpl. rewrite clock_free_eq. simpl.
    repeat apply conj; auto; first [lia | congruence | by rewrite Hl | by rewrite Hjr].
Qed.

Lemma same_aggregation_phase (batch_ix : Z) (G0 : Jacobian R)
    (s1 s2 : St) (a1 a2 : Acc) :
  same_but_clock s1 s2 -> loc_gm_iter a1 = loc_gm_iter a2 ->
  same_step (Ok (aggregation_phase env batch_ix G0 (s1, a1)))
            (Ok (aggregation_phase env2 batch_ix G0 (s2, a2))).
Proof.
  intros (He & Hl & HG & Hik & Hcj & Hrng & Hgn & Hm) Hacc.
  apply clock_free_eq in Hm as (Hni & Hng & Hno & Hnp & Hjr & Hgi & Hti & Hlg & Hla).
  destruct Hsame as (_ & _ & _ & Hlr & Hcomp & Hres & Hsp & Hax & Hagg
                     & Hzg & Hdist & Hopt & _).
  unfold aggregation_phase, compression_phase.
  rewrite Hl, Hcj, Hik, Hlr.
  destruct (C_J s2) as [cj|] eqn:Hcj2.
  - rewrite Hcomp.
    destruct (compress env2 cj G0 (current_lr env2 (learner s2))) as [ik cj1].
    rewrite Hres, Hsp, Hax. cbn [with_metrics with_compression gar].
    specialize (Hagg (gar s1) (gar s2) (G_sparse env2 cj1) ik (axis env2 cj1) Hgn).
    destruct (aggregate env (gar s1) (G_sparse env2 cj1) ik (axis env2 cj1))
      as [g1 gar1].
    destruct (aggregate env2 (gar s2) (G_sparse env2 cj1) ik (axis env2 cj1))
      as [g2 gar2].
    simpl in Hagg. destruct Hagg as [-> Hgn'].
    unfold same_step, same_but_clock. simpl. rewrite clock_free_eq. simpl.
    rewrite Hzg, Hdist, Hopt.
    repeat apply conj; auto; first [lia | congruence | by rewrite Hl | by rewrite Hjr].
  - specialize (Hagg (gar s1) (gar s2) G0 (I_k s2) 0 Hgn).
    destruct (aggregate env (gar s1) G0 (I_k s2) 0) as [g1 gar1].
    destruct (aggregate env2 (gar s2) G0 (I_k s2) 0) as [g2 gar2].
    simpl in Hagg. destruct Hagg as [-> Hgn'].
    unfold same_step, same_but_clock. simpl. rewrite clock_free_eq. simpl.
    rewrite Hl, Hzg, Hdist, Hopt.
    repeat apply conj; auto; first [lia | congruence | by rewrite Hl | by rewrite Hjr].
Qed.

Lemma same_close_batch (s1 s2 : St) (a1 a2 : Acc) :
  same_but_clock s1 s2 -> loc_gm_iter a1 = loc_gm_iter a2 ->
  same_step (Ok (close_batch (s1, a1))) (Ok (close_batch (s2, a2))).
Proof.
  intros (He & Hl & HG & Hik & Hcj & Hrng & Hgn & Hm) Hacc.
  apply clock_free_eq in Hm as (Hni & Hng & Hno & Hnp & Hjr & Hgi & Hti & Hlg & Hla).
  unfold same_step, close_batch, same_but_clock. simpl.
  rewrite clock_free_eq. simpl. rewrite !length_app, Hacc, Hgi. simpl.
  repeat apply conj; auto; first [lia | congruence | by rewrite Hl | by rewrite Hjr].
Qed.

Lemma same_batch_step (batch_ix : Z) (b : Batch) (st1 st2 : St * Acc) :
  same_step (Ok st1) (Ok st2) ->
  same_step (batch_step r_zero cfg env batch_ix b st1)
            (batch_step r_zero cfg env2 batch_ix b st2).
Proof.
  destruct st1 as [s1 a1], st2 as [s2 a2]. intros [Hsim Hacc].
  pose proof (same_record_gradient batch_ix b s1 s2 a1 a2 Hsim Hacc) as Hrec.
  unfold batch_step.
  destruct (record_gradient r_zero cfg env batch_ix b (s1, a1))
    as [[[x1 G1] [t1 c1]]|x1];
    destruct (record_gradient r_zero cfg env2 batch_ix b (s2, a2))
    as [[[x2 G2] [t2 c2]]|x2]; simpl; try contradiction; [|exact Hrec].
  destruct Hrec as (-> & -> & Hsim' & Hacc').
  destruct (is_full_cycle x2 batch_ix).
  - pose proof (same_aggregation_phase batch_ix G2 t1 t2 c1 c2 Hsim' Hacc') as Hagg.
    destruct (aggregation_phase env batch_ix G2 (t1, c1)) as [u1 d1].
    destruct (aggregation_phase env2 batch_ix G2 (t2, c2)) as [u2 d2].
    destruct Hagg. by apply same_close_batch.
  - by apply same_close_batch.
Qed.

Lemma same_train_batches (batches : list Batch) :
  forall batch_ix st1 st2,
    same_step (Ok st1) (Ok st2) ->
    same_step (train_batches r_zero cfg env batch_ix batches st1)
              (train_batches r_zero cfg env2 batch_ix batches st2).
Proof.
  induction batches as [|b rest IH]; intros batch_ix st1 st2 Hsim; [exact Hsim|].
  simpl. pose proof (same_batch_step batch_ix b st1 st2 Hsim) as Hstep.
  destruct (batch_step r_zero cfg env batch_ix b st1) as [u1|x1];
    destruct (batch_step r_zero cfg env2 batch_ix b st2) as [u2|x2];
    simpl; try (destruct u1; contradiction); try contradiction; [|exact Hstep].
  by apply IH.
Qed.

Lemma same_end_of_epoch (s1 s2 : St) :
  same_but_clock s1 s2 ->
  same_but_clock (end_of_epoch cfg env s1) (end_of_epoch cfg env2 s2).
Proof.
  intros (He & Hl & HG & Hik & Hcj & Hrng & Hgn & Hm).
  apply clock_free_eq in Hm as (Hni & Hng & Hno & Hnp & Hjr & Hgi & Hti & Hlg & Hla).
  destruct Hsame as (_&_&_&_&_&_&_&_&_&_&_&_& Hlrs & Heval).
  unfold end_of_epoch. rewrite Hl, He, Heval.
  destruct (diverging _), (has_lrs cfg); unfold same_but_clock; simpl;
    rewrite clock_free_eq; simpl; rewrite ?Hl, ?Hlrs, ?Hgi;
    repeat apply conj; auto; first [lia | congruence | by rewrite Hl | by rewrite Hjr].
Qed.

Lemma same_run_epoch (s1 s2 : St) :
  same_but_clock s1 s2 ->
  match run_epoch r_zero cfg env s1, run_epoch r_zero cfg env2 s2 with
  | Ok t1, Ok t2 => same_but_clock t1 t2
  | Raise x1, Raise x2 => x1 = x2
  | _, _ => False
  end.
Proof.
  intros Hsim. unfold run_epoch, train_epoch.
  destruct Hsame as (Htl & _).
  pose proof Hsim as (He & _). rewrite He, Htl.
  assert (Hacc : same_step (Ok (s1, fresh_acc)) (Ok (s2, fresh_acc))) by (by split).
  pose proof (same_train_batches (train_loader env2 (epoch s2)) 0 _ _ Hacc) as Hrun.
  destruct (train_batches r_zero cfg env 0 _ (s1, fresh_acc)) as [[t1 c1]|x1];
    destruct (train_batches r_zero cfg env2 0 _ (s2, fresh_acc)) as [[t2 c2]|x2];
    simpl; try contradiction; [|exact Hrun].
  destruct Hrun as [Hsim' _]. by apply same_end_of_epoch.
Qed.

Lemma same_while_epochs (fuel : nat) :
  forall s1 s2, same_but_clock s1 s2 ->
    same_outcome (while_epochs r_zero cfg env fuel s1)
                 (while_epochs r_zero cfg env2 fuel s2).
Proof.
  induction fuel as [|fuel IH]; intros s1 s2 Hsim; simpl;
    pose proof Hsim as (He & _); rewrite He;
    destruct (epoch s2 <? num_epochs cfg); simpl; auto.
  pose proof (same_run_epoch s1 s2 Hsim) as Hrun.
  destruct (run_epoch r_zero cfg env s1) as [t1|x1];
    destruct (run_epoch r_zero cfg env2 s2) as [t2|x2];
    simpl; try contradiction; auto.
Qed.

Lemma same_but_clock_refl (s : St) : same_but_clock s s.
Proof. unfold same_but_clock. repeat apply conj; reflexivity. Qed.
End TwoClocks.

(** C9, amended: two runs from the same trainer state with the same seed
    and configuration, whose collaborators compute the same functions and
    differ only in the durations the clock reports, end alike: both raise
    the same error, or both return, with the same epoch, model, buffer and
    the same metrics that hold no wall-clock measurement ([num_iter],
    [num_grad_steps], [num_opt_steps], [num_param], [jacobian_residual],
    [epoch_gm_iter], [total_gm_iter], and the number of entries of
    [epoch_grad_cost] and [epoch_agg_cost]). *)
Theorem runs_agree_but_for_clock (env2 : Env Learner Batch R LR Res Ik CJ T)
    (s : St) :
  same_computation env env2 ->
  same_outcome (run_batch_train r_zero cfg env s)
               (run_batch_train r_zero cfg env2 s).
Proof.
  intros Hsame. unfold run_batch_train.
  apply same_while_epochs; [exact Hsame | apply same_but_clock_refl].
Qed.

(** ** How often an epoch steps the optimizer *)

Lemma full_cycles_below_succ (k : Z) :
  0 < W -> 0 <= k ->
  full_cycles_below W (k + 1)
    = full_cycles_below W k + (if is_full_cycle ((k + 1) mod W) k then 1 else 0).
Proof.
  intros HW Hk. unfold full_cycles_below, is_full_cycle.
  destruct (Z.eqb_spec W 1) as [->|HW1].
  - rewrite Z.mod_1_r. simpl. destruct (Z.eqb_spec k 0); simpl; lia.
  - pose proof (Z.div_mod (k + 1) W ltac:(lia)) as Hdm.
    pose proof (Z.mod_pos_bound (k + 1) W HW) as Hr.
    destruct (Z.eqb_spec ((k + 1) mod W) 0) as [Hz|Hnz]; simpl.
    + assert (Hk0 : k <> 0).
      { intros ->. rewrite Z.mod_small in Hz by lia. lia. }
      destruct (Z.eqb_spec k 0); [done|]. simpl.
      assert ((k + 1) / W - 1 = k / W)
        by (apply (Z.div_unique_pos k W _ (W - 1)); lia).
      lia.
    + assert ((k + 1) / W = k / W)
        by (apply (Z.div_unique_pos k W _ ((k + 1) mod W - 1)); lia).
      lia.
Qed.

Lemma batch_step_opt_count (batch_ix : Z) (b : Batch) (s : St) (acc : Acc)
    (s' : St) (acc' : Acc) :
  batch_step r_zero cfg env batch_ix b (s, acc) = Ok (s', acc') ->
  num_opt_steps (metrics s')
    = num_opt_steps (metrics s)
      + (if is_full_cycle ((batch_ix + 1) mod W) batch_ix then 1 else 0).
Proof.
  intros Hstep.
  apply batch_step_split in Hstep as (G1 & [s1 acc1] & Hrec & Hst).
  apply record_gradient_inv in Hrec
    as (_ & _ & _ & _ & _ & _ & _ & _ & _ & _ & _ & Hno & _).
  destruct (is_full_cycle _ _).
  - destruct (aggregation_phase env batch_ix G1 (s1, acc1)) as [s2 acc2] eqn:Hagg.
    apply aggregation_phase_inv in Hagg as (_ & _ & _ & _ & _ & _ & Hno' & _).
    injection Hst as -> ->. simpl. lia.
  - injection Hst as -> ->. simpl. lia.
Qed.

Lemma train_batches_counts (batches : list Batch) :
  forall batch_ix s acc s' acc',
    0 < W -> 0 <= batch_ix ->
    train_batches r_zero cfg env batch_ix batches (s, acc) = Ok (s', acc') ->
    num_iter (metrics s')
      = num_iter (metrics s) + Z.of_nat (length batches) /\
    num_opt_steps (metrics s')
      = num_opt_steps (metrics s)
        + full_cycles_below W (batch_ix + Z.of_nat (length batches))
        - full_cycles_below W batch_ix.
Proof.
  induction batches as [|b rest IH]; intros batch_ix s acc s' acc' HW Hk Hrun.
  - simpl in Hrun. injection Hrun as -> _. cbn [length Z.of_nat].
    rewrite !Z.add_0_r. lia.
  - simpl in Hrun. apply bind_Ok in Hrun as ([s1 acc1] & Hstep & Hrest).
    apply IH in Hrest as [Hni Hno]; [|lia|lia].
    pose proof (batch_step_opt_count _ _ _ _ _ _ Hstep) as Hone.
    apply batch_step_inv in Hstep as (_ & _ & _ & Hni1 & _).
    rewrite (full_cycles_below_succ batch_ix HW Hk) in Hno.
    replace (batch_ix + Z.of_nat (length (b :: rest)))
      with (batch_ix + 1 + Z.of_nat (length rest)) by (simpl length; lia).
    simpl length. split; lia.
Qed.

(** X1: the batches of an epoch, from index 0: [N] of them raise [num_iter] by
    [N] and step the optimizer [N / W] times for a window [W >= 2], and
    [N - 1] times for [W = 1], where the first batch of an epoch never
    triggers. *)
Theorem optimizer_steps_of_epoch (batches : list Batch) (s : St) (acc : Acc)
    (s' : St) (acc' : Acc) :
  0 < W ->
  train_batches r_zero cfg env 0 batches (s, acc) = Ok (s', acc') ->
  num_iter (metrics s')
    = num_iter (metrics s) + Z.of_nat (length batches) /\
  num_opt_steps (metrics s')
    = num_opt_steps (metrics s)
      + (if W =? 1 then Z.max (Z.of_nat (length batches) - 1) 0
         else Z.of_nat (length batches) / W).
Proof.
  intros HW Hrun.
  apply train_batches_counts in Hrun as [Hni Hno]; [|exact HW|lia].
  split; [exact Hni|]. rewrite Hno. unfold full_cycles_below.
  rewrite Z.add_0_l. destruct (Z.eqb_spec W 1) as [HW1|HW1]; [lia|].
  rewrite Z.div_0_l by lia. lia.
Qed.

(** ** What the batches of an epoch leave alone *)

(** X11: inside an epoch nothing writes the totals, the average or the epoch
    counter: after any number of batches they are what they were when the
    epoch began. *)
Theorem totals_untouched_inside_epoch (batches : list Batch) :
  forall batch_ix s acc s' acc',
    train_batches r_zero cfg env batch_ix batches (s, acc) = Ok (s', acc') ->
    epoch s' = epoch s /\
    total_grad_cost (metrics s') = total_grad_cost (metrics s) /\
    total_agg_cost (metrics s') = total_agg_cost (metrics s) /\
    total_gm_iter (metrics s') = total_gm_iter (metrics s) /\
    total_compression_cost (metrics s') = total_compression_cost (metrics s) /\
    total_cost (metrics s') = total_cost (metrics s) /\
    avg_gm_cost (metrics s') = avg_gm_cost (metrics s).
Proof.
  intros batch_ix s acc s' acc' Hrun.
  eapply (train_batches_rel (fun a b =>
            epoch b = epoch a /\
            total_grad_cost (metrics b) = total_grad_cost (metrics a) /\
            total_agg_cost (metrics b) = total_agg_cost (metrics a) /\
            total_gm_iter (metrics b) = total_gm_iter (metrics a) /\
            total_compression_cost (metrics b) = total_compression_cost (metrics a) /\
            total_cost (metrics b) = total_cost (metrics a) /\
            avg_gm_cost (metrics b) = avg_gm_cost (metrics a)));
    [ | | | exact Hrun].
  - intros. repeat apply conj; reflexivity.
  - intros s1 s2 s3 (?&?&?&?&?&?&?) (?&?&?&?&?&?&?).
    repeat apply conj; congruence.
  - clear. intros batch_ix b s acc s' acc' Hstep.
    apply batch_step_split in Hstep as (G1 & [s1 acc1] & Hrec & Hst).
    unfold record_gradient, allocate in Hrec.
    apply bind_Ok in Hrec as ([G0 s4] & Halloc & Hrec).
    apply bind_Ok in Hrec as (ix & _ & Hrec).
    apply bind_Ok in Hrec as (agg & _ & Hrec).
    apply bind_Ok in Hrec as (G1' & _ & Hrec).
    injection Hrec as _ _ <- <-.
    assert (Hs4 : epoch s4 = epoch s /\
      total_grad_cost (metrics s4) = total_grad_cost (metrics s) /\
      total_agg_cost (metrics s4) = total_agg_cost (metrics s) /\
      total_gm_iter (metrics s4) = total_gm_iter (metrics s) /\
      total_compression_cost (metrics s4) = total_compression_cost (metrics s) /\
      total_cost (metrics s4) = total_cost (metrics s) /\
      avg_gm_cost (metrics s4) = avg_gm_cost (metrics s)).
    { simpl in Halloc. destruct (G s).
      - injection Halloc as <- <-. repeat apply conj; reflexivity.
      - apply bind_Ok in Halloc as (G0' & _ & [= <- <-]).
        repeat apply conj; reflexivity. }
    destruct Hs4 as (?&?&?&?&?&?&?).
    destruct (is_full_cycle _ _).
    + unfold aggregation_phase, compression_phase in Hst.
      cbn [with_G C_J learner metrics epoch] in Hst.
      destruct (C_J s4) as [cj|].
      * destruct (compress env cj G1 _) as [ik cj1].
        cbn in Hst. destruct (aggregate env _ _ _ _) as [agg_g gar1].
        injection Hst as -> ->. simpl. repeat apply conj; assumption.
      * destruct (aggregate env _ _ _ _) as [agg_g gar1].
        injection Hst as -> ->. simpl. repeat apply conj; assumption.
    + injection Hst as -> ->. simpl. repeat apply conj; assumption.
Qed.

(** ** With and without a compressor *)

(** A relation on trainer states that the batches of every epoch, started
    on fresh accumulators, and every end of epoch respect. *)
Section EpochInduction.
Variable Q : St -> St -> Prop.
Hypothesis Q_refl : forall s, Q s s.
Hypothesis Q_trans : forall s1 s2 s3, Q s1 s2 -> Q s2 s3 -> Q s1 s3.
Hypothesis Q_batches : forall batches s s' acc',
  train_batches r_zero cfg env 0 batches (s, fresh_acc) = Ok (s', acc') -> Q s s'.
Hypothesis Q_end : forall s, Q s (end_of_epoch cfg env s).

Lemma run_epoch_from_fresh (s s' : St) :
  run_epoch r_zero cfg env s = Ok s' -> Q s s'.
Proof.
  unfold run_epoch, train_epoch. intros Hrun.
  apply bind_Ok in Hrun as (s1 & Htrain & [= <-]).
  apply bind_Ok in Htrain as ([s2 acc2] & Htrain & [= <-]).
  eapply Q_trans; [eapply Q_batches, Htrain | apply Q_end].
Qed.

Lemma epochs_iter_from_fresh (n : nat) :
  forall s s', epochs_iter r_zero cfg env n s = Ok s' -> Q s s'.
Proof.
  induction n as [|n IH]; simpl; intros s s' Hrun.
  - injection Hrun as ->. apply Q_refl.
  - apply bind_Ok in Hrun as (s1 & Hepoch & Hrest).
    eapply Q_trans; [eapply run_epoch_from_fresh, Hepoch | eapply IH, Hrest].
Qed.

Lemma run_prefix_from_fresh (full k : nat) (s s' : St) (acc' : Acc) :
  run_prefix r_zero cfg env full k s = Ok (s', acc') -> Q s s'.
Proof.
  unfold run_prefix. intros Hrun.
  apply bind_Ok in Hrun as (s1 & Hfull & Hpart).
  eapply Q_trans; [eapply epochs_iter_from_fresh, Hfull | eapply Q_batches, Hpart].
Qed.

Lemma while_epochs_from_fresh (fuel : nat) :
  forall s s', while_epochs r_zero cfg env fuel s = Some (Ok s') -> Q s s'.
Proof.
  induction fuel as [|fuel IH]; simpl; intros s s' Hrun;
    destruct (epoch s <? num_epochs cfg); try discriminate;
    try (injection Hrun as ->; apply Q_refl).
  destruct (run_epoch r_zero cfg env s) as [s1|e] eqn:Hepoch; [|discriminate].
  eapply Q_trans; [eapply run_epoch_from_fresh, Hepoch | eapply IH, Hrun].
Qed.
End EpochInduction.

(** The aggregation phase without a compressor. *)
Lemma aggregation_phase_plain (batch_ix : Z) (G0 : Jacobian R) (s : St) (acc : Acc)
    (s' : St) (acc' : Acc) :
  C_J s = None ->
  aggregation_phase env batch_ix G0 (s, acc) = (s', acc') ->
  C_J s' = None /\ I_k s' = I_k s /\
  jacobian_residual (metrics s') = jacobian_residual (metrics s) /\
  loc_compression_cost acc' = loc_compression_cost acc.
Proof.
  intros Hcj. unfold aggregation_phase, compression_phase. rewrite Hcj.
  destruct (aggregate env (gar s) G0 (I_k s) 0) as [agg_g gar1].
  intros [= <- <-]. simpl. by rewrite Hcj.
Qed.

(** The aggregation phase with a compressor. *)
Lemma aggregation_phase_compressed (batch_ix : Z) (G0 : Jacobian R) (s : St)
    (acc : Acc) (s' : St) (acc' : Acc) (cj : CJ) :
  C_J s = Some cj ->
  aggregation_phase env batch_ix G0 (s, acc) = (s', acc') ->
  let r := compress env cj G0 (current_lr env (learner s)) in
  C_J s' = Some (snd r) /\ I_k s' = fst r /\
  jacobian_residual (metrics s')
    = jacobian_residual (metrics s) ++ [normalized_residual env (snd r)] /\
  loc_compression_cost acc'
    = t_add (loc_compression_cost acc) (compression_time env (epoch s) batch_ix).
Proof.
  intros Hcj. unfold aggregation_phase, compression_phase. rewrite Hcj.
  destruct (compress env cj G0 (current_lr env (learner s))) as [ik cj1].
  cbn [with_metrics with_compression gar].
  destruct (aggregate env (gar s) (G_sparse env cj1) ik (axis env cj1))
    as [agg_g gar1].
  intros [= <- <-]. simpl. auto.
Qed.

Lemma batch_step_plain (batch_ix : Z) (b : Batch) (s : St) (acc : Acc)
    (s' : St) (acc' : Acc) :
  C_J s = None ->
  batch_step r_zero cfg env batch_ix b (s, acc) = Ok (s', acc') ->
  C_J s' = None /\ I_k s' = I_k s /\
  jacobian_residual (metrics s') = jacobian_residual (metrics s) /\
  loc_compression_cost acc' = loc_compression_cost acc.
Proof.
  intros Hcj Hstep.
  apply batch_step_split in Hstep as (G1 & [s1 acc1] & Hrec & Hst).
  apply record_gradient_inv in Hrec
    as (_ & _ & _ & _ & _ & _ & Hcj1 & Hik & _ & _ & _ & _ & Hjr & _ & _ & _ & _
        & _ & _ & _ & _ & Hlc).
  rewrite <- Hcj1 in Hcj.
  destruct (is_full_cycle _ _).
  - destruct (aggregation_phase env batch_ix G1 (s1, acc1)) as [s2 acc2] eqn:Hagg.
    apply (aggregation_phase_plain _ _ _ _ _ _ Hcj) in Hagg as (Hc & Hi & Hj & Hl).
    injection Hst as -> ->. simpl. repeat apply conj; congruence.
  - injection Hst as -> ->. simpl. repeat apply conj; congruence.
Qed.

Lemma train_batches_plain (batches : list Batch) :
  forall batch_ix s acc s' acc',
    t_pos t_zero = false ->
    C_J s = None -> loc_compression_cost acc = t_zero ->
    train_batches r_zero cfg env batch_ix batches (s, acc) = Ok (s', acc') ->
    C_J s' = None /\ I_k s' = I_k s /\
    jacobian_residual (metrics s') = jacobian_residual (metrics s) /\
    epoch_compression_cost (metrics s') = epoch_compression_cost (metrics s) /\
    loc_compression_cost acc' = t_zero.
Proof.
  induction batches as [|b rest IH]; simpl;
    intros batch_ix s acc s' acc' Hpos Hcj Hacc Hrun.
  - injection Hrun as -> ->. auto.
  - apply bind_Ok in Hrun as ([s1 acc1] & Hstep & Hrest).
    pose proof (batch_step_plain _ _ _ _ _ _ Hcj Hstep) as (Hc & Hi & Hj & Hl).
    apply batch_step_inv in Hstep
      as (_ & _ & _ & _ & _ & _ & _ & _ & _ & Hcc & _).
    rewrite Hl, Hacc, Hpos in Hcc.
    apply IH in Hrest as (Hc' & Hi' & Hj' & Hcc' & Hl'); auto; [|congruence].
    repeat apply conj; congruence.
Qed.

(** X6: without a compressor the run never writes anything of the compression:
    [C_J] stays [None], [I_k] keeps its value, and no entry is appended to
    [jacobian_residual] or to [epoch_compression_cost] ([0 > 0] being
    false). *)
Theorem no_compressor_no_residual (full k : nat) (s s' : St) (acc' : Acc) :
  t_pos t_zero = false ->
  C_J s = None ->
  run_prefix r_zero cfg env full k s = Ok (s', acc') ->
  C_J s' = None /\ I_k s' = I_k s /\
  jacobian_residual (metrics s') = jacobian_residual (metrics s) /\
  epoch_compression_cost (metrics s') = epoch_compression_cost (metrics s).
Proof.
  intros Hpos Hcj Hrun. revert Hcj.
  eapply (run_prefix_from_fresh (fun a b =>
            C_J a = None ->
            C_J b = None /\ I_k b = I_k a /\
            jacobian_residual (metrics b) = jacobian_residual (metrics a) /\
            epoch_compression_cost (metrics b) = epoch_compression_cost (metrics a)));
    [ | | | | exact Hrun].
  - auto.
  - intros s1 s2 s3 H12 H23 Hc.
    destruct (H12 Hc) as (Hc2 & ? & ? & ?).
    destruct (H23 Hc2) as (? & ? & ? & ?).
    repeat apply conj; congruence.
  - intros batches s1 s2 acc2 Htrain Hc.
    apply train_batches_plain in Htrain as (? & ? & ? & ? & _); auto.
  - intros s1 Hc.
    destruct (end_of_epoch_inv s1) as (_&_&_&_&_&_&_& Hjr &_&_&_& Hcc).
    unfold end_of_epoch in *.
    destruct (diverging _), (has_lrs cfg); simpl in *; auto.
Qed.

Lemma batch_step_compressed (batch_ix : Z) (b : Batch) (s : St) (acc : Acc)
    (s' : St) (acc' : Acc) :
  is_Some (C_J s) ->
  batch_step r_zero cfg env batch_ix b (s, acc) = Ok (s', acc') ->
  is_Some (C_J s') /\
  Z.of_nat (length (jacobian_residual (metrics s')))
    - Z.of_nat (length (jacobian_residual (metrics s)))
  = num_opt_steps (metrics s') - num_opt_steps (metrics s).
Proof.
  intros [cj Hcj] Hstep.
  pose proof (batch_step_opt_count _ _ _ _ _ _ Hstep) as Hno.
  apply batch_step_split in Hstep as (G1 & [s1 acc1] & Hrec & Hst).
  apply record_gradient_inv in Hrec
    as (_ & _ & _ & _ & _ & _ & Hcj1 & _ & _ & _ & _ & _ & Hjr & _).
  rewrite <- Hcj1 in Hcj.
  destruct (is_full_cycle _ _).
  - destruct (aggregation_phase env batch_ix G1 (s1, acc1)) as [s2 acc2] eqn:Hagg.
    apply (aggregation_phase_compressed _ _ _ _ _ _ _ Hcj) in Hagg
      as (Hc & _ & Hj & _).
    injection Hst as -> ->. simpl in *. split; [by rewrite Hc|].
    rewrite Hj, length_app, Hjr. simpl. lia.
  - injection Hst as -> ->. simpl in *. split; [by rewrite Hcj|].
    rewrite Hjr. lia.
Qed.

(** X7: with a compressor the run appends one entry to [jacobian_residual] for
    every optimizer step it takes, and the compressor stays in place. *)
Theorem residual_per_optimizer_step (full k : nat) (s s' : St) (acc' : Acc) :
  is_Some (C_J s) ->
  run_prefix r_zero cfg env full k s = Ok (s', acc') ->
  is_Some (C_J s') /\
  Z.of_nat (length (jacobian_residual (metrics s')))
    - Z.of_nat (length (jacobian_residual (metrics s)))
  = num_opt_steps (metrics s') - num_opt_steps (metrics s).
Proof.
  intros Hcj Hrun. revert Hcj.
  eapply (run_prefix_rel (fun a b =>
            is_Some (C_J a) ->
            is_Some (C_J b) /\
            Z.of_nat (length (jacobian_residual (metrics b)))
              - Z.of_nat (length (jacobian_residual (metrics a)))
            = num_opt_steps (metrics b) - num_opt_steps (metrics a)));
    [ | | | | exact Hrun].
  - intros s1 Hc. split; [exact Hc | lia].
  - intros s1 s2 s3 H12 H23 Hc.
    destruct (H12 Hc) as (Hc2 & ?). destruct (H23 Hc2) as (? & ?).
    split; [assumption | lia].
  - intros batch_ix b s1 acc1 s2 acc2 Hstep Hc.
    eapply batch_step_compressed; eauto.
  - intros s1 Hc.
    destruct (end_of_epoch_inv s1) as (_&_&_&_&_& Hno &_& Hjr &_).
    rewrite Hno, Hjr. split; [|lia].
    unfold end_of_epoch. destruct (diverging _), (has_lrs cfg); exact Hc.
Qed.

(** ** Windows that cannot work and runs that cannot fail *)

Lemma batch_step_nonpositive (batch_ix : Z) (b : Batch) (s : St) (acc : Acc) :
  W <= 0 -> (W < 0 -> G s = None) ->
  batch_step r_zero cfg env batch_ix b (s, acc)
    = Raise (if W =? 0 then ZeroDivisionError else ValueError).
Proof.
  intros HW HG. unfold batch_step, record_gradient, allocate. simpl.
  destruct (Z.eqb_spec W 0) as [Hz|Hnz].
  - destruct (G s) as [G0|]; simpl.
    + unfold py_mod. rewrite Hz. reflexivity.
    + unfold np_zeros, py_mod. rewrite Hz. reflexivity.
  - rewrite HG by lia. simpl. unfold np_zeros.
    destruct (Z.ltb_spec W 0); [reflexivity | lia].
Qed.

(** X4: a window of 0 makes the first batch of the run raise
    [ZeroDivisionError] (from [batch_ix % 0]); a negative window makes the
    first batch raise [ValueError] when it allocates the buffer. *)
Theorem nonpositive_window_raises (s : St) (b : Batch) (rest : list Batch) :
  W <= 0 -> (W < 0 -> G s = None) ->
  epoch s < num_epochs cfg ->
  train_loader env (epoch s) = b :: rest ->
  run_batch_train r_zero cfg env s
    = Some (Raise (if W =? 0 then ZeroDivisionError else ValueError)).
Proof.
  intros HW HG Hlt Hload. unfold run_batch_train.
  destruct (Z.to_nat (num_epochs cfg - epoch (seed_rngs cfg s))) as [|fuel] eqn:Hfuel;
    [simpl in Hfuel; lia|].
  simpl. destruct (Z.ltb_spec (epoch s) (num_epochs cfg)); [|lia].
  unfold run_epoch, train_epoch. simpl. rewrite Hload. simpl.
  rewrite batch_step_nonpositive by assumption. reflexivity.
Qed.

Lemma np_index_in_range (n : nat) (ix : Z) :
  0 <= ix < Z.of_nat n -> np_index n ix = Ok (Z.to_nat ix).
Proof.
  intros Hix. unfold np_index.
  destruct (Z.leb_spec 0 ix), (Z.ltb_spec ix (Z.of_nat n)); simpl; auto; lia.
Qed.

Lemma batch_step_well_formed (d : nat) (batch_ix : Z) (b : Batch) (s : St)
    (acc : Acc) :
  0 < W -> buffer_ok cfg d s ->
  length (gradient_of env s b) = d ->
  exists st', batch_step r_zero cfg env batch_ix b (s, acc) = Ok st' /\
              buffer_ok cfg d (fst st') /\ is_Some (G (fst st')).
Proof.
  intros HW Hok Hlen. subst d.
  assert (Hrec : exists agg_ix G1 st1,
            record_gradient r_zero cfg env batch_ix b (s, acc)
              = Ok (agg_ix, G1, st1) /\
            jac_shape cfg (length (gradient_of env s b)) G1).
  { unfold record_gradient, allocate, buffer_ok, jac_shape in *. simpl.
    fold (gradient_of env s b).
    pose proof (Z.mod_pos_bound batch_ix W HW) as Hix.
    assert (Hmod : forall a, py_mod a W = Ok (a mod W)).
    { intros a. unfold py_mod. destruct (Z.eqb_spec W 0); [lia | reflexivity]. }
    destruct (G s) as [G0|]; simpl.
    - destruct Hok as (Hc & Hr & Hf). rewrite !Hmod. simpl.
      unfold set_row. rewrite np_index_in_range by lia. simpl.
      unfold broadcast_row. rewrite Hc, Nat.eqb_refl. simpl.
      eexists _, _, _. split; [reflexivity|]. simpl.
      refine (conj eq_refl (conj _ _)).
      + by rewrite length_insert.
      + by apply Forall_insert.
    - unfold np_zeros. destruct (Z.ltb_spec W 0); [lia|]. simpl.
      rewrite !Hmod. simpl. unfold set_row. simpl.
      rewrite length_replicate, np_index_in_range by lia. simpl.
      unfold broadcast_row. rewrite Nat.eqb_refl. simpl.
      eexists _, _, _. split; [reflexivity|]. simpl.
      refine (conj eq_refl (conj _ _)).
      + by rewrite length_insert, length_replicate.
      + apply Forall_insert; [|reflexivity].
        apply Forall_replicate, length_replicate. }
  destruct Hrec as (agg_ix & G1 & st1 & Hrec & Hshape).
  destruct (batch_step r_zero cfg env batch_ix b (s, acc)) as [st'|e] eqn:Hstep.
  - exists st'. split; [reflexivity|].
    destruct (batch_step_buffer _ _ _ _ _ _ _ Hrec Hstep) as [HG _].
    unfold buffer_ok. rewrite HG. eauto.
  - unfold batch_step in Hstep. rewrite Hrec in Hstep. discriminate.
Qed.

Lemma train_batches_well_formed (d : nat) (batches : list Batch) :
  forall batch_ix s acc,
    0 < W -> buffer_ok cfg d s ->
    Forall (fun b => forall l,
              length (flatten_grads env (forward_backward env l b)) = d) batches ->
    exists st', train_batches r_zero cfg env batch_ix batches (s, acc) = Ok st' /\
                buffer_ok cfg d (fst st').
Proof.
  induction batches as [|b rest IH]; intros batch_ix s acc HW Hok Hall.
  - exists (s, acc). auto.
  - inversion Hall as [|? ? Hb Hrest]; subst.
    destruct (batch_step_well_formed d batch_ix b s acc HW Hok (Hb _))
      as ([s1 acc1] & Hstep & Hok1 & _).
    destruct (IH (batch_ix + 1) s1 acc1 HW Hok1 Hrest) as (st' & Hrun & Hok').
    exists st'. simpl. by rewrite Hstep.
Qed.

Lemma buffer_ok_end (d : nat) (s : St) :
  buffer_ok cfg d s -> buffer_ok cfg d (end_of_epoch cfg env s).
Proof.
  unfold buffer_ok. by rewrite (proj1 (end_of_epoch_inv s)).
Qed.

Lemma while_epochs_well_formed (d : nat) (fuel : nat) :
  forall s r,
    0 < W -> buffer_ok cfg d s ->
    (forall e l b, b ∈ train_loader env e ->
       length (flatten_grads env (forward_backward env l b)) = d) ->
    while_epochs r_zero cfg env fuel s = Some r ->
    exists s', r = Ok s' /\ buffer_ok cfg d s'.
Proof.
  induction fuel as [|fuel IH]; simpl; intros s r HW Hok Hlen Hrun;
    destruct (epoch s <? num_epochs cfg); try discriminate;
    try (injection Hrun as <-; eauto).
  destruct (train_batches_well_formed d (train_loader env (epoch s)) 0 s fresh_acc
              HW Hok) as ([s1 acc1] & Htrain & Hok1).
  { apply Forall_forall. intros b Hb l. by eapply Hlen. }
  unfold run_epoch, train_epoch in Hrun. rewrite Htrain in Hrun. simpl in Hrun.
  eapply IH; [exact HW | | exact Hlen | exact Hrun].
  by apply buffer_ok_end.
Qed.

Lemma buffer_trace_refl (s : St) : buffer_trace s s.
Proof. by split. Qed.

Lemma buffer_trace_trans (s1 s2 s3 : St) :
  buffer_trace s1 s2 -> buffer_trace s2 s3 -> buffer_trace s1 s3.
Proof.
  intros [Ha1 Hb1] [Ha2 Hb2]. split; [auto|].
  intros HG3. rewrite (Hb2 HG3). apply Hb1.
  destruct (G s2) as [G2|] eqn:HG2; [|reflexivity].
  destruct (Ha2 ltac:(eauto)) as [G3 HG3']. congruence.
Qed.

Lemma batch_step_allocates (batch_ix : Z) (b : Batch) (s s' : St)
    (acc acc' : Acc) :
  batch_step r_zero cfg env batch_ix b (s, acc) = Ok (s', acc') ->
  is_Some (G s').
Proof.
  intros Hstep. pose proof Hstep as Hsplit.
  apply batch_step_split in Hsplit as (G1 & st1 & Hrec & _).
  destruct (batch_step_buffer _ _ _ _ _ _ _ Hrec Hstep) as [HG _].
  simpl in HG. eauto.
Qed.

Lemma buffer_trace_batch (batch_ix : Z) (b : Batch) (s : St) (acc : Acc)
    (s' : St) (acc' : Acc) :
  batch_step r_zero cfg env batch_ix b (s, acc) = Ok (s', acc') ->
  buffer_trace s s'.
Proof.
  intros Hstep. apply batch_step_allocates in Hstep as [G1 HG].
  split; [eauto | congruence].
Qed.

Lemma buffer_trace_end (s : St) : buffer_trace s (end_of_epoch cfg env s).
Proof.
  destruct (end_of_epoch_inv s) as (HG & _ & _ & Hn & _).
  unfold buffer_trace. by rewrite HG, Hn.
Qed.

Lemma while_epochs_unfold (fuel : nat) (s : St) :
  while_epochs r_zero cfg env (S fuel) s =
    if epoch s <? num_epochs cfg then
      match run_epoch r_zero cfg env s with
      | Ok s1 => while_epochs r_zero cfg env fuel s1
      | Raise e => Some (Raise e)
      end
    else Some (Ok s).
Proof. reflexivity. Qed.

(** A run that starts inside the range on a loader with a first batch ends
    with an allocated buffer. *)
Lemma run_with_a_batch_allocates (s s' : St) (b : Batch) (rest : list Batch) :
  epoch s < num_epochs cfg ->
  train_loader env (epoch s) = b :: rest ->
  run_batch_train r_zero cfg env s = Some (Ok s') ->
  is_Some (G s').
Proof.
  intros Hlt Hload Hrun. unfold run_batch_train in Hrun.
  destruct (Z.to_nat (num_epochs cfg - epoch (seed_rngs cfg s))) as [|fuel] eqn:Hfuel;
    [simpl in Hfuel; lia|].
  rewrite while_epochs_unfold in Hrun.
  change (epoch (seed_rngs cfg s)) with (epoch s) in Hrun.
  destruct (Z.ltb_spec (epoch s) (num_epochs cfg)); [|lia].
  destruct (run_epoch r_zero cfg env (seed_rngs cfg s)) as [s3|e] eqn:Hepoch;
    [|discriminate].
  unfold run_epoch in Hepoch.
  apply bind_Ok in Hepoch as (s2 & Htrain & Hend). injection Hend as <-.
  unfold train_epoch in Htrain.
  apply bind_Ok in Htrain as ([s2' acc2] & Htrain & Hfst).
  injection Hfst as <-.
  change (epoch (seed_rngs cfg s)) with (epoch s) in Htrain.
  rewrite Hload in Htrain. simpl in Htrain.
  apply bind_Ok in Htrain as ([s1 acc1] & Hstep & Hrest).
  apply batch_step_allocates in Hstep.
  apply (train_batches_rel buffer_trace buffer_trace_refl buffer_trace_trans
           buffer_trace_batch) in Hrest.
  apply (while_epochs_rel buffer_trace buffer_trace_refl buffer_trace_trans
           buffer_trace_batch buffer_trace_end) in Hrun.
  apply Hrun, buffer_trace_end, Hrest, Hstep.
Qed.

(** X3: with a positive window, a buffer that is not allocated yet (or is
    a matrix of [W] rows of [d] entries) and a loader whose batches all give
    gradients of length [d], the run raises nothing: it returns.  At its end
    the buffer is a matrix of [W] rows of [d] entries each, and it is so
    whenever the run started inside the range with a first epoch of at least
    one batch; the only other end is a run that counted no batch at all,
    which leaves the buffer absent and [num_iter] as it was. *)
Theorem uniform_gradients_never_raise (d : nat) (s : St) :
  0 < W -> buffer_ok cfg d s ->
  (forall e l b, b ∈ train_loader env e ->
     length (flatten_grads env (forward_backward env l b)) = d) ->
  exists s', run_batch_train r_zero cfg env s = Some (Ok s') /\
    ((exists G', G s' = Some G' /\
        jac_cols G' = d /\ length (jac_rows G') = Z.to_nat W /\
        Forall (fun row => length row = d) (jac_rows G')) \/
     (G s' = None /\ G s = None /\
      num_iter (metrics s') = num_iter (metrics s))) /\
    (epoch s < num_epochs cfg -> train_loader env (epoch s) <> [] ->
     exists G', G s' = Some G' /\
        jac_cols G' = d /\ length (jac_rows G') = Z.to_nat W /\
        Forall (fun row => length row = d) (jac_rows G')).
Proof.
  intros HW Hok Hlen.
  destruct (while_epochs_total
              (Z.to_nat (num_epochs cfg - epoch (seed_rngs cfg s)))
              (seed_rngs cfg s) ltac:(lia)) as [r Hr].
  destruct (while_epochs_well_formed d _ (seed_rngs cfg s) r HW Hok Hlen Hr)
    as (s' & -> & Hok').
  exists s'. split; [exact Hr|]. split.
  - unfold buffer_ok in Hok'. destruct (G s') as [G'|] eqn:HG'.
    + left. exists G'. split; [reflexivity | exact Hok'].
    + right.
      apply (while_epochs_rel buffer_trace buffer_trace_refl buffer_trace_trans
               buffer_trace_batch buffer_trace_end) in Hr as [Hsome Hnone].
      refine (conj eq_refl (conj _ (Hnone HG'))).
      change (G (seed_rngs cfg s)) with (G s) in Hsome.
      destruct (G s) as [G0|]; [|reflexivity].
      destruct (Hsome ltac:(eauto)) as [G1 HG1]. congruence.
  - intros Hlt Hne.
    destruct (train_loader env (epoch s)) as [|b rest] eqn:Hload; [done|].
    destruct (run_with_a_batch_allocates s s' b rest Hlt Hload Hr) as [G' HG'].
    unfold buffer_ok in Hok'. rewrite HG' in Hok'.
    exists G'. split; [exact HG' | exact Hok'].
Qed.

(** X5: once the buffer exists, nothing in the run replaces it: after any
    number of epochs and batches it has the same number of rows and
    columns, and [num_param] is what it was. *)
Theorem buffer_shape_kept (full k : nat) (s s' : St) (acc' : Acc) (G0 : Jacobian R) :
  G s = Some G0 ->
  run_prefix r_zero cfg env full k s = Ok (s', acc') ->
  exists G', G s' = Some G' /\
    jac_cols G' = jac_cols G0 /\
    length (jac_rows G') = length (jac_rows G0) /\
    num_param (metrics s') = num_param (metrics s).
Proof.
  intros HG Hrun. revert G0 HG.
  eapply (run_prefix_rel (fun a b => forall G0, G a = Some G0 ->
            exists G', G b = Some G' /\
              jac_cols G' = jac_cols G0 /\
              length (jac_rows G') = length (jac_rows G0) /\
              num_param (metrics b) = num_param (metrics a)));
    [ | | | | exact Hrun].
  - intros s1 G0 HG. eauto.
  - intros s1 s2 s3 H12 H23 G0 HG.
    destruct (H12 G0 HG) as (G1 & HG1 & Hc1 & Hr1 & Hp1).
    destruct (H23 G1 HG1) as (G2 & HG2 & Hc2 & Hr2 & Hp2).
    exists G2. repeat apply conj; congruence.
  - intros batch_ix b s1 acc1 s2 acc2 Hstep G0 HG.
    pose proof Hstep as Hsplit.
    apply batch_step_split in Hsplit as (G1 & st1 & Hrec & _).
    destruct (batch_step_buffer _ _ _ _ _ _ _ Hrec Hstep) as [HG1 Hnp].
    apply record_gradient_buffer in Hrec as (G0' & Hset & Hcase).
    rewrite HG in Hcase. destruct Hcase as [<- Hnp'].
    apply set_row_Ok in Hset as (i & row & _ & _ & Hc & Hr).
    exists G1. simpl in *. repeat apply conj; try congruence.
    by rewrite Hr, length_insert.
  - intros s1 G0 HG.
    destruct (end_of_epoch_inv s1) as (HG' & _ & _ & _ & _ & _ & Hnp & _).
    exists G0. rewrite HG', Hnp. auto.
Qed.

(** ** The buffer as a sliding window *)

Lemma epoch_gradients_train (batches : list Batch) :
  forall batch_ix st gs st',
    epoch_gradients r_zero cfg env batch_ix batches st = Ok (gs, st') ->
    train_batches r_zero cfg env batch_ix batches st = Ok st' /\
    length gs = length batches.
Proof.
  induction batches as [|b rest IH]; simpl; intros batch_ix st gs st' Hrun.
  - by injection Hrun as <- <-.
  - apply bind_Ok in Hrun as (st1 & Hstep & Hrun).
    apply bind_Ok in Hrun as ([gs1 st2] & Hrest & [= <- <-]).
    apply IH in Hrest as [Hrest Hlen]. rewrite Hstep. simpl.
    split; [exact Hrest | by rewrite Hlen].
Qed.

Lemma train_epoch_gradients (batches : list Batch) :
  forall batch_ix st st',
    train_batches r_zero cfg env batch_ix batches st = Ok st' ->
    exists gs, epoch_gradients r_zero cfg env batch_ix batches st = Ok (gs, st').
Proof.
  induction batches as [|b rest IH]; simpl; intros batch_ix st st' Hrun.
  - injection Hrun as <-. eauto.
  - apply bind_Ok in Hrun as (st1 & Hstep & Hrest).
    apply IH in Hrest as (gs & Hrest). rewrite Hstep. simpl. rewrite Hrest.
    simpl. eauto.
Qed.

Lemma np_index_nonneg (n : nat) (ix : Z) (i : nat) :
  0 <= ix -> np_index n ix = Ok i -> i = Z.to_nat ix.
Proof.
  intros Hix. unfold np_index.
  destruct (Z.leb_spec 0 ix), (Z.ltb_spec ix (Z.of_nat n)); simpl;
    try (intros [= <-]; reflexivity);
    destruct (Z.leb_spec (- Z.of_nat n) ix), (Z.ltb_spec ix 0); simpl;
    try discriminate; intros _; exfalso; lia.
Qed.

Lemma mod_shift_ne (a c : Z) :
  0 < W -> 0 < c < W -> (a + c) mod W <> a mod W.
Proof.
  intros HW Hc Heq.
  pose proof (Z.div_mod a W ltac:(lia)) as Ha.
  pose proof (Z.div_mod (a + c) W ltac:(lia)) as Hac.
  rewrite Heq in Hac.
  assert (Hdiff : c = W * ((a + c) / W - a / W)) by lia.
  destruct (Z_le_gt_dec ((a + c) / W - a / W) 0); nia.
Qed.

(** One batch writes row [batch_ix mod W] and no other: the buffer keeps
    its columns, and a row of another index is read as before. *)
Lemma batch_step_frame (batch_ix : Z) (b : Batch) (st st' : St * Acc)
    (G0 : Jacobian R) :
  0 < W ->
  G (fst st) = Some G0 ->
  batch_step r_zero cfg env batch_ix b st = Ok st' ->
  exists G1, G (fst st') = Some G1 /\
    set_row G0 (batch_ix mod W) (gradient_of env (fst st) b) = Ok G1 /\
    jac_cols G1 = jac_cols G0 /\
    forall r, 0 <= r -> r <> batch_ix mod W -> get_row G1 r = get_row G0 r.
Proof.
  intros HW HG Hstep. destruct st as [s acc]. simpl in HG.
  pose proof Hstep as Hsplit.
  apply batch_step_split in Hsplit as (G1 & st1 & Hrec & _).
  destruct (batch_step_buffer _ _ _ _ _ _ _ Hrec Hstep) as [HG1 _].
  apply record_gradient_buffer in Hrec as (G0' & Hset & Hcase).
  rewrite HG in Hcase. destruct Hcase as [<- _].
  exists G1. split; [exact HG1|]. split; [exact Hset|].
  pose proof Hset as Hset'.
  apply set_row_Ok in Hset' as (i & row & Hi & _ & Hc & Hr).
  split; [exact Hc|]. intros r Hr0 Hne.
  pose proof (Z.mod_pos_bound batch_ix W HW) as Hix.
  apply np_index_nonneg in Hi as ->; [|lia].
  unfold get_row. rewrite Hr, length_insert.
  destruct (np_index (length (jac_rows G0)) r) as [j|e] eqn:Hj; simpl; [|done].
  apply np_index_nonneg in Hj as ->; [|lia].
  rewrite list_lookup_insert_ne; [done | lia].
Qed.

Lemma train_batches_frame (batches : list Batch) :
  forall batch_ix st st' G0,
    0 < W ->
    G (fst st) = Some G0 ->
    train_batches r_zero cfg env batch_ix batches st = Ok st' ->
    exists G', G (fst st') = Some G' /\ jac_cols G' = jac_cols G0 /\
      forall r, 0 <= r ->
        (forall i, (i < length batches)%nat -> (batch_ix + Z.of_nat i) mod W <> r) ->
        get_row G' r = get_row G0 r.
Proof.
  induction batches as [|b rest IH]; simpl; intros batch_ix st st' G0 HW HG Hrun.
  - injection Hrun as <-. exists G0. auto.
  - apply bind_Ok in Hrun as (st1 & Hstep & Hrest).
    destruct (batch_step_frame _ _ _ _ _ HW HG Hstep)
      as (G1 & HG1 & _ & Hc1 & Hframe1).
    destruct (IH _ _ _ _ HW HG1 Hrest) as (G' & HG' & Hc' & Hframe).
    exists G'. split; [exact HG'|]. split; [congruence|].
    intros r Hr0 Hfree. rewrite Hframe.
    + apply Hframe1; [exact Hr0|].
      specialize (Hfree 0%nat ltac:(lia)). rewrite Z.add_0_r in Hfree. congruence.
    + exact Hr0.
    + intros i Hi. specialize (Hfree (S i) ltac:(lia)).
      by replace (batch_ix + 1 + Z.of_nat i) with (batch_ix + Z.of_nat (S i)) by lia.
Qed.

Lemma epoch_gradients_window (batches : list Batch) :
  forall batch_ix st gs st' G',
    0 < W ->
    epoch_gradients r_zero cfg env batch_ix batches st = Ok (gs, st') ->
    G (fst st') = Some G' ->
    Forall (fun g => length g = jac_cols G') gs ->
    forall j g, gs !! j = Some g -> (length gs <= j + Z.to_nat W)%nat ->
      get_row G' ((batch_ix + Z.of_nat j) mod W) = Ok g.
Proof.
  induction batches as [|b rest IH]; simpl;
    intros batch_ix st gs st' G' HW Hrun HG' Hlen j g Hj Hlast.
  - injection Hrun as <- <-. discriminate.
  - apply bind_Ok in Hrun as (st1 & Hstep & Hrun).
    apply bind_Ok in Hrun as ([gs1 st2] & Hrest & [= <- <-]).
    inversion Hlen as [|? ? Hg0 Hgs1]; subst.
    destruct j as [|j]; simpl in Hj.
    + injection Hj as <-. rewrite Z.add_0_r.
      pose proof Hrest as Htrain.
      apply epoch_gradients_train in Htrain as [Htrain Hn].
      destruct st1 as [s1 acc1].
      pose proof Hstep as Hsome. destruct st as [s acc].
      apply batch_step_inv in Hsome as (_ & _ & [G1 HG1] & _).
      destruct (train_batches_frame rest (batch_ix + 1) (s1, acc1) st2 G1
                  HW HG1 Htrain) as (G2 & HG2 & Hc2 & Hframe).
      assert (G2 = G') as -> by congruence.
      pose proof (Z.mod_pos_bound batch_ix W HW) as Hix.
      rewrite Hframe; [|lia|].
      * pose proof Hstep as Hsplit.
        apply batch_step_split in Hsplit as (G1' & st1' & Hrec & _).
        destruct (batch_step_buffer _ _ _ _ _ _ _ Hrec Hstep) as [HG1' _].
        simpl in HG1'. assert (G1' = G1) as -> by congruence.
        apply record_gradient_buffer in Hrec as (G0 & Hset & _).
        eapply get_row_set_row; [exact Hset|]. simpl in *. congruence.
      * intros i Hi. simpl in Hlast. rewrite <- Hn in Hi.
        replace (batch_ix + 1 + Z.of_nat i) with (batch_ix + (1 + Z.of_nat i)) by lia.
        apply mod_shift_ne; lia.
    + replace (batch_ix + Z.of_nat (S j)) with (batch_ix + 1 + Z.of_nat j) by lia.
      eapply IH; eauto. simpl in Hlast. lia.
Qed.

(** X2: after any number of batches of an epoch, the rows of the buffer
    written by the last [W] of them hold their gradients: the gradient of
    batch [j], when it has the buffer's length and at most [W - 1] batches
    followed it, is row [j mod W].  After a multiple of [W] batches, where
    the aggregation runs, that is every row. *)
Theorem buffer_holds_last_window (batches : list Batch) (s : St) (acc : Acc)
    (gs : list (list R)) (s' : St) (acc' : Acc) (G' : Jacobian R) :
  0 < W ->
  epoch_gradients r_zero cfg env 0 batches (s, acc) = Ok (gs, (s', acc')) ->
  G s' = Some G' ->
  Forall (fun g => length g = jac_cols G') gs ->
  train_batches r_zero cfg env 0 batches (s, acc) = Ok (s', acc') /\
  length gs = length batches /\
  forall j g, gs !! j = Some g -> (length gs <= j + Z.to_nat W)%nat ->
    get_row G' (Z.of_nat j mod W) = Ok g.
Proof.
  intros HW Hrun HG Hlen.
  destruct (epoch_gradients_train _ _ _ _ _ Hrun) as [Htrain Hn].
  refine (conj Htrain (conj Hn _)). intros j g Hj Hlast.
  change (Z.of_nat j) with (0 + Z.of_nat j).
  eapply epoch_gradients_window; eauto.
Qed.

(** ** Runs that never diverge, and running twice *)

Lemma run_epoch_counts (s s' : St) :
  0 < W ->
  run_epoch r_zero cfg env s = Ok s' ->
  num_iter (metrics s')
    = num_iter (metrics s) + Z.of_nat (length (train_loader env (epoch s))) /\
  num_opt_steps (metrics s')
    = num_opt_steps (metrics s)
      + full_cycles_below W (Z.of_nat (length (train_loader env (epoch s)))).
Proof.
  intros HW Hrun. unfold run_epoch, train_epoch in Hrun.
  apply bind_Ok in Hrun as (s1 & Htrain & [= <-]).
  apply bind_Ok in Htrain as ([s2 acc2] & Htrain & [= <-]).
  apply train_batches_counts in Htrain as [Hni Hno]; [|exact HW|lia].
  destruct (end_of_epoch_inv s2) as (_ & _ & _ & Hni' & _ & Hno' & _).
  cbn [fst]. rewrite Hni', Hno', Hni, Hno.
  unfold full_cycles_below at 2. rewrite Z.add_0_l.
  destruct (Z.eqb_spec W 1); [lia|]. rewrite Z.div_0_l by lia. lia.
Qed.

Lemma while_epochs_calm (N : nat) (fuel : nat) :
  forall s s',
    0 < W -> epoch s <= num_epochs cfg ->
    (forall l e, diverging (evaluate_classifier env l e) = false) ->
    (forall e, length (train_loader env e) = N) ->
    while_epochs r_zero cfg env fuel s = Some (Ok s') ->
    epoch s' = num_epochs cfg /\
    num_iter (metrics s')
      = num_iter (metrics s) + (num_epochs cfg - epoch s) * Z.of_nat N /\
    num_opt_steps (metrics s')
      = num_opt_steps (metrics s)
        + (num_epochs cfg - epoch s) * full_cycles_below W (Z.of_nat N).
Proof.
  induction fuel as [|fuel IH]; simpl; intros s s' HW Hle Hcalm Hload Hrun;
    destruct (Z.ltb_spec (epoch s) (num_epochs cfg)); try discriminate;
    try (injection Hrun as <-;
         assert (Hz : num_epochs cfg - epoch s = 0) by lia;
         rewrite Hz; repeat apply conj; lia).
  destruct (run_epoch r_zero cfg env s) as [s1|e] eqn:Hepoch; [|discriminate].
  pose proof (run_epoch_counts _ _ HW Hepoch) as [Hni Hno].
  rewrite Hload in Hni, Hno.
  apply run_epoch_epoch in Hepoch as (s0 & _ & -> & He).
  pose proof (end_of_epoch_epoch s0) as Hnext. rewrite Hcalm, He in Hnext.
  apply IH in Hrun as (Hend & Hni' & Hno'); auto; [|lia].
  rewrite Hnext in Hni', Hno'. repeat apply conj; [exact Hend | nia | nia].
Qed.

(** X9: a run whose evaluation never diverges, over a loader of [N] batches an
    epoch, ends with the epoch counter at [num_epochs]; it has processed
    [N] batches and taken [N / W] optimizer steps ([N - 1] for [W = 1]) in
    each of the [num_epochs - epoch] epochs it ran. *)
Theorem calm_run_reaches_num_epochs (N : nat) (s s' : St) :
  0 < W -> epoch s <= num_epochs cfg ->
  (forall l e, diverging (evaluate_classifier env l e) = false) ->
  (forall e, length (train_loader env e) = N) ->
  run_batch_train r_zero cfg env s = Some (Ok s') ->
  epoch s' = num_epochs cfg /\
  num_iter (metrics s')
    = num_iter (metrics s) + (num_epochs cfg - epoch s) * Z.of_nat N /\
  num_opt_steps (metrics s')
    = num_opt_steps (metrics s)
      + (num_epochs cfg - epoch s)
        * (if W =? 1 then Z.max (Z.of_nat N - 1) 0 else Z.of_nat N / W).
Proof.
  intros HW Hle Hcalm Hload Hrun. unfold run_batch_train in Hrun.
  by apply (while_epochs_calm N) in Hrun.
Qed.

Lemma while_epochs_exit (fuel : nat) :
  forall s s', while_epochs r_zero cfg env fuel s = Some (Ok s') ->
               num_epochs cfg <= epoch s'.
Proof.
  induction fuel as [|fuel IH]; simpl; intros s s' Hrun;
    destruct (Z.ltb_spec (epoch s) (num_epochs cfg)); try discriminate;
    try (by injection Hrun as <-).
  destruct (run_epoch r_zero cfg env s) as [s1|e]; [|discriminate].
  by eapply IH.
Qed.

Lemma seed_rngs_seeded (s : St) :
  rng s = Some (seed cfg) -> seed_rngs cfg s = s.
Proof. destruct s. simpl. by intros ->. Qed.

(** X10: a finished run is not run again: calling [run_batch_train] on the
    trainer a run has returned changes nothing, whether that run ended
    normally or by divergence. *)
Theorem rerun_changes_nothing (s s' : St) :
  run_batch_train r_zero cfg env s = Some (Ok s') ->
  run_batch_train r_zero cfg env s' = Some (Ok s').
Proof.
  intros Hrun. unfold run_batch_train in *.
  pose proof (while_epochs_exit _ _ _ Hrun) as Hdone.
  assert (Hrng : rng s' = Some (seed cfg)).
  { eapply (while_epochs_rel (fun a b => rng b = rng a)) in Hrun; auto.
    - intros; congruence.
    - intros ? ? ? ? ? ? Hstep. by apply batch_step_inv in Hstep as (_ & ? & _).
    - intros s0. by destruct (end_of_epoch_inv s0) as (_ & _ & ? & _). }
  rewrite (seed_rngs_seeded s' Hrng). by apply while_epochs_done.
Qed.

(** ** The launcher *)

Lemma np_arange_lookup (n : Z) (i : nat) :
  (i < Z.to_nat n)%nat -> np_arange n !! i = Some (Z.of_nat i).
Proof.
  intros Hi. unfold np_arange.
  rewrite list_lookup_fmap, lookup_seq_lt by exact Hi. reflexivity.
Qed.

Lemma np_arange_length (n : Z) : length (np_arange n) = Z.to_nat n.
Proof. unfold np_arange. by rewrite length_fmap, length_seq. Qed.

Lemma run_seeds_Ok (mode : string) (new_trainer : Z -> Trainer Learner Batch R LR Res Ik CJ T) (seeds : list Z) :
  forall results final,
    run_seeds r_zero mode new_trainer seeds results = Some (Ok final) ->
    exists added, final = results ++ added /\ length added = length seeds /\
      forall i sd, seeds !! i = Some sd ->
        exists s', run_mode r_zero (t_cfg (new_trainer sd)) (t_env (new_trainer sd))
                     mode (t_state (new_trainer sd)) = Some (Ok s') /\
                   added !! i = Some (metrics s').
Proof.
  induction seeds as [|sd rest IH]; simpl; intros results final Hrun.
  - injection Hrun as <-. exists []. rewrite app_nil_r.
    repeat apply conj; auto. intros i sd' Hi. discriminate.
  - destruct (run_mode r_zero _ _ mode _) as [[s1|e]|] eqn:Hone; try discriminate.
    apply IH in Hrun as (added & -> & Hlen & Hall).
    exists (metrics s1 :: added). rewrite <- app_assoc. simpl.
    repeat apply conj; auto.
    intros [|i] sd' Hi; simpl in *.
    + injection Hi as <-. eauto.
    + by apply Hall.
Qed.

Lemma run_seeds_Raise (mode : string) (new_trainer : Z -> Trainer Learner Batch R LR Res Ik CJ T) (seeds : list Z) :
  forall results i sd e,
    seeds !! i = Some sd ->
    (forall j sd', (j < i)%nat -> seeds !! j = Some sd' ->
       exists s', run_mode r_zero (t_cfg (new_trainer sd')) (t_env (new_trainer sd'))
                    mode (t_state (new_trainer sd')) = Some (Ok s')) ->
    run_mode r_zero (t_cfg (new_trainer sd)) (t_env (new_trainer sd))
      mode (t_state (new_trainer sd)) = Some (Raise e) ->
    run_seeds r_zero mode new_trainer seeds results = Some (Raise e).
Proof.
  induction seeds as [|sd0 rest IH]; intros results i sd e Hi Hbefore Hfail;
    [discriminate|].
  destruct i as [|i]; simpl in *.
  - injection Hi as ->. by rewrite Hfail.
  - destruct (Hbefore 0%nat sd0 ltac:(lia) eq_refl) as (s0 & Hs0). rewrite Hs0.
    eapply IH; [exact Hi | | exact Hfail].
    intros j sd' Hj Hsd'. apply (Hbefore (S j) sd'); [lia | exact Hsd'].
Qed.

(** X12: when [run_main] gets to write its file, the list it dumps has one
    entry per seed [0 .. n_repeat - 1], in that order, each the metrics of
    the finished run of a fresh trainer for that seed; the file is
    [directory + o], with no separator put between the two. *)
Theorem run_main_one_result_per_seed (args : Args)
    (new_trainer : Z -> Trainer Learner Batch R LR Res Ik CJ T) (path : string)
    (results : list (Metrics Res T)) :
  run_main r_zero args new_trainer = Some (Ok (path, results)) ->
  path = (or_else (dir args) "result_dumps/" ++ o args)%string /\
  length results = Z.to_nat (n_repeat args) /\
  forall i, (i < Z.to_nat (n_repeat args))%nat ->
    let trainer := new_trainer (Z.of_nat i) in
    exists s',
      run_mode r_zero (t_cfg trainer) (t_env trainer) (train_mode args)
               (t_state trainer) = Some (Ok s') /\
      results !! i = Some (metrics s').
Proof.
  unfold run_main. intros Hrun.
  destruct (run_seeds r_zero (train_mode args) _ _ []) as [[final|e]|] eqn:Hseeds;
    try discriminate.
  injection Hrun as <- <-.
  apply run_seeds_Ok in Hseeds as (added & -> & Hlen & Hall). simpl.
  rewrite np_arange_length in Hlen.
  repeat apply conj; auto.
  intros i Hi. apply Hall. by apply np_arange_lookup.
Qed.

(** X13: the first seed whose run raises ends [run_main] with that error: the
    metrics of the seeds that had finished are dropped and no file is
    written. *)
Theorem run_main_stops_at_first_error (args : Args)
    (new_trainer : Z -> Trainer Learner Batch R LR Res Ik CJ T) (i : nat) (e : Error) :
  let run sd :=
    let trainer := new_trainer sd in
    run_mode r_zero (t_cfg trainer) (t_env trainer) (train_mode args)
             (t_state trainer) in
  (i < Z.to_nat (n_repeat args))%nat ->
  (forall j, (j < i)%nat -> exists s', run (Z.of_nat j) = Some (Ok s')) ->
  run (Z.of_nat i) = Some (Raise e) ->
  run_main r_zero args new_trainer = Some (Raise e).
Proof.
  intros run Hi Hbefore Hfail. unfold run_main.
  rewrite (run_seeds_Raise (train_mode args) new_trainer
             (np_arange (n_repeat args)) [] i (Z.of_nat i) e); auto.
  - by apply np_arange_lookup.
  - intros j sd' Hj Hsd'.
    rewrite np_arange_lookup in Hsd' by lia. injection Hsd' as <-.
    by apply Hbefore.
Qed.

(** X14: once the configuration is read, a mode name that is neither
    ['vanilla'] nor ['distributed'] raises [NotImplementedError] at the
    first seed; with [n_repeat <= 0] there is no seed, the loop raises
    nothing, and an empty list is written. *)
Theorem unknown_mode_needs_a_seed (args : Args)
    (new_trainer : Z -> Trainer Learner Batch R LR Res Ik CJ T) :
  train_mode args <> "vanilla"%string ->
  train_mode args <> "distributed"%string ->
  run_main r_zero args new_trainer
    = if 0 <? n_repeat args then Some (Raise NotImplementedError)
      else Some (Ok ((or_else (dir args) "result_dumps/" ++ o args)%string, [])).
Proof.
  intros Hv Hd. unfold run_main, np_arange.
  destruct (Z.ltb_spec 0 (n_repeat args)) as [Hpos|Hnone].
  - destruct (Z.to_nat (n_repeat args)) as [|n] eqn:Hn; [lia|].
    simpl. unfold run_mode.
    apply String.eqb_neq in Hv, Hd. by rewrite Hv, Hd.
  - replace (Z.to_nat (n_repeat args)) with 0%nat by lia. reflexivity.
Qed.

(** ** Aggregators that do not iterate *)

Lemma aggregation_phase_iters (batch_ix : Z) (G0 : Jacobian R) (s : St) (acc : Acc)
    (s' : St) (acc' : Acc) :
  (forall g M ik ax, gar_num_iter (snd (aggregate env g M ik ax)) = 0) ->
  aggregation_phase env batch_ix G0 (s, acc) = (s', acc') ->
  loc_gm_iter acc' = loc_gm_iter acc.
Proof.
  intros Hzero. unfold aggregation_phase, compression_phase.
  destruct (C_J s) as [cj|].
  - destruct (compress env cj G0 (current_lr env (learner s))) as [ik cj1].
    cbn [with_metrics with_compression gar].
    specialize (Hzero (gar s) (G_sparse env cj1) ik (axis env cj1)).
    destruct (aggregate env (gar s) (G_sparse env cj1) ik (axis env cj1))
      as [agg_g gar1].
    intros [= <- <-]. simpl in *. lia.
  - specialize (Hzero (gar s) G0 (I_k s) 0).
    destruct (aggregate env (gar s) G0 (I_k s) 0) as [agg_g gar1].
    intros [= <- <-]. simpl in *. lia.
Qed.

Lemma train_batches_no_iters (batches : list Batch) :
  forall batch_ix s acc s' acc',
    (forall g M ik ax, gar_num_iter (snd (aggregate env g M ik ax)) = 0) ->
    loc_gm_iter acc = 0 ->
    train_batches r_zero cfg env batch_ix batches (s, acc) = Ok (s', acc') ->
    epoch_gm_iter (metrics s') = epoch_gm_iter (metrics s) /\
    avg_gm_cost (metrics s') = avg_gm_cost (metrics s) /\
    loc_gm_iter acc' = 0.
Proof.
  induction batches as [|b rest IH]; simpl;
    intros batch_ix s acc s' acc' Hzero Hacc Hrun.
  - injection Hrun as -> ->. auto.
  - apply bind_Ok in Hrun as ([s1 acc1] & Hstep & Hrest).
    assert (Hacc1 : loc_gm_iter acc1 = 0).
    { pose proof Hstep as Hsplit.
      apply batch_step_split in Hsplit as (G1 & [s2 acc2] & Hrec & Hst).
      apply record_gradient_inv in Hrec
        as (_&_&_&_&_&_&_&_&_&_&_&_&_&_&_&_&_&_&_&_& Hli & _).
      destruct (is_full_cycle _ _).
      - destruct (aggregation_phase env batch_ix G1 (s2, acc2)) as [s3 acc3] eqn:Hagg.
        apply (aggregation_phase_iters _ _ _ _ _ _ Hzero) in Hagg.
        injection Hst as _ ->. lia.
      - injection Hst as _ ->. lia. }
    apply batch_step_inv in Hstep
      as (_ & _ & _ & _ & _ & _ & _ & _ & Hgi & _ & Havg).
    rewrite Hacc1 in Hgi. simpl in Hgi.
    apply IH in Hrest as (Hgi' & Havg' & Hacc'); auto.
    repeat apply conj; congruence.
Qed.

(** X8: with an aggregator that reports no iterations ([num_iter] 0 after
    every call) the run appends nothing to [epoch_gm_iter], and when that
    series sums to 0 at the start (the empty series does) [avg_gm_cost] is
    never written. *)
Theorem non_iterative_gar_writes_no_average (full k : nat) (s s' : St)
    (acc' : Acc) :
  (forall g M ik ax, gar_num_iter (snd (aggregate env g M ik ax)) = 0) ->
  sum_int (epoch_gm_iter (metrics s)) = 0 ->
  run_prefix r_zero cfg env full k s = Ok (s', acc') ->
  epoch_gm_iter (metrics s') = epoch_gm_iter (metrics s) /\
  avg_gm_cost (metrics s') = avg_gm_cost (metrics s).
Proof.
  intros Hzero Hsum Hrun. revert Hsum.
  eapply (run_prefix_from_fresh (fun a b =>
            sum_int (epoch_gm_iter (metrics a)) = 0 ->
            epoch_gm_iter (metrics b) = epoch_gm_iter (metrics a) /\
            avg_gm_cost (metrics b) = avg_gm_cost (metrics a)));
    [ | | | | exact Hrun].
  - auto.
  - intros s1 s2 s3 H12 H23 Hs.
    destruct (H12 Hs) as [Hg Ha]. rewrite <- Hg in Hs.
    destruct (H23 Hs) as [Hg' Ha']. split; congruence.
  - intros batches s1 s2 acc2 Htrain _.
    by apply train_batches_no_iters in Htrain as (? & ? & _).
  - intros s1 Hs.
    destruct (end_of_epoch_inv s1) as (_&_&_&_&_&_&_&_&_&_& Hgi & _).
    split; [exact Hgi|].
    unfold end_of_epoch.
    destruct (diverging _), (has_lrs cfg); simpl; by rewrite Hs.
Qed.

End Properties.

(** * The properties on the concrete pipeline *)

(** With a window of four, the optimizer has stepped once after the fourth
    batch and not before. *)
Example window_of_four :
  let steps k :=
    match run_prefix 0 (demo_cfg 5 4) (demo_env loader4 calm 7) 0 k demo_init with
    | Ok (s, _) => Some (num_opt_steps (metrics s))
    | Raise _ => None
    end in
  (steps 1%nat, steps 2%nat, steps 3%nat, steps 4%nat)
  = (Some 0, Some 0, Some 0, Some 1).
Proof. vm_compute. reflexivity. Qed.

Lemma aggregation_runs_on_full_cycle_witness :
  batch_step 0 (demo_cfg 5 4) (demo_env loader4 calm 7) 3 [4] after_three
    = Ok after_four /\
  num_opt_steps (metrics (fst after_four))
    = num_opt_steps (metrics (fst after_three)) + 1.
Proof.
  assert (Hstep : batch_step 0 (demo_cfg 5 4) (demo_env loader4 calm 7) 3 [4]
                    after_three = Ok after_four) by (vm_compute; reflexivity).
  split; [exact Hstep|].
  destruct (aggregation_runs_on_full_cycle _ _ _ _ _ _ _ Hstep)
    as (G1 & st1 & _ & Hiff & _).
  apply Hiff. split; [reflexivity | discriminate].
Defined.

(** C2 as stated fails: with evaluation losses 0.1, 0.2, NaN and five
    configured epochs the run ends at the third epoch boundary with the
    epoch counter at 6, not 5. *)
Lemma divergence_overshoots_num_epochs :
  exists s',
    run_batch_train 0 (demo_cfg 5 1) (demo_env loader4 losses_nan 7) demo_init
      = Some (Ok s') /\
    diverging (losses_nan 2) = true /\
    num_iter (metrics s') = 12 /\
    epoch s' = 6 /\
    epoch s' <> num_epochs (demo_cfg 5 1).
Proof.
  eexists. split; [vm_compute; reflexivity|].
  repeat apply conj; try reflexivity. discriminate.
Qed.

Lemma divergence_stops_run_witness :
  epoch demo_init <= num_epochs (demo_cfg 5 1) /\
  (exists r,
     run_batch_train 0 (demo_cfg 5 1) (demo_env loader4 always_nan 7) demo_init
       = Some r) /\
  (exists s1,
     train_epoch 0 (demo_cfg 5 1) (demo_env loader4 always_nan 7) demo_init = Ok s1 /\
     epoch (end_of_epoch (demo_cfg 5 1) (demo_env loader4 always_nan 7) s1) = 5 + 1) /\
  (exists s',
     run_batch_train 0 (demo_cfg 2 4) (demo_env loader4 calm 7) demo_init
       = Some (Ok s') /\
     epoch s' = num_epochs (demo_cfg 2 4)).
Proof.
  assert (Hle : epoch demo_init <= num_epochs (demo_cfg 5 1)) by (simpl; lia).
  destruct (divergence_stops_run 0 (demo_cfg 5 1) (demo_env loader4 always_nan 7)
              demo_init Hle) as (Hterm & _ & Hdiv & _).
  refine (conj Hle (conj Hterm (conj _ _))).
  - destruct (train_epoch 0 (demo_cfg 5 1) (demo_env loader4 always_nan 7) demo_init)
      as [s1|e] eqn:Htrain; [|vm_compute in Htrain; discriminate].
    exists s1. split; [reflexivity|].
    destruct (Hdiv s1 0%nat ltac:(simpl; lia) eq_refl) as (Hstop & _).
    apply Hstop. reflexivity.
  - assert (Hle2 : epoch demo_init <= num_epochs (demo_cfg 2 4)) by (simpl; lia).
    destruct (divergence_stops_run 0 (demo_cfg 2 4) (demo_env loader4 calm 7)
                demo_init Hle2) as (_ & _ & _ & _ & Hcalm).
    destruct (run_batch_train 0 (demo_cfg 2 4) (demo_env loader4 calm 7) demo_init)
      as [[s'|e]|] eqn:Hrun; try (vm_compute in Hrun; discriminate).
    exists s'. split; [reflexivity|].
    exact (Hcalm (fun _ _ => eq_refl) s' eq_refl).
Defined.

(** C3 as stated fails: after a first gradient of length 3 a gradient of
    length 1 raises no error; it is broadcast over its row and stored. *)
Lemma length_one_gradient_is_stored :
  exists s' acc',
    run_prefix 0 (demo_cfg 5 2) (demo_env loader_short calm 7) 0 2 demo_init
      = Ok (s', acc') /\
    loader_short 0 = [[1; 2; 3]; [9]] /\
    num_param (metrics s') = Some 3%nat /\
    length [9] <> 3%nat /\
    G s' = Some {| jac_cols := 3; jac_rows := [[1; 2; 3]; [9; 9; 9]] |}.
Proof.
  eexists _, _. split; [vm_compute; reflexivity|].
  repeat apply conj; try reflexivity. discriminate.
Qed.

Lemma buffer_allocated_once_lengths_checked_witness :
  G (fst after_first) = Some {| jac_cols := 3; jac_rows := [[1; 2; 3]; [0; 0; 0]] |} /\
  (set_row {| jac_cols := 3; jac_rows := [[1; 2; 3]; [0; 0; 0]] |} (1 mod 2) [8; 9]
     = Raise ValueError /\
   batch_step 0 (demo_cfg 5 2) (demo_env loader_bad calm 7) 1 [8; 9] after_first
     = Raise ValueError) /\
  (exists G1,
     G (fst after_first) = Some G1 /\ jac_cols G1 = 3%nat /\
     length (jac_rows G1) = 2%nat /\
     Forall (fun row => length row = 3%nat) (jac_rows G1) /\
     num_param (metrics (fst after_first)) = Some 3%nat) /\
  (exists st',
     batch_step 0 (demo_cfg 5 2) (demo_env loader_short calm 7) 1 [9] after_first
       = Ok st' /\
     G (fst st') = Some {| jac_cols := 3; jac_rows := [[1; 2; 3]; [9; 9; 9]] |}) /\
  (exists st',
     batch_step 0 (demo_cfg 5 2) (demo_env loader_short calm 7) 1 [4; 5; 6] after_first
       = Ok st' /\
     G (fst st') = Some {| jac_cols := 3; jac_rows := [[1; 2; 3]; [4; 5; 6]] |}).
Proof.
  split; [reflexivity|]. refine (conj _ (conj _ (conj _ _))).
  - destruct (buffer_allocated_once_lengths_checked 0 (demo_cfg 5 2)
                (demo_env loader_bad calm 7) 1 [8; 9] (fst after_first)
                (snd after_first)) as (_ & _ & Hbad & _).
    destruct (Hbad {| jac_cols := 3; jac_rows := [[1; 2; 3]; [0; 0; 0]] |}
                eq_refl) as [_ Hrow]; [discriminate | discriminate |].
    apply (Hrow 1%nat); [discriminate | reflexivity].
  - destruct (buffer_allocated_once_lengths_checked 0 (demo_cfg 5 2)
                (demo_env loader_bad calm 7) 0 [1; 2; 3] demo_init fresh_acc)
      as (Hfirst & _).
    apply (Hfirst eq_refl after_first). vm_compute. reflexivity.
  - destruct (buffer_allocated_once_lengths_checked 0 (demo_cfg 5 2)
                (demo_env loader_short calm 7) 1 [9] (fst after_first)
                (snd after_first)) as (_ & _ & _ & Hstore).
    destruct (Hstore {| jac_cols := 3; jac_rows := [[1; 2; 3]; [0; 0; 0]] |}
                1%nat eq_refl) as [_ Hone]; [discriminate | reflexivity |].
    exact (Hone 9 eq_refl).
  - destruct (buffer_allocated_once_lengths_checked 0 (demo_cfg 5 2)
                (demo_env loader_short calm 7) 1 [4; 5; 6] (fst after_first)
                (snd after_first)) as (_ & _ & _ & Hstore).
    destruct (Hstore {| jac_cols := 3; jac_rows := [[1; 2; 3]; [0; 0; 0]] |}
                1%nat eq_refl) as [Hsame _]; [discriminate | reflexivity |].
    exact (Hsame eq_refl).
Defined.

(** C5 fails on the code: one epoch of four batches appends four entries
    (the running sums of the epoch) to [epoch_grad_cost] and to
    [epoch_agg_cost], not one. *)
Theorem epoch_series_grow_per_batch :
  exists s',
    run_epoch 0 (demo_cfg 5 4) (demo_env loader4 calm 7) demo_init = Ok s' /\
    epoch s' = 1 /\
    epoch_grad_cost (metrics s') = [7; 14; 21; 28] /\
    epoch_agg_cost (metrics s') = [0; 0; 0; 5] /\
    total_grad_cost (metrics s') = Some 70.
Proof.
  eexists. split; [vm_compute; reflexivity|].
  repeat apply conj; reflexivity.
Qed.

Lemma totals_at_epoch_boundary_witness :
  avg_gm_cost (metrics demo_init) = None /\
  Forall (fun x => 0 < x) (epoch_gm_iter (metrics demo_init)) /\
  epochs_iter 0 (demo_cfg 5 2) (demo_env loader4 calm 7) 2 demo_init
    = Ok after_two_epochs /\
  total_gm_iter (metrics after_two_epochs)
    = Some (sum_int (epoch_gm_iter (metrics after_two_epochs))) /\
  avg_gm_cost (metrics after_two_epochs)
    = (if sum_int (epoch_gm_iter (metrics after_two_epochs)) =? 0 then None
       else Some (t_div (sum_time (epoch_agg_cost (metrics after_two_epochs)))
                        (sum_int (epoch_gm_iter (metrics after_two_epochs))))).
Proof.
  assert (Havg : avg_gm_cost (metrics demo_init) = None) by reflexivity.
  assert (Hpos : Forall (fun x => 0 < x) (epoch_gm_iter (metrics demo_init)))
    by constructor.
  assert (Hrun : epochs_iter 0 (demo_cfg 5 2) (demo_env loader4 calm 7) 2 demo_init
                 = Ok after_two_epochs) by (vm_compute; reflexivity).
  destruct (totals_at_epoch_boundary 0 (demo_cfg 5 2) (demo_env loader4 calm 7)
              1 demo_init after_two_epochs Havg Hpos Hrun)
    as (_ & _ & _ & Hiter & _ & Hmean).
  exact (conj Havg (conj Hpos (conj Hrun (conj Hiter Hmean)))).
Defined.

Lemma gar_counters_recorded_then_reset_witness :
  let env := demo_env loader4 calm 7 in
  let G1 := {| jac_cols := 1%nat; jac_rows := [[1]; [2]; [3]; [4]] |} in
  compression_phase env 3 G1 (fst after_three, snd after_three)
    = (G1, [], 0, (fst after_three, snd after_three)) /\
  aggregate env (gar (fst after_three)) G1 [] 0
    = ([1], {| agg_time := 5; gar_num_iter := 2 |}) /\
  loc_gm_iter (snd (aggregation_phase env 3 G1 (fst after_three, snd after_three)))
    = loc_gm_iter (snd after_three) + 2 /\
  gar_num_iter (gar (fst (aggregation_phase env 3 G1
                            (fst after_three, snd after_three)))) = 0.
Proof.
  intros env G1.
  assert (Hc : compression_phase env 3 G1 (fst after_three, snd after_three)
               = (G1, [], 0, (fst after_three, snd after_three))) by reflexivity.
  assert (Ha : aggregate env (gar (fst after_three)) G1 [] 0
               = ([1], {| agg_time := 5; gar_num_iter := 2 |})) by reflexivity.
  destruct (gar_counters_recorded_then_reset 0 (demo_cfg 5 4) env 3 G1
              (fst after_three) (snd after_three) G1 [] 0
              (fst after_three) (snd after_three) [1]
              {| agg_time := 5; gar_num_iter := 2 |} Hc Ha) as (Hphase & _).
  destruct (aggregation_phase env 3 G1 (fst after_three, snd after_three))
    as [s' acc'] eqn:Hagg.
  destruct (Hphase s' acc' eq_refl) as (Hiter & _ & _ & Hzero).
  exact (conj Hc (conj Ha (conj Hiter Hzero))).
Defined.

(** C8 as stated fails: with a window of two and three batches an epoch,
    the fourth gradient of the run (global step 3, the first batch of the
    second epoch) goes to row 0; row [3 mod 2] still holds the gradient of
    step 1.  And a gradient of length 1 in a buffer of three columns is not
    what its row holds afterwards. *)
Lemma global_step_row_mismatch :
  (exists s' acc' G',
     run_prefix 0 (demo_cfg 5 2) (demo_env loader3 calm 7) 1 1 demo_init
       = Ok (s', acc') /\
     G s' = Some G' /\
     num_iter (metrics s') = 3 + 1 /\
     learner s' = [40; 40] /\
     get_row G' 0 = Ok [40; 40] /\
     get_row G' (3 mod 2) = Ok [20; 20] /\
     get_row G' (3 mod 2) <> Ok (learner s')) /\
  (exists agg_ix G1 st1,
     record_gradient 0 (demo_cfg 5 2) (demo_env loader_short calm 7) 1 [9]
       after_first = Ok (agg_ix, G1, st1) /\
     get_row G1 (1 mod 2) = Ok [9; 9; 9] /\
     get_row G1 (1 mod 2) <> Ok [9]).
Proof.
  split.
  - eexists _, _, _. split; [vm_compute; reflexivity|].
    repeat apply conj; try reflexivity. discriminate.
  - eexists _, _, _. split; [vm_compute; reflexivity|].
    split; [reflexivity | discriminate].
Qed.

Lemma gradient_stored_in_row_witness :
  exists agg_ix G1 st1,
    record_gradient 0 (demo_cfg 5 4) (demo_env loader4 calm 7) 3 [4]
      (fst after_three, snd after_three) = Ok (agg_ix, G1, st1) /\
    length (gradient_of (demo_env loader4 calm 7) (fst after_three) [4])
      = jac_cols G1 /\
    get_row G1 (3 mod 4) = Ok [4] /\
    get_row G1 2 = Ok [3].
Proof.
  destruct (record_gradient 0 (demo_cfg 5 4) (demo_env loader4 calm 7) 3 [4]
              (fst after_three, snd after_three))
    as [[[agg_ix G1] st1]|e] eqn:Hrec; [|vm_compute in Hrec; discriminate].
  exists agg_ix, G1, st1. split; [reflexivity|].
  pose proof Hrec as Hval. vm_compute in Hval. injection Hval as <- <- <-.
  assert (Hlen : length (gradient_of (demo_env loader4 calm 7) (fst after_three) [4])
                 = 1%nat) by reflexivity.
  destruct (gradient_stored_in_row 0 (demo_cfg 5 4) (demo_env loader4 calm 7)
              3 [4] (fst after_three) (snd after_three) _ _ _ Hrec Hlen)
    as (_ & Hrow & Hrest).
  refine (conj Hlen (conj Hrow _)).
  rewrite (Hrest {| jac_cols := 1%nat; jac_rows := [[1]; [2]; [3]; [0]] |}
             3%nat 2 2%nat eq_refl eq_refl eq_refl ltac:(discriminate)).
  reflexivity.
Defined.

(** C9 as stated fails: two runs with the same seed, configuration and
    data, one on a clock that reports 7 ticks for every measured duration
    and one on a clock that reports 8, end with different metrics. *)
Lemma wall_clock_breaks_determinism :
  same_computation (demo_env loader4 calm 7) (demo_env loader4 calm 8) /\
  exists s1 s2,
    run_batch_train 0 (demo_cfg 1 4) (demo_env loader4 calm 7) demo_init
      = Some (Ok s1) /\
    run_batch_train 0 (demo_cfg 1 4) (demo_env loader4 calm 8) demo_init
      = Some (Ok s2) /\
    epoch_grad_cost (metrics s1) = [7; 14; 21; 28] /\
    epoch_grad_cost (metrics s2) = [8; 16; 24; 32] /\
    metrics s1 <> metrics s2.
Proof.
  split.
  - unfold same_computation. simpl. repeat apply conj; auto.
    intros g1 g2 M ik ax Hiter. split; [reflexivity|]. by rewrite Hiter.
  - eexists _, _. split; [vm_compute; reflexivity|].
    split; [vm_compute; reflexivity|].
    repeat apply conj; try reflexivity. discriminate.
Qed.

Lemma runs_agree_but_for_clock_witness :
  same_computation (demo_env loader4 calm 7) (demo_env loader4 calm 8) /\
  same_outcome
    (run_batch_train 0 (demo_cfg 1 4) (demo_env loader4 calm 7) demo_init)
    (run_batch_train 0 (demo_cfg 1 4) (demo_env loader4 calm 8) demo_init).
Proof.
  assert (Hsame : same_computation (demo_env loader4 calm 7)
                                   (demo_env loader4 calm 8)).
  { unfold same_computation. simpl. repeat apply conj; auto.
    intros g1 g2 M ik ax Hiter. split; [reflexivity|].
    exact (f_equal (fun n => n + 2) Hiter). }
  split; [exact Hsame|].
  exact (runs_agree_but_for_clock 0 (demo_cfg 1 4) (demo_env loader4 calm 7)
           (demo_env loader4 calm 8) demo_init Hsame).
Defined.

Lemma num_iter_eq_num_grad_steps_witness :
  num_iter (metrics demo_init) = num_grad_steps (metrics demo_init) /\
  exists s',
    run_batch_train 0 (demo_cfg 2 4) (demo_env loader4 calm 7) demo_init
      = Some (Ok s') /\
    num_iter (metrics s') = 8 /\
    num_iter (metrics s') = num_grad_steps (metrics s').
Proof.
  assert (Heq : num_iter (metrics demo_init) = num_grad_steps (metrics demo_init))
    by reflexivity.
  split; [exact Heq|].
  destruct (num_iter_eq_num_grad_steps 0 (demo_cfg 2 4) (demo_env loader4 calm 7)
              demo_init Heq) as (_ & _ & Hend).
  destruct (run_batch_train 0 (demo_cfg 2 4) (demo_env loader4 calm 7) demo_init)
    as [[s'|e]|] eqn:Hrun; try (vm_compute in Hrun; discriminate).
  exists s'. split; [reflexivity|]. split; [|exact (Hend s' eq_refl)].
  vm_compute in Hrun. injection Hrun as <-. reflexivity.
Defined.

(** * The further properties on the concrete pipeline *)

Lemma optimizer_steps_of_epoch_witness :
  0 < num_batches (demo_cfg 5 2) /\
  exists s' acc',
    train_batches 0 (demo_cfg 5 2) (demo_env loader4 calm 7) 0 (loader4 0)
      (demo_init, fresh_acc) = Ok (s', acc') /\
    num_iter (metrics s') = 4 /\ num_opt_steps (metrics s') = 2.
Proof.
  assert (HW : 0 < num_batches (demo_cfg 5 2)) by (simpl; lia).
  split; [exact HW|].
  destruct (train_batches 0 (demo_cfg 5 2) (demo_env loader4 calm 7) 0 (loader4 0)
              (demo_init, fresh_acc)) as [[s' acc']|e] eqn:Hrun;
    [|vm_compute in Hrun; discriminate].
  exists s', acc'. split; [reflexivity|].
  exact (optimizer_steps_of_epoch 0 (demo_cfg 5 2) (demo_env loader4 calm 7)
           (loader4 0) demo_init fresh_acc s' acc' HW Hrun).
Defined.

Lemma totals_untouched_inside_epoch_witness :
  exists s' acc',
    train_batches 0 (demo_cfg 5 2) (demo_env loader4 calm 7) 0 (loader4 1)
      (after_two_epochs, fresh_acc) = Ok (s', acc') /\
    total_cost (metrics s') = total_cost (metrics after_two_epochs) /\
    avg_gm_cost (metrics s') = avg_gm_cost (metrics after_two_epochs).
Proof.
  destruct (train_batches 0 (demo_cfg 5 2) (demo_env loader4 calm 7) 0 (loader4 1)
              (after_two_epochs, fresh_acc)) as [[s' acc']|e] eqn:Hrun;
    [|vm_compute in Hrun; discriminate].
  exists s', acc'. split; [reflexivity|].
  destruct (totals_untouched_inside_epoch 0 (demo_cfg 5 2) (demo_env loader4 calm 7)
              (loader4 1) 0 after_two_epochs fresh_acc s' acc' Hrun)
    as (_ & _ & _ & _ & _ & Hcost & Havg).
  exact (conj Hcost Havg).
Defined.

Lemma no_compressor_no_residual_witness :
  t_pos t_zero = false /\ C_J demo_init = None /\
  exists s' acc',
    run_prefix 0 (demo_cfg 5 2) (demo_env loader4 calm 7) 1 3 demo_init
      = Ok (s', acc') /\
    jacobian_residual (metrics s') = [] /\
    epoch_compression_cost (metrics s') = [].
Proof.
  assert (Hpos : t_pos (t_zero : Z) = false) by reflexivity.
  assert (Hcj : C_J demo_init = None) by reflexivity.
  refine (conj Hpos (conj Hcj _)).
  destruct (run_prefix 0 (demo_cfg 5 2) (demo_env loader4 calm 7) 1 3 demo_init)
    as [[s' acc']|e] eqn:Hrun; [|vm_compute in Hrun; discriminate].
  exists s', acc'. split; [reflexivity|].
  destruct (no_compressor_no_residual 0 (demo_cfg 5 2) (demo_env loader4 calm 7)
              1 3 demo_init s' acc' Hpos Hcj Hrun) as (_ & _ & Hjr & Hcc).
  exact (conj Hjr Hcc).
Defined.

Lemma residual_per_optimizer_step_witness :
  is_Some (C_J demo_compressed) /\
  exists s' acc',
    run_prefix 0 (demo_cfg 5 2) (demo_env loader4 calm 7) 1 3 demo_compressed
      = Ok (s', acc') /\
    num_opt_steps (metrics s') = 3 /\
    Z.of_nat (length (jacobian_residual (metrics s')))
      - Z.of_nat (length (jacobian_residual (metrics demo_compressed)))
    = num_opt_steps (metrics s') - num_opt_steps (metrics demo_compressed).
Proof.
  assert (Hcj : is_Some (C_J demo_compressed)) by (exists tt; reflexivity).
  split; [exact Hcj|].
  destruct (run_prefix 0 (demo_cfg 5 2) (demo_env loader4 calm 7) 1 3 demo_compressed)
    as [[s' acc']|e] eqn:Hrun; [|vm_compute in Hrun; discriminate].
  exists s', acc'. split; [reflexivity|].
  split; [vm_compute in Hrun; injection Hrun as <- _; reflexivity|].
  exact (proj2 (residual_per_optimizer_step 0 (demo_cfg 5 2)
                  (demo_env loader4 calm 7) 1 3 demo_compressed s' acc' Hcj Hrun)).
Defined.

Lemma nonpositive_window_raises_witness :
  num_batches (demo_cfg 5 0) <= 0 /\
  epoch demo_init < num_epochs (demo_cfg 5 0) /\
  run_batch_train 0 (demo_cfg 5 0) (demo_env loader4 calm 7) demo_init
    = Some (Raise ZeroDivisionError) /\
  run_batch_train 0 (demo_cfg 5 (-3)) (demo_env loader4 calm 7) demo_init
    = Some (Raise ValueError).
Proof.
  assert (HW : num_batches (demo_cfg 5 0) <= 0) by (simpl; lia).
  assert (Hlt : epoch demo_init < num_epochs (demo_cfg 5 0)) by (simpl; lia).
  refine (conj HW (conj Hlt (conj _ _))).
  - exact (nonpositive_window_raises 0 (demo_cfg 5 0) (demo_env loader4 calm 7)
             demo_init [1] [[2]; [3]; [4]] HW (fun _ => eq_refl) Hlt eq_refl).
  - exact (nonpositive_window_raises 0 (demo_cfg 5 (-3)) (demo_env loader4 calm 7)
             demo_init [1] [[2]; [3]; [4]] ltac:(simpl; lia) (fun _ => eq_refl)
             Hlt eq_refl).
Defined.

Lemma loader4_lengths (e : Z) (l b : list Z) :
  b ∈ train_loader (demo_env loader4 calm 7) e ->
  length (flatten_grads (demo_env loader4 calm 7)
            (forward_backward (demo_env loader4 calm 7) l b)) = 1%nat.
Proof.
  simpl. unfold loader4. intros Hb.
  repeat (apply elem_of_cons in Hb as [->|Hb]; [reflexivity|]).
  by apply elem_of_nil in Hb.
Defined.

Lemma uniform_gradients_never_raise_witness :
  0 < num_batches (demo_cfg 5 4) /\
  buffer_ok (demo_cfg 5 4) 1 demo_init /\
  exists s',
    run_batch_train 0 (demo_cfg 5 4) (demo_env loader4 calm 7) demo_init
      = Some (Ok s') /\
    exists G', G s' = Some G' /\
      jac_cols G' = 1%nat /\ length (jac_rows G') = 4%nat /\
      Forall (fun row => length row = 1%nat) (jac_rows G').
Proof.
  assert (HW : 0 < num_batches (demo_cfg 5 4)) by (simpl; lia).
  assert (Hok : buffer_ok (demo_cfg 5 4) 1 demo_init) by exact I.
  refine (conj HW (conj Hok _)).
  destruct (uniform_gradients_never_raise 0 (demo_cfg 5 4)
              (demo_env loader4 calm 7) 1 demo_init HW Hok loader4_lengths)
    as (s' & Hrun & _ & Hran).
  exists s'. split; [exact Hrun|].
  apply Hran; [simpl; lia | discriminate].
Defined.

Lemma buffer_shape_kept_witness :
  G (fst after_three) = Some {| jac_cols := 1; jac_rows := [[1]; [2]; [3]; [0]] |} /\
  exists s' acc' G',
    run_prefix 0 (demo_cfg 5 4) (demo_env loader4 calm 7) 2 1 (fst after_three)
      = Ok (s', acc') /\
    G s' = Some G' /\ jac_cols G' = 1%nat /\ length (jac_rows G') = 4%nat /\
    num_param (metrics s') = Some 1%nat.
Proof.
  assert (HG : G (fst after_three)
               = Some {| jac_cols := 1; jac_rows := [[1]; [2]; [3]; [0]] |})
    by reflexivity.
  split; [exact HG|].
  destruct (run_prefix 0 (demo_cfg 5 4) (demo_env loader4 calm 7) 2 1
              (fst after_three)) as [[s' acc']|e] eqn:Hrun;
    [|vm_compute in Hrun; discriminate].
  destruct (buffer_shape_kept 0 (demo_cfg 5 4) (demo_env loader4 calm 7) 2 1
              (fst after_three) s' acc' _ HG Hrun) as (G' & HG' & Hc & Hr & Hp).
  exists s', acc', G'. exact (conj eq_refl (conj HG' (conj Hc (conj Hr Hp)))).
Defined.

Lemma buffer_holds_last_window_witness :
  0 < num_batches (demo_cfg 5 2) /\
  exists gs s' acc' G',
    epoch_gradients 0 (demo_cfg 5 2) (demo_env loader3 calm 7) 0 (loader3 0)
      (demo_init, fresh_acc) = Ok (gs, (s', acc')) /\
    G s' = Some G' /\
    Forall (fun g => length g = jac_cols G') gs /\
    gs = [[10; 10]; [20; 20]; [30; 30]] /\
    get_row G' (Z.of_nat 1 mod 2) = Ok [20; 20] /\
    get_row G' (Z.of_nat 2 mod 2) = Ok [30; 30].
Proof.
  assert (HW : 0 < num_batches (demo_cfg 5 2)) by (simpl; lia).
  split; [exact HW|].
  destruct (epoch_gradients 0 (demo_cfg 5 2) (demo_env loader3 calm 7) 0 (loader3 0)
              (demo_init, fresh_acc)) as [[gs [s' acc']]|e] eqn:Hrun;
    [|vm_compute in Hrun; discriminate].
  pose proof Hrun as Hval. vm_compute in Hval. injection Hval as <- <- <-.
  assert (HG : G (fst (snd (match
              epoch_gradients 0 (demo_cfg 5 2) (demo_env loader3 calm 7) 0
                (loader3 0) (demo_init, fresh_acc)
            with Ok r => r | Raise _ => ([], (demo_init, fresh_acc)) end)))
          = Some {| jac_cols := 2; jac_rows := [[30; 30]; [20; 20]] |})
    by (vm_compute; reflexivity).
  rewrite Hrun in HG. simpl in HG.
  assert (Hlen : Forall (fun g : list Z => length g = 2%nat)
                   [[10; 10]; [20; 20]; [30; 30]])
    by (repeat constructor).
  destruct (buffer_holds_last_window 0 (demo_cfg 5 2) (demo_env loader3 calm 7)
              (loader3 0) demo_init fresh_acc _ _ _ _ HW Hrun HG Hlen)
    as (_ & _ & Hrows).
  eexists _, _, _, _.
  refine (conj eq_refl (conj HG (conj Hlen (conj eq_refl (conj _ _))))).
  - exact (Hrows 1%nat [20; 20] eq_refl ltac:(simpl; lia)).
  - exact (Hrows 2%nat [30; 30] eq_refl ltac:(simpl; lia)).
Defined.

Lemma calm_run_reaches_num_epochs_witness :
  0 < num_batches (demo_cfg 2 4) /\
  epoch demo_init <= num_epochs (demo_cfg 2 4) /\
  exists s',
    run_batch_train 0 (demo_cfg 2 4) (demo_env loader4 calm 7) demo_init
      = Some (Ok s') /\
    epoch s' = 2 /\ num_iter (metrics s') = 8 /\ num_opt_steps (metrics s') = 2.
Proof.
  assert (HW : 0 < num_batches (demo_cfg 2 4)) by (simpl; lia).
  assert (Hle : epoch demo_init <= num_epochs (demo_cfg 2 4)) by (simpl; lia).
  refine (conj HW (conj Hle _)).
  destruct (run_batch_train 0 (demo_cfg 2 4) (demo_env loader4 calm 7) demo_init)
    as [[s'|e]|] eqn:Hrun; try (vm_compute in Hrun; discriminate).
  exists s'. split; [reflexivity|].
  exact (calm_run_reaches_num_epochs 0 (demo_cfg 2 4) (demo_env loader4 calm 7)
           4 demo_init s' HW Hle (fun _ _ => eq_refl) (fun _ => eq_refl) Hrun).
Defined.

Lemma rerun_changes_nothing_witness :
  exists s',
    run_batch_train 0 (demo_cfg 5 1) (demo_env loader4 losses_nan 7) demo_init
      = Some (Ok s') /\
    epoch s' = 6 /\
    run_batch_train 0 (demo_cfg 5 1) (demo_env loader4 losses_nan 7) s'
      = Some (Ok s').
Proof.
  destruct (run_batch_train 0 (demo_cfg 5 1) (demo_env loader4 losses_nan 7)
              demo_init) as [[s'|e]|] eqn:Hrun;
    try (vm_compute in Hrun; discriminate).
  exists s'. split; [reflexivity|]. split.
  - vm_compute in Hrun. injection Hrun as <-. reflexivity.
  - exact (rerun_changes_nothing 0 (demo_cfg 5 1) (demo_env loader4 losses_nan 7)
             demo_init s' Hrun).
Defined.

Lemma run_main_one_result_per_seed_witness :
  exists path results,
    run_main 0 default_args demo_trainer = Some (Ok (path, results)) /\
    path = "result_dumps/default_output"%string /\
    length results = 1%nat.
Proof.
  destruct (run_main 0 default_args demo_trainer) as [[[path results]|e]|]
    eqn:Hrun; try (vm_compute in Hrun; discriminate).
  exists path, results. split; [reflexivity|].
  destruct (run_main_one_result_per_seed 0 default_args demo_trainer path
              results Hrun) as (Hpath & Hlen & _).
  exact (conj Hpath Hlen).
Defined.

Lemma run_main_stops_at_first_error_witness :
  let args := {| train_mode := "distributed"; conf := None; o := "out";
                 dir := None; n_repeat := 3 |} in
  let run sd :=
    run_mode 0 (t_cfg (flaky_trainer sd)) (t_env (flaky_trainer sd))
             (train_mode args) (t_state (flaky_trainer sd)) in
  (2 < Z.to_nat (n_repeat args))%nat /\
  (exists s0, run 0 = Some (Ok s0) /\ num_iter (metrics s0) = 8) /\
  (exists s1, run 1 = Some (Ok s1) /\ num_iter (metrics s1) = 8) /\
  run 2 = Some (Raise ValueError) /\
  run_main 0 args flaky_trainer = Some (Raise ValueError).
Proof.
  intros args run.
  assert (Hi : (2 < Z.to_nat (n_repeat args))%nat) by (simpl; lia).
  assert (H0 : exists s0, run 0 = Some (Ok s0) /\ num_iter (metrics s0) = 8).
  { eexists. split; vm_compute; reflexivity. }
  assert (H1 : exists s1, run 1 = Some (Ok s1) /\ num_iter (metrics s1) = 8).
  { eexists. split; vm_compute; reflexivity. }
  assert (Hfail : run 2 = Some (Raise ValueError)) by (vm_compute; reflexivity).
  refine (conj Hi (conj H0 (conj H1 (conj Hfail _)))).
  apply (run_main_stops_at_first_error 0 args flaky_trainer 2%nat ValueError Hi).
  - intros [|[|j]] Hj.
    + destruct H0 as (s0 & Hrun & _). exists s0. exact Hrun.
    + destruct H1 as (s1 & Hrun & _). exists s1. exact Hrun.
    + exfalso. lia.
  - exact Hfail.
Defined.

Lemma unknown_mode_needs_a_seed_witness :
  let args n := {| train_mode := "fed"; conf := None; o := "out";
                   dir := Some "runs"%string; n_repeat := n |} in
  train_mode (args 1) <> "vanilla"%string /\
  train_mode (args 1) <> "distributed"%string /\
  run_main 0 (args 1) demo_trainer = Some (Raise NotImplementedError) /\
  run_main 0 (args 0) demo_trainer = Some (Ok ("runsout"%string, [])).
Proof.
  intros args.
  assert (Hv : train_mode (args 1) <> "vanilla"%string) by discriminate.
  assert (Hd : train_mode (args 1) <> "distributed"%string) by discriminate.
  refine (conj Hv (conj Hd (conj _ _))).
  - exact (unknown_mode_needs_a_seed 0 (args 1) demo_trainer Hv Hd).
  - exact (unknown_mode_needs_a_seed 0 (args 0) demo_trainer Hv Hd).
Defined.

Lemma non_iterative_gar_writes_no_average_witness :
  sum_int (epoch_gm_iter (metrics demo_init)) = 0 /\
  exists s' acc',
    run_prefix 0 (demo_cfg 5 2) (plain_env loader4 calm 7) 1 3 demo_init
      = Ok (s', acc') /\
    num_opt_steps (metrics s') = 3 /\
    epoch_gm_iter (metrics s') = [] /\
    avg_gm_cost (metrics s') = None.
Proof.
  assert (Hsum : sum_int (epoch_gm_iter (metrics demo_init)) = 0) by reflexivity.
  split; [exact Hsum|].
  destruct (run_prefix 0 (demo_cfg 5 2) (plain_env loader4 calm 7) 1 3 demo_init)
    as [[s' acc']|e] eqn:Hrun; [|vm_compute in Hrun; discriminate].
  exists s', acc'. split; [reflexivity|].
  split; [vm_compute in Hrun; injection Hrun as <- _; reflexivity|].
  exact (non_iterative_gar_writes_no_average 0 (demo_cfg 5 2)
           (plain_env loader4 calm 7) 1 3 demo_init s' acc'
           (fun _ _ _ _ => eq_refl) Hsum Hrun).
Defined.
